(** * File matching and selection in vlab-ew4all

    A shallow embedding of the selection logic of
    [src/files/downloader.py] (function [download_GOES]) and of
    [src/files/downloader_jpss.py] (function [download_jpss_sdr]), and the
    properties of the specification checked against it.

    Listing a bucket and downloading an object are external operations:
    the selection takes the listing as a list of object keys and gives
    the list of keys selected for download. What surrounds it (the
    timestamp argument, the prefixes, the pages of a listing and the
    downloads) is in the modules [GoesRequest] and [JpssDownload], with
    the bucket and the local files as explicit values.

    Python strings are modelled by [string], with characters restricted to
    code points below 256; integers by [Z]; an exception raised by a
    library call by an explicit error result. *)

From Stdlib Require Import ZArith List String Ascii Bool Lia.
Import ListNotations.
Local Open Scope string_scope.
Local Open Scope Z_scope.

(** ** Python string operations used by the two files *)

Module PyStr.

(** [s[a:b]] for non-negative constant bounds. *)
Definition slice (s : string) (a b : nat) : string :=
  substring a (b - a) s.

(** [s[:-1]]. *)
Definition drop_last (s : string) : string :=
  substring 0 (String.length s - 1) s.

(** [s[1:]]. *)
Definition tail (s : string) : string :=
  substring 1 (String.length s - 1) s.

(** [s.startswith(p)]. *)
Definition startswith (s p : string) : bool := prefix p s.

(** [s.endswith(suf)]. *)
Definition endswith (s suf : string) : bool :=
  (String.length suf <=? String.length s)%nat
  && String.eqb
       (substring (String.length s - String.length suf)
                  (String.length suf) s) suf.

(** [s.find(sub, start)]: the least index at or after [start] where [sub]
    occurs, [-1] when there is none. *)
Definition find (s sub : string) (start : nat) : Z :=
  match index start sub s with
  | Some i => Z.of_nat i
  | None => -1
  end.

(** [sub in s]. *)
Definition contains (sub s : string) : bool :=
  match index 0 sub s with
  | Some _ => true
  | None => false
  end.

(** [s.split(sep)] for a non-empty separator. [skip] counts the characters
    of a recognised separator that are still to be passed over. *)
Fixpoint split_go (sep s : string) (skip : nat) (cur : string) : list string :=
  match s with
  | EmptyString => [cur]
  | String c r =>
      match skip with
      | S k => split_go sep r k cur
      | O =>
          if prefix sep s
          then cur :: split_go sep r (String.length sep - 1) EmptyString
          else split_go sep r 0 (cur ++ String c EmptyString)
      end
  end.

Definition split (s sep : string) : list string :=
  split_go sep s 0 EmptyString.

(** [s.split('/')[-1]]. *)
Definition file_name (key : string) : string :=
  last (split key "/") EmptyString.

(** Truth value of a string in a condition. *)
Definition truthy (s : string) : bool :=
  negb (String.eqb s EmptyString).

(** *** [int(s)] *)

Definition digit_of (c : ascii) : option Z :=
  let n := Z.of_nat (nat_of_ascii c) in
  if (48 <=? n) && (n <=? 57) then Some (n - 48) else None.

Definition is_digit (c : ascii) : bool :=
  match digit_of c with Some _ => true | None => false end.

(** Characters that [int] strips on both sides. *)
Definition is_space (c : ascii) : bool :=
  let n := Z.of_nat (nat_of_ascii c) in
  ((9 <=? n) && (n <=? 13)) || (n =? 32) || (n =? 133) || (n =? 160).

Fixpoint lstrip (cs : list ascii) : list ascii :=
  match cs with
  | c :: r => if is_space c then lstrip r else cs
  | [] => []
  end.

Definition strip (cs : list ascii) : list ascii :=
  rev (lstrip (rev (lstrip cs))).

(** Decimal digits, with single underscores allowed between digits. *)
Fixpoint int_body (cs : list ascii) (acc : Z) (after_digit : bool) : option Z :=
  match cs with
  | [] => if after_digit then Some acc else None
  | c :: r =>
      match digit_of c with
      | Some d => int_body r (10 * acc + d) true
      | None =>
          if Ascii.eqb c "_"%char && after_digit
          then int_body r acc false
          else None
      end
  end.

(** [int(s)]; [None] stands for [ValueError]. *)
Definition py_int (s : string) : option Z :=
  match strip (list_ascii_of_string s) with
  | c :: r =>
      if Ascii.eqb c "+"%char then int_body r 0 false
      else if Ascii.eqb c "-"%char then option_map Z.opp (int_body r 0 false)
      else int_body (c :: r) 0 false
  | [] => None
  end.

(** [\d+] over the whole string. *)
Fixpoint all_digits (s : string) : bool :=
  match s with
  | EmptyString => true
  | String c r => is_digit c && all_digits r
  end.

(** The value of a string of decimal digits; [None] when some character is
    not a digit or the string is empty. *)
Definition num (s : string) : option Z :=
  if all_digits s && negb (String.eqb s EmptyString)
  then int_body (list_ascii_of_string s) 0 false
  else None.

(** *** Formatting *)

Definition digit_char (d : Z) : ascii :=
  ascii_of_nat (Z.to_nat (48 + d)).

Fixpoint dec_go (fuel : nat) (n : Z) (acc : string) : string :=
  match fuel with
  | O => acc
  | S f =>
      let acc' := String (digit_char (n mod 10)) acc in
      if n / 10 =? 0 then acc' else dec_go f (n / 10) acc'
  end.

(** [str(n)] for [n >= 0]. *)
Definition dec (n : Z) : string :=
  dec_go (S (Z.to_nat (Z.log2 n))) n EmptyString.

Fixpoint zeros (k : nat) : string :=
  match k with
  | O => EmptyString
  | S k' => String "0"%char (zeros k')
  end.

(** [f'{n:0{w}d}']: zero padding to width [w], the sign counted in it. *)
Definition fmt_0d (w : nat) (n : Z) : string :=
  if n <? 0
  then let d := dec (- n) in
       String "-"%char (zeros (w - 1 - String.length d) ++ d)
  else let d := dec n in zeros (w - String.length d) ++ d.

(** The text of a number of at most two, three or four digits, with
    leading zeros. *)
Definition digits2 (n : Z) : string :=
  String (digit_char (n / 10)) (String (digit_char (n mod 10)) "").
Definition digits3 (n : Z) : string :=
  String (digit_char (n / 100)) (digits2 (n mod 100)).
Definition digits4 (n : Z) : string :=
  String (digit_char (n / 1000)) (digits3 (n mod 1000)).

(** The numbers below [k], downwards. *)
Fixpoint upto (k : nat) : list Z :=
  match k with
  | O => []
  | S k' => Z.of_nat k' :: upto k'
  end.


End PyStr.

(** ** The [datetime] operations used by the two files *)

Module PyDatetime.
Import PyStr.

Record datetime := mkdt {
  year : Z; month : Z; day : Z;
  hour : Z; minute : Z; second : Z
}.

Definition is_leap (y : Z) : bool :=
  (y mod 4 =? 0) && (negb (y mod 100 =? 0) || (y mod 400 =? 0)).

Definition days_in_year (y : Z) : Z := if is_leap y then 366 else 365.

Definition days_in_month (y m : Z) : Z :=
  if m =? 2 then (if is_leap y then 29 else 28)
  else if (m =? 4) || (m =? 6) || (m =? 9) || (m =? 11) then 30
  else 31.

Definition days_before_year (y : Z) : Z :=
  let p := y - 1 in p * 365 + p / 4 - p / 100 + p / 400.

Definition days_before_month (y m : Z) : Z :=
  match m with
  | 1 => 0 | 2 => 31 | 3 => 59 | 4 => 90 | 5 => 120 | 6 => 151
  | 7 => 181 | 8 => 212 | 9 => 243 | 10 => 273 | 11 => 304 | 12 => 334
  | _ => 0
  end
  + (if (2 <? m) && is_leap y then 1 else 0).

Definition MINYEAR : Z := 1.
Definition MAXYEAR : Z := 9999.

(** [datetime(y, m, d, h, mi, s)]; [None] stands for [ValueError]. *)
Definition datetime_new (y m d h mi s : Z) : option datetime :=
  if (MINYEAR <=? y) && (y <=? MAXYEAR)
     && (1 <=? m) && (m <=? 12)
     && (1 <=? d) && (d <=? days_in_month y m)
     && (0 <=? h) && (h <=? 23)
     && (0 <=? mi) && (mi <=? 59)
     && (0 <=? s) && (s <=? 59)
  then Some (mkdt y m d h mi s)
  else None.

Definition valid (t : datetime) : Prop :=
  datetime_new (year t) (month t) (day t) (hour t) (minute t) (second t)
  = Some t.

(** [t.toordinal()]. *)
Definition toordinal (t : datetime) : Z :=
  days_before_year (year t) + days_before_month (year t) (month t) + day t.

(** Seconds since the start of day 0; [a - b] is the difference of these. *)
Definition total_seconds (t : datetime) : Z :=
  toordinal t * 86400 + hour t * 3600 + minute t * 60 + second t.

(** [abs(a - b)], a [timedelta], in seconds. *)
Definition abs_diff (a b : datetime) : Z :=
  Z.abs (total_seconds a - total_seconds b).

(** Day of the year, [%j] before padding. *)
Definition yday (t : datetime) : Z :=
  days_before_month (year t) (month t) + day t.

(** Month and day of the [j]-th day of year [y], for
    [1 <= j <= days_in_year y]. *)
Fixpoint month_day (y : Z) (m : Z) (left : nat) (j : Z) : Z * Z :=
  match left with
  | O => (m, j)
  | S k =>
      if j <=? days_in_month y m then (m, j)
      else month_day y (m + 1) k (j - days_in_month y m)
  end.

(** [date.fromordinal(j - 1 + date(y, 1, 1).toordinal())] for
    [1 <= j <= 366]: the [j]-th day of year [y], which for [j = 366] in a
    common year is the first of January of the next year. *)
Definition date_of_yday (y j : Z) : Z * Z * Z :=
  if j <=? days_in_year y
  then let '(m, d) := month_day y 1 11 j in (y, m, d)
  else (y + 1, 1, j - days_in_year y).

(** [datetime.strptime(s, '%Y%j%H%M%S')] on a string of at least 13
    characters, which is all [download_GOES] passes to it (line 174). The
    five fields take at most 4+3+2+2+2 characters and the whole string has
    to be consumed, so a longer string fails and a string of 13 characters
    is read with every field at its full width. [None] stands for
    [ValueError]. Strings shorter than 13 characters are outside the
    model ([None]). *)
Definition strptime_Yj (s : string) : option datetime :=
  if negb (String.length s =? 13)%nat then None
  else
    match num (slice s 0 4), num (slice s 4 7), num (slice s 7 9),
          num (slice s 9 11), num (slice s 11 13) with
    | Some y, Some j, Some h, Some mi, Some sec =>
        if (1 <=? j) && (j <=? 366) && (h <=? 23) && (mi <=? 59)
           && (sec <=? 61)
        then
          if y =? 0 then None
          else let '(y', m', d') := date_of_yday y j in
               datetime_new y' m' d' h mi sec
        else None
    | _, _, _, _, _ => None
    end.

(** [t.strftime('%Y%j%H%M%S')] and [t.strftime('%Y%j%H%M')]. The year is
    written by the platform's [strftime] without padding. *)
Definition strftime_YjHMS (t : datetime) : string :=
  dec (year t) ++ fmt_0d 3 (yday t) ++ fmt_0d 2 (hour t)
  ++ fmt_0d 2 (minute t) ++ fmt_0d 2 (second t).

Definition strftime_YjHM (t : datetime) : string :=
  dec (year t) ++ fmt_0d 3 (yday t) ++ fmt_0d 2 (hour t)
  ++ fmt_0d 2 (minute t).

(** Comparison of two datetimes: field by field, most significant first. *)
Fixpoint lex_compare (a b : list Z) : comparison :=
  match a, b with
  | x :: a', y :: b' =>
      match x ?= y with
      | Eq => lex_compare a' b'
      | c => c
      end
  | _, _ => Eq
  end.

Definition fields (t : datetime) : list Z :=
  [year t; month t; day t; hour t; minute t; second t].

Definition compare (a b : datetime) : comparison :=
  lex_compare (fields a) (fields b).

(** [a < b], [a >= b], [a == b]. *)
Definition ltb (a b : datetime) : bool :=
  match compare a b with Lt => true | _ => false end.

Definition geb (a b : datetime) : bool := negb (ltb a b).

Definition eqb (a b : datetime) : bool :=
  match compare a b with Eq => true | _ => false end.

End PyDatetime.

Import PyStr PyDatetime.

(** ** downloader.py: selection of the objects of one GOES request *)

Module Goes.

(** The [scan_params] dictionary: each key may be absent. *)
Record scan_params_t := mksp {
  sp_mode : option string;
  sp_sector : option string
}.

(** The arguments of [download_GOES] that the selection reads.
    [dt_input] and [has_seconds] are the values of lines 47-57 for a
    timestamp that parsed; a timestamp that does not parse ends the
    request there. [band] is the value of [int(band)] when a band is
    given. *)
Record request := mkreq {
  dt_input : datetime;
  has_seconds : bool;
  satellite : string;
  product : string;
  band : option Z;
  scan_params : option scan_params_t
}.

Definition valid_satellites : list string := ["G16"; "G17"; "G18"; "G19"].

Definition satellite_num (rq : request) : string := tail (satellite rq).

Definition timestamp_prefix (rq : request) : string :=
  if has_seconds rq then strftime_YjHMS (dt_input rq)
  else strftime_YjHM (dt_input rq).

Definition mode (rq : request) : string :=
  match scan_params rq with
  | Some sp => match sp_mode sp with Some m => m | None => "6" end
  | None => "6"
  end.

Definition sector (rq : request) : option string :=
  match scan_params rq with
  | Some sp => sp_sector sp
  | None => None
  end.

(** Product type (lines 70-75). *)
Definition is_mesoscale (rq : request) : bool := endswith (product rq) "M".
Definition is_conus (rq : request) : bool :=
  endswith (product rq) "C" && negb (is_mesoscale rq).
Definition is_glm_product (rq : request) : bool :=
  String.eqb (product rq) "GLM-L2-LCFA".
Definition is_suvi_product (rq : request) : bool :=
  startswith (product rq) "SUVI-L1b-".
Definition is_seis_product (rq : request) : bool :=
  startswith (product rq) "SEIS-L1b-".
Definition is_mag_product (rq : request) : bool :=
  String.eqb (product rq) "MAG-L1b-GEOF".

(** [is_suvi_product or is_seis_product or is_mag_product]. *)
Definition is_fixed_format (rq : request) : bool :=
  is_suvi_product rq || is_seis_product rq || is_mag_product rq.

(** [f'-M{m}C{b:02d}'] *)
Definition band_token (m b : Z) : string :=
  "-M" ++ dec m ++ "C" ++ fmt_0d 2 b.

Definition range_1_7 : list Z := [1; 2; 3; 4; 5; 6].
Definition range_1_17 : list Z :=
  [1; 2; 3; 4; 5; 6; 7; 8; 9; 10; 11; 12; 13; 14; 15; 16].

(** Lines 101-113: some object's file name holds a mode and band token. *)
Definition is_band_specific (all_objects : list string) : bool :=
  existsb (fun key =>
    existsb (fun m =>
      existsb (fun b => contains (band_token m b) (file_name key))
              range_1_17)
      range_1_7)
    all_objects.

(** Lines 115-139: the band part of the pattern. *)
Definition band_str (rq : request) (all_objects : list string) : string :=
  if is_glm_product rq || is_fixed_format rq then ""
  else if is_band_specific all_objects
       then "C" ++ fmt_0d 2 (match band rq with Some b => b | None => 1 end)
       else "".

(** Lines 126-143. *)
Definition sectors (rq : request) : list string :=
  if is_glm_product rq || is_fixed_format rq then [""]
  else if is_mesoscale rq then
    match sector rq with
    | Some s => if String.eqb s "M1" || String.eqb s "M2"
                then [s] else ["M1"; "M2"]
    | None => ["M1"; "M2"]
    end
  else [""].

(** Line 145. *)
Definition possible_modes (rq : request) : list string :=
  if negb (is_glm_product rq || is_fixed_format rq)
  then [mode rq; "3"; "4"; "6"]
  else [""].

(** The variables that the loop over the objects updates
    (lines 146-151). The list [attempted_patterns] is only appended to,
    once per round, and is carried next to the state. *)
Record state := mkst {
  matching_files : list string;
  used_mode : string;
  used_sector : string;
  closest_file : option string;
  closest_time_diff : Z
}.

Definition init_state (rq : request) : state :=
  mkst []
       (if negb (is_glm_product rq || is_fixed_format rq)
        then mode rq else "")
       ""
       None
       600.

(** Lines 155-159. *)
Definition target_pattern (rq : request) (bstr try_mode sec : string)
  : string :=
  let product_with_sector :=
    if is_mesoscale rq then drop_last (product rq) ++ sec
    else product rq in
  "OR_" ++ product_with_sector
        ++ (if truthy try_mode then "-M" ++ try_mode else "")
        ++ bstr ++ "_G" ++ satellite_num rq ++ "_s".

(** Lines 168-176: the text between [_s] and [_e] without its last
    character; [None] when the object is passed over. *)
Definition file_timestamp_str (key : string) : option string :=
  let timestamp_start := find key "_s" 0 + 2 in
  let timestamp_end := find key "_e" (Z.to_nat timestamp_start) in
  if timestamp_end =? -1 then None
  else
    let file_timestamp_full :=
      slice key (Z.to_nat timestamp_start) (Z.to_nat timestamp_end) in
    if (String.length file_timestamp_full <? 14)%nat then None
    else Some (drop_last file_timestamp_full).

(** [matching_files or closest_file] *)
Definition found (st : state) : bool :=
  match matching_files st with
  | _ :: _ => true
  | [] => match closest_file st with
          | Some k => truthy k
          | None => false
          end
  end.

Definition is_empty (l : list string) : bool :=
  match l with [] => true | _ :: _ => false end.

(** The body of the loop over the objects (lines 163-229). The boolean is
    true when the body leaves the loop with [break]. *)
Definition scan_obj (rq : request) (pattern try_mode sec : string)
    (st : state) (key : string) : state * bool :=
  if negb (startswith (file_name key) pattern) then (st, false)
  else
    match file_timestamp_str key with
    | None => (st, false)
    | Some ts =>
        if is_glm_product rq then
          if has_seconds rq then
            if String.eqb (slice ts 0 13) (timestamp_prefix rq)
            then (mkst [key] (used_mode st) sec (closest_file st)
                       (closest_time_diff st), true)
            else (st, false)
          else
            match strptime_Yj ts with
            | None => (st, false)
            | Some dt_file =>
                let time_diff := abs_diff dt_file (dt_input rq) in
                if (time_diff <=? 20)
                   && (is_empty (matching_files st) || (time_diff <? 20))
                then (mkst [key] (used_mode st) sec (closest_file st)
                           (closest_time_diff st), false)
                else (st, false)
            end
        else if is_conus rq then
          match strptime_Yj ts with
          | None => (st, false)
          | Some dt_file =>
              let time_diff := abs_diff dt_file (dt_input rq) in
              if (time_diff <=? 120)
                 && (match closest_file st with
                     | None => true
                     | Some _ => false
                     end
                     || (time_diff <? closest_time_diff st))
              then (mkst (matching_files st) try_mode sec (Some key) time_diff,
                    false)
              else (st, false)
          end
        else if is_fixed_format rq || startswith (product rq) "ABI-" then
          if String.eqb (slice ts 0 11) (slice (timestamp_prefix rq) 0 11)
          then (mkst (matching_files st ++ [key])%list (used_mode st)
                     (used_sector st)
                     (closest_file st) (closest_time_diff st), false)
          else (st, false)
        else
          match strptime_Yj ts with
          | None => (st, false)
          | Some dt_file =>
              let time_diff := abs_diff dt_file (dt_input rq) in
              if (time_diff <? 600)
                 && (is_empty (matching_files st)
                     || (time_diff <? closest_time_diff st))
              then (mkst [key] try_mode sec (closest_file st) time_diff, false)
              else (st, false)
          end
    end.

(** [for obj in all_objects: ...] *)
Fixpoint scan_objects (rq : request) (pattern try_mode sec : string)
    (st : state) (objs : list string) : state :=
  match objs with
  | [] => st
  | key :: rest =>
      let '(st', brk) := scan_obj rq pattern try_mode sec st key in
      if brk then st' else scan_objects rq pattern try_mode sec st' rest
  end.

(** [for sector in sectors: ...; if matching_files or closest_file: break]
    with the pattern of each round appended to [attempted_patterns]. *)
Fixpoint sector_loop (rq : request) (bstr : string)
    (all_objects : list string) (try_mode : string) (st : state)
    (attempted : list string) (secs : list string) : state * list string :=
  match secs with
  | [] => (st, attempted)
  | sec :: rest =>
      let pattern := target_pattern rq bstr try_mode sec in
      let st' := scan_objects rq pattern try_mode sec st all_objects in
      if found st' then (st', (attempted ++ [pattern])%list)
      else sector_loop rq bstr all_objects try_mode st'
                       (attempted ++ [pattern])%list rest
  end.

(** [for try_mode in possible_modes: ...; if ...: break] *)
Fixpoint mode_loop (rq : request) (bstr : string)
    (all_objects : list string) (st : state) (attempted : list string)
    (modes : list string) : state * list string :=
  match modes with
  | [] => (st, attempted)
  | try_mode :: rest =>
      let '(st', attempted') :=
        sector_loop rq bstr all_objects try_mode st attempted (sectors rq) in
      if found st' then (st', attempted')
      else mode_loop rq bstr all_objects st' attempted' rest
  end.

(** The state and the attempted patterns when the two loops are left
    (line 235). *)
Definition search (rq : request) (all_objects : list string)
  : state * list string :=
  mode_loop rq (band_str rq all_objects) all_objects (init_state rq) []
            (possible_modes rq).

(** The places where [download_GOES] returns before downloading, and the
    selection it goes on to download. *)
Inductive outcome :=
| InvalidSatellite
| NoFilesFound
| NoMatch (attempted : list string)
| Matched (files : list string) (mode_used sector_used : string).

(** Lines 38-41 and 97-99, then the search, then lines 236-244. *)
Definition download_GOES (rq : request) (all_objects : list string) : outcome :=
  if negb (existsb (String.eqb (satellite rq)) valid_satellites)
  then InvalidSatellite
  else if is_empty all_objects then NoFilesFound
  else
    let '(st, attempted) := search rq all_objects in
    match (if is_conus rq then closest_file st else None) with
    | Some k =>
        if truthy k then Matched [k] (used_mode st) (used_sector st)
        else if found st
             then Matched (matching_files st) (used_mode st) (used_sector st)
             else NoMatch attempted
    | None =>
        if found st
        then Matched (matching_files st) (used_mode st) (used_sector st)
        else NoMatch attempted
    end.

(** The keys handed to the download loop (line 251). *)
Definition selected (o : outcome) : list string :=
  match o with
  | Matched files _ _ => files
  | _ => []
  end.

(** The matching rules, in the order in which lines 179-229 test for
    them. *)
Inductive rule :=
| GlmSecond      (* lightning, query with seconds: line 182 *)
| GlmMinute      (* lightning, query without seconds: line 187 *)
| ConusClosest   (* line 197 *)
| ExactMinute    (* line 210 *)
| OtherClosest.  (* line 217 *)

Definition rule_of (rq : request) : rule :=
  if is_glm_product rq then
    if has_seconds rq then GlmSecond else GlmMinute
  else if is_conus rq then ConusClosest
  else if is_fixed_format rq || startswith (product rq) "ABI-"
       then ExactMinute
       else OtherClosest.

(** The timestamp text of an object that passes lines 165-175 for a
    pattern. *)
Definition candidate (pattern key : string) : option string :=
  if startswith (file_name key) pattern then file_timestamp_str key
  else None.

(** [time_diff] of such an object, when its timestamp parses. *)
Definition time_diff (rq : request) (pattern key : string) : option Z :=
  match candidate pattern key with
  | Some ts =>
      match strptime_Yj ts with
      | Some dt_file => Some (abs_diff dt_file (dt_input rq))
      | None => None
      end
  | None => None
  end.

(** [time_diff] when it is within two minutes (line 202), and when it is
    under ten minutes (line 222). *)
Definition conus_diff (rq : request) (pattern key : string) : option Z :=
  match time_diff rq pattern key with
  | Some d => if d <=? 120 then Some d else None
  | None => None
  end.

Definition other_diff (rq : request) (pattern key : string) : option Z :=
  match time_diff rq pattern key with
  | Some d => if d <? 600 then Some d else None
  | None => None
  end.

(** The test of lines 212-213 on an object that passes lines 165-175. *)
Definition exact_minute (rq : request) (pattern key : string) : bool :=
  match candidate pattern key with
  | Some ts => String.eqb (slice ts 0 11) (slice (timestamp_prefix rq) 0 11)
  | None => false
  end.

(** The (mode, sector) pairs in the order of the two loops, the pattern of
    a pair, and the loop over the objects for a pair. *)
Definition combos (rq : request) : list (string * string) :=
  list_prod (possible_modes rq) (sectors rq).

Definition pattern_of (rq : request) (all_objects : list string)
    (c : string * string) : string :=
  target_pattern rq (band_str rq all_objects) (fst c) (snd c).

Definition scan (rq : request) (all_objects : list string) (st : state)
    (c : string * string) : state :=
  scan_objects rq (pattern_of rq all_objects c) (fst c) (snd c) st
               all_objects.

(** The test that makes the loop body record an object, rule by rule
    (lines 183, 191, 202, 213 and 222). *)
Definition matches (rq : request) (pattern key : string) : bool :=
  match rule_of rq with
  | GlmSecond =>
      match candidate pattern key with
      | Some ts => String.eqb (slice ts 0 13) (timestamp_prefix rq)
      | None => false
      end
  | GlmMinute =>
      match time_diff rq pattern key with
      | Some d => d <=? 20
      | None => false
      end
  | ConusClosest =>
      match conus_diff rq pattern key with Some _ => true | None => false end
  | ExactMinute => exact_minute rq pattern key
  | OtherClosest =>
      match other_diff rq pattern key with Some _ => true | None => false end
  end.

(** The same request with another [band] argument. *)
Definition with_band (rq : request) (b : option Z) : request :=
  mkreq (dt_input rq) (has_seconds rq) (satellite rq) (product rq) b
        (scan_params rq).

(** The two nested loops read as one loop over the list of pairs. *)
Fixpoint combo_loop (rq : request) (all_objects : list string) (st : state)
    (attempted : list string) (cs : list (string * string))
  : state * list string :=
  match cs with
  | [] => (st, attempted)
  | c :: rest =>
      let st' := scan rq all_objects st c in
      if found st'
      then (st', (attempted ++ [pattern_of rq all_objects c])%list)
      else combo_loop rq all_objects st'
                      (attempted ++ [pattern_of rq all_objects c])%list rest
  end.

End Goes.

(** ** downloader_jpss.py: pairing of SDR and geolocation files *)

Module Jpss.

(** Exceptions of the library calls, and results that may raise. *)
Inductive exn := ValueError | IndexError.

Inductive result (A : Type) :=
| Ok (a : A)
| Raise (e : exn).
Arguments Ok {A} a.
Arguments Raise {A} e.

Definition bind {A B : Type} (r : result A) (f : A -> result B) : result B :=
  match r with
  | Ok a => f a
  | Raise e => Raise e
  end.

Notation "x <- c ;; f" := (bind c (fun x => f))
  (at level 61, c at next level, right associativity).

(** [try: body except Exception: return None] *)
Definition try_except {A : Type} (body : result (option A))
  : result (option A) :=
  match body with
  | Ok a => Ok a
  | Raise _ => Ok None
  end.

Definition int (s : string) : result Z :=
  match py_int s with
  | Some z => Ok z
  | None => Raise ValueError
  end.

Definition datetime (y m d h mi s : Z) : result PyDatetime.datetime :=
  match datetime_new y m d h mi s with
  | Some t => Ok t
  | None => Raise ValueError
  end.

(** [l[i]] *)
Definition item (l : list string) (i : nat) : result string :=
  match nth_error l i with
  | Some x => Ok x
  | None => Raise IndexError
  end.

(** Lines 25-26. *)
Definition target_data (band : string) : string :=
  if String.eqb band "DNB" then "VIIRS-DNB-SDR"
  else "VIIRS-" ++ band ++ "-SDR".

Definition target_data_geo (band : string) : list string :=
  if String.eqb band "DNB" then ["VIIRS-DNB-GEO"]
  else if startswith band "M" then ["VIIRS-MOD-GEO-TC"]
  else ["VIIRS-IMG-GEO-TC"].

(** Lines 29-38: the two bounds of the range. *)
Definition start_limiter (start : string) : result PyDatetime.datetime :=
  y <- int (slice start 0 4) ;;
  m <- int (slice start 5 7) ;;
  d <- int (slice start 8 10) ;;
  h <- int (slice start 11 13) ;;
  mi <- int (slice start 14 16) ;;
  datetime y m d h mi 0.

Definition end_limiter (start end_ : string) : result PyDatetime.datetime :=
  y <- int (slice start 0 4) ;;
  m <- int (slice start 5 7) ;;
  d <- int (slice start 8 10) ;;
  h <- int (slice end_ 11 13) ;;
  mi <- int (slice end_ 14 16) ;;
  datetime y m d h mi 0.

(** Up to [n] leading digits of [s]. *)
Fixpoint take_digits (n : nat) (s : string) : string :=
  match n, s with
  | S k, String c r =>
      if is_digit c then String c (take_digits k r) else EmptyString
  | _, _ => EmptyString
  end.

(** [d(\d{8})_t(\d{tmin,tmax})] matched at the start of [s]: the two
    groups. *)
Definition match_dt (tmin tmax : nat) (s : string) : option (string * string) :=
  match s with
  | String c r =>
      let date_str := take_digits 8 r in
      let time_str := take_digits tmax (substring 10 tmax r) in
      if Ascii.eqb c "d"%char
         && (String.length date_str =? 8)%nat
         && String.eqb (substring 8 2 r) "_t"
         && (tmin <=? String.length time_str)%nat
      then Some (date_str, time_str)
      else None
  | EmptyString => None
  end.

(** [re.search]: the match at the least position. *)
Fixpoint re_search_dt (tmin tmax : nat) (s : string)
  : option (string * string) :=
  match match_dt tmin tmax s with
  | Some g => Some g
  | None =>
      match s with
      | String _ r => re_search_dt tmin tmax r
      | EmptyString => None
      end
  end.

(** The six fields of the two groups (lines 60-67 and 88-95). *)
Definition datetime_of_groups (date_str time_str : string)
  : result PyDatetime.datetime :=
  y <- int (slice date_str 0 4) ;;
  m <- int (slice date_str 4 6) ;;
  d <- int (slice date_str 6 8) ;;
  h <- int (slice time_str 0 2) ;;
  mi <- int (slice time_str 2 4) ;;
  sec <- int (slice time_str 4 6) ;;
  datetime y m d h mi sec.

(** Lines 53-80. *)
Definition parse_dates_sdr (band s : string)
  : result (option PyDatetime.datetime) :=
  try_except
    (if String.eqb band "DNB" then
       match re_search_dt 7 7 s with
       | None => Ok None
       | Some (date_str, time_str) =>
           t <- datetime_of_groups date_str time_str ;; Ok (Some t)
       end
     else
       s1 <- item (split s "SDR/") 1 ;;
       s2 <- item (split s1 ".h5") 0 ;;
       let s3 := slice s2 21 38 in
       y <- int (slice s3 1 5) ;;
       m <- int (slice s3 5 7) ;;
       d <- int (slice s3 7 9) ;;
       h <- int (slice s3 11 13) ;;
       mi <- int (slice s3 13 15) ;;
       sec <- int (slice s3 15 17) ;;
       t <- datetime y m d h mi sec ;; Ok (Some t)).

(** Lines 82-98. *)
Definition parse_dates_geo (s : string) : result (option PyDatetime.datetime) :=
  try_except
    (match re_search_dt 6 7 s with
     | None => Ok None
     | Some (date_str, time_str) =>
         t <- datetime_of_groups date_str time_str ;; Ok (Some t)
     end).

(** The data frames are lists of rows, in the order of the listing. A row
    has the columns [Files] and [Date]. *)
Definition row : Type := string * option PyDatetime.datetime.
Definition dated : Type := string * PyDatetime.datetime.

(** [df['Date'] = df.Files.apply(parse)] *)
Fixpoint apply (parse : string -> result (option PyDatetime.datetime))
    (files : list string) : result (list row) :=
  match files with
  | [] => Ok []
  | f :: rest =>
      d <- parse f ;;
      rows <- apply parse rest ;;
      Ok ((f, d) :: rows)
  end.

(** [df.dropna(subset=['Date'])] *)
Fixpoint dropna (rows : list row) : list dated :=
  match rows with
  | [] => []
  | (f, Some d) :: rest => (f, d) :: dropna rest
  | (_, None) :: rest => dropna rest
  end.

(** [df[(df.Date >= start_limiter) & (df.Date < end_limiter)]] *)
Definition in_range (lo hi : PyDatetime.datetime) (rows : list dated)
  : list dated :=
  filter (fun r => geb (snd r) lo && ltb (snd r) hi) rows.

(** Line 48: the names that [list_blobs] keeps. *)
Definition list_blobs (include_checksums : bool) (names : list string)
  : list string :=
  filter (fun n => include_checksums || negb (endswith n ".sha384")) names.

(** Line 138: the geolocation files at the time of one SDR file. *)
Definition matched_geo (geo_files : list dated) (sdr_time : PyDatetime.datetime)
  : list string :=
  map fst (filter (fun geo => PyDatetime.eqb (snd geo) sdr_time) geo_files).

(** What the loop of lines 135-143 appends for one SDR file: the file
    and its geolocation files, or nothing when there is none. *)
Definition block (geo_files : list dated) (sdr : dated) : list string :=
  match matched_geo geo_files (snd sdr) with
  | [] => []
  | g :: gs => fst sdr :: g :: gs
  end.

(** Lines 135-143. *)
Fixpoint match_files (lets_get geo_files : list dated) : list string :=
  match lets_get with
  | [] => []
  | sdr :: rest =>
      match matched_geo geo_files (snd sdr) with
      | [] => match_files rest geo_files
      | g :: gs => ((fst sdr :: g :: gs) ++ match_files rest geo_files)%list
      end
  end.

(** [list(dict.fromkeys(l))]: the first occurrence of each element, in
    order. [seen] holds the keys already in the dictionary. *)
Fixpoint fromkeys (seen l : list string) : list string :=
  match l with
  | [] => []
  | x :: r =>
      if existsb (String.eqb x) seen then fromkeys seen r
      else x :: fromkeys (x :: seen) r
  end.

Definition dedup (l : list string) : list string := fromkeys [] l.

(** The geolocation rows of all the types of [target_data_geo]
    (lines 120-128). [storage] gives the names under a prefix. *)
Fixpoint geo_rows (include_checksums : bool) (storage : string -> list string)
    (date_path : string) (lo hi : PyDatetime.datetime) (geo_types : list string)
  : result (list dated) :=
  match geo_types with
  | [] => Ok []
  | geo_type :: rest =>
      rows <- apply parse_dates_geo
                (list_blobs include_checksums
                   (storage (geo_type ++ "/" ++ date_path))) ;;
      more <- geo_rows include_checksums storage date_path lo hi rest ;;
      Ok (in_range lo hi (dropna rows) ++ more)%list
  end.

(** [f'{year}/{month}/{day}/'] with the slices of [start]. *)
Definition date_path (start : string) : string :=
  slice start 0 4 ++ "/" ++ slice start 5 7 ++ "/" ++ slice start 8 10 ++ "/".

(** The SDR rows in the range (lines 111-116). *)
Definition lets_get (band start end_ : string) (include_checksums : bool)
    (storage : string -> list string) : result (list dated) :=
  lo <- start_limiter start ;;
  hi <- end_limiter start end_ ;;
  rows <- apply (parse_dates_sdr band)
            (list_blobs include_checksums
               (storage (target_data band ++ "/" ++ date_path start))) ;;
  Ok (in_range lo hi (dropna rows)).

(** The geolocation rows in the range (lines 120-128). *)
Definition geo_files (band start end_ : string) (include_checksums : bool)
    (storage : string -> list string) : result (list dated) :=
  lo <- start_limiter start ;;
  hi <- end_limiter start end_ ;;
  geo_rows include_checksums storage (date_path start) lo hi
           (target_data_geo band).

(** [download_jpss_sdr] up to line 146: the list [matched_files] that is
    handed to the downloads. *)
Definition download_jpss_sdr (band start end_ : string)
    (include_checksums : bool) (storage : string -> list string)
  : result (list string) :=
  sdr <- lets_get band start end_ include_checksums storage ;;
  geo <- geo_files band start end_ include_checksums storage ;;
  Ok (dedup (match_files sdr geo)).

End Jpss.

(** ** Concrete requests and listings *)

Module Cases.
Import Goes.

(** The query [2025-10-08 12:00], given without seconds (day 281). *)
Definition noon : datetime := mkdt 2025 10 8 12 0 0.

(** An object of the hour [2025/281/12] of GOES-16: [body] is the product
    with its sector, mode and band, [ts] the 14 characters of the start
    time. *)
Definition goes_key (prod body ts : string) : string :=
  prod ++ "/2025/281/12/OR_" ++ body ++ "_G16_s" ++ ts
       ++ "_e20252811209599_c20252811210000.nc".

(** CONUS cloud and moisture imagery, band 13, default mode 6: one object
    of mode 6 at 12:01:30 and one of mode 3 at 12:00:45. *)
Definition conus_rq : request :=
  mkreq noon false "G16" "ABI-L2-CMIPC" (Some 13) None.
Definition conus_m6_0130 : string :=
  goes_key "ABI-L2-CMIPC" "ABI-L2-CMIPC-M6C13" "20252811201300".
Definition conus_m3_0045 : string :=
  goes_key "ABI-L2-CMIPC" "ABI-L2-CMIPC-M3C13" "20252811200450".
Definition conus_objs : list string := [conus_m6_0130; conus_m3_0045].

(** Lightning, query without seconds. *)
Definition glm_rq : request :=
  mkreq noon false "G16" "GLM-L2-LCFA" None None.
Definition glm_000500 : string :=
  goes_key "GLM-L2-LCFA" "GLM-L2-LCFA" "20252811200050".
Definition glm_001500 : string :=
  goes_key "GLM-L2-LCFA" "GLM-L2-LCFA" "20252811200150".
Definition glm_050000 : string :=
  goes_key "GLM-L2-LCFA" "GLM-L2-LCFA" "20252811205000".

(** Solar imagery: an ordinary object of the minute 12:00 and one whose
    seconds read 99. *)
Definition suvi_rq : request :=
  mkreq noon false "G16" "SUVI-L1b-Fe093" None None.
Definition suvi_001000 : string :=
  goes_key "SUVI-L1b-Fe093" "SUVI-L1b-Fe093" "20252811200100".
Definition suvi_0099 : string :=
  goes_key "SUVI-L1b-Fe093" "SUVI-L1b-Fe093" "20252811200990".
Definition suvi_010000 : string :=
  goes_key "SUVI-L1b-Fe093" "SUVI-L1b-Fe093" "20252811201000".

(** Full-disk imagery, band 13: an object whose seconds are not digits. *)
Definition fd_rq : request :=
  mkreq noon false "G16" "ABI-L2-CMIPF" (Some 13) None.
Definition fd_00XX : string :=
  goes_key "ABI-L2-CMIPF" "ABI-L2-CMIPF-M6C13" "20252811200XX0".

(** Mesoscale imagery, sector M1, band 13: an object at 12:05:00. *)
Definition meso_rq : request :=
  mkreq noon false "G16" "ABI-L2-CMIPM" (Some 13)
        (Some (mksp None (Some "M1"))).
Definition meso_050000 : string :=
  goes_key "ABI-L2-CMIPM" "ABI-L2-CMIPM1-M6C13" "20252811205000".

(** An object of the same sector, mode and band at 12:00:30. *)
Definition meso_003000 : string :=
  goes_key "ABI-L2-CMIPM" "ABI-L2-CMIPM1-M6C13" "20252811200300".


(** A product outside the ABI, lightning and fixed-format families. *)
Definition exis_rq : request :=
  mkreq noon false "G16" "EXIS-L1b-SFXR" None None.
Definition exis_030000 : string :=
  goes_key "EXIS-L1b-SFXR" "EXIS-L1b-SFXR-M6" "20252811203000".
Definition exis_010000 : string :=
  goes_key "EXIS-L1b-SFXR" "EXIS-L1b-SFXR-M6" "20252811201000".

(** A key with a mode and band token in a directory name only. *)
Definition token_in_directory : string :=
  "ABI-L2-CMIPF/2025/281/12/old-M6C01/notes.txt".

(** A VIIRS file name of 1 January 2025: the stream, the name stem, the
    start and end times and the creation time. *)
Definition viirs_name (stream stem times created : string) : string :=
  stream ++ "/2025/01/01/" ++ stem ++ "_j02_d20250101_" ++ times
         ++ "_b11111_c" ++ created ++ "_oebc_ops.h5".

(** Two SDR files of band I1 with the same start time (the second one a
    later production of the same granule), a third one a minute later,
    and the geolocation file of the first start time. *)
Definition sdr_0000_a : string :=
  viirs_name "VIIRS-I1-SDR" "SVI01" "t0000226_e0001473"
             "20250101003030123456".
Definition sdr_0000_b : string :=
  viirs_name "VIIRS-I1-SDR" "SVI01" "t0000226_e0001473"
             "20250101053030123456".
Definition sdr_0001 : string :=
  viirs_name "VIIRS-I1-SDR" "SVI01" "t0001485_e0003130"
             "20250101003030123456".
Definition geo_0000 : string :=
  viirs_name "VIIRS-IMG-GEO-TC" "GITCO" "t0000226_e0001473"
             "20250101003030123456".

Definition bucket (prefix : string) : list string :=
  if String.eqb prefix "VIIRS-I1-SDR/2025/01/01/"
  then [sdr_0000_a; sdr_0000_b; sdr_0001]
  else if String.eqb prefix "VIIRS-IMG-GEO-TC/2025/01/01/"
       then [geo_0000]
       else [].

Definition t_000022 : datetime := mkdt 2025 1 1 0 0 22.

End Cases.

(** ** downloader.py: the request around the selection *)

Module GoesRequest.
Import Goes.

(** The same request with another [scan_params] argument. *)
Definition with_scan_params (rq : request) (sp : option scan_params_t)
  : request :=
  mkreq (dt_input rq) (has_seconds rq) (satellite rq) (product rq) (band rq)
        sp.

(** *** The timestamp argument (lines 47-57) *)

(** [s.replace(c, '')] for a single character [c]. *)
Fixpoint remove_char (c : ascii) (s : string) : string :=
  match s with
  | EmptyString => EmptyString
  | String a r =>
      if Ascii.eqb a c then remove_char c r else String a (remove_char c r)
  end.

(** Line 47. *)
Definition timestamp_has_seconds (timestamp : string) : bool :=
  (String.length
     (remove_char ":" (remove_char " " (remove_char "-" timestamp)))
   =? 14)%nat.

(** A digit between [lo] and [hi]. *)
Definition digit_in (lo hi : Z) (c : ascii) : bool :=
  match digit_of c with
  | Some d => (lo <=? d) && (d <=? hi)
  | None => false
  end.

(** [\s] of the regular expressions, on code points below 256. *)
Definition is_re_space (c : ascii) : bool :=
  let n := Z.of_nat (nat_of_ascii c) in
  ((9 <=? n) && (n <=? 13)) || ((28 <=? n) && (n <=? 32))
  || (n =? 133) || (n =? 160).

(** A group of [strptime] whose alternatives take two characters or
    one: the text of the group and the rest of the string. The
    two-character alternatives come first, except in [%d], where the
    alternative of a space and a digit comes last and shares its first
    character with no other. What follows a group in the format is a
    literal [-] or [:], white space or the end of the text, none of
    which a digit matches, so that the expression never succeeds by
    going back to a shorter alternative. *)
Definition group (two : ascii -> ascii -> bool) (one : ascii -> bool)
    (s : string) : option (string * string) :=
  match s with
  | String a (String b r) =>
      if two a b then Some (String a (String b ""), r)
      else if one a then Some (String a "", String b r)
      else None
  | String a "" => if one a then Some (String a "", "") else None
  | "" => None
  end.

(** [%Y]: [\d\d\d\d]. *)
Definition re_Y (s : string) : option (string * string) :=
  match s with
  | String a (String b (String c (String d r))) =>
      if is_digit a && is_digit b && is_digit c && is_digit d
      then Some (String a (String b (String c (String d ""))), r)
      else None
  | _ => None
  end.

(** [%m]: [1[0-2]|0[1-9]|[1-9]]. *)
Definition re_m : string -> option (string * string) :=
  group (fun a b => (Ascii.eqb a "1" && digit_in 0 2 b)
                    || (Ascii.eqb a "0" && digit_in 1 9 b))
        (digit_in 1 9).

(** [%d]: [3[0-1]|[1-2]\d|0[1-9]|[1-9]| [1-9]]. *)
Definition re_d : string -> option (string * string) :=
  group (fun a b => (Ascii.eqb a "3" && digit_in 0 1 b)
                    || (digit_in 1 2 a && is_digit b)
                    || (Ascii.eqb a "0" && digit_in 1 9 b)
                    || (Ascii.eqb a " " && digit_in 1 9 b))
        (digit_in 1 9).

(** [%H]: [2[0-3]|[0-1]\d|\d]. *)
Definition re_H : string -> option (string * string) :=
  group (fun a b => (Ascii.eqb a "2" && digit_in 0 3 b)
                    || (digit_in 0 1 a && is_digit b))
        is_digit.

(** [%M]: [[0-5]\d|\d]. *)
Definition re_M : string -> option (string * string) :=
  group (fun a b => digit_in 0 5 a && is_digit b) is_digit.

(** [%S]: [6[0-1]|[0-5]\d|\d]. *)
Definition re_S : string -> option (string * string) :=
  group (fun a b => (Ascii.eqb a "6" && digit_in 0 1 b)
                    || (digit_in 0 5 a && is_digit b))
        is_digit.

(** A literal character of the format. *)
Definition lit (c : ascii) (s : string) : option string :=
  match s with
  | String a r => if Ascii.eqb a c then Some r else None
  | EmptyString => None
  end.

Fixpoint skip_spaces (s : string) : string :=
  match s with
  | String a r => if is_re_space a then skip_spaces r else s
  | EmptyString => EmptyString
  end.

(** The space of the format: [\s+]. *)
Definition re_spaces (s : string) : option string :=
  match s with
  | String a r => if is_re_space a then Some (skip_spaces r) else None
  | EmptyString => None
  end.

Definition obind {A B : Type} (o : option A) (f : A -> option B)
  : option B :=
  match o with
  | Some a => f a
  | None => None
  end.

Notation "x <-- c ;; f" := (obind c (fun x => f))
  (at level 61, c at next level, right associativity).
Notation "' p <-- c ;; f" := (obind c (fun p => f))
  (at level 61, p strict pattern, c at next level, right associativity).

(** [datetime.strptime(s, '%Y-%m-%d %H:%M:%S')]; [None] stands for
    [ValueError]: the text does not match the format, some of it is
    left over, or the fields are not those of a [datetime]. *)
Definition strptime_iso (s : string) : option datetime :=
  '(gY, s) <-- re_Y s ;;
  s <-- lit "-" s ;;
  '(gm, s) <-- re_m s ;;
  s <-- lit "-" s ;;
  '(gd, s) <-- re_d s ;;
  s <-- re_spaces s ;;
  '(gH, s) <-- re_H s ;;
  s <-- lit ":" s ;;
  '(gM, s) <-- re_M s ;;
  s <-- lit ":" s ;;
  '(gS, s) <-- re_S s ;;
  if negb (String.eqb s "") then None
  else
    year <-- py_int gY ;;
    month <-- py_int gm ;;
    day <-- py_int gd ;;
    hour <-- py_int gH ;;
    minute <-- py_int gM ;;
    second <-- py_int gS ;;
    datetime_new year month day hour minute second.

(** Lines 47-57: [dt_input] and [has_seconds]; [None] where the
    function prints the format it expects and returns [None]. *)
Definition parse_timestamp (timestamp : string) : option (datetime * bool) :=
  let has_seconds := timestamp_has_seconds timestamp in
  dt_input <--
    strptime_iso (if has_seconds then timestamp else timestamp ++ ":00") ;;
  Some (dt_input, has_seconds).

(** The text [YYYY-MM-DD HH:MM] of an instant and the text
    [YYYY-MM-DD HH:MM:SS], the two forms of the argument that the
    function documents (lines 12-13). *)
Definition text_minute (t : datetime) : string :=
  digits4 (year t) ++ "-" ++ digits2 (month t) ++ "-" ++ digits2 (day t)
  ++ " " ++ digits2 (hour t) ++ ":" ++ digits2 (minute t).

Definition text_second (t : datetime) : string :=
  text_minute t ++ ":" ++ digits2 (second t).

(** *** Listing a prefix (lines 27-36) *)

(** What the paginator gives, in order: a page, with its [Contents]
    when it has that key, or an exception. Each object is written as its
    key. An exception of [get_paginator] is a list that starts with
    [PageError]. *)
Inductive page_event :=
| Page (contents : option (list string))
| PageError.

(** [fetch_s3_objects]: the objects of the pages read before the first
    exception, which ends the loop inside the [try]. *)
Fixpoint fetch_s3_objects (events : list page_event) : list string :=
  match events with
  | [] => []
  | Page (Some contents) :: rest => (contents ++ fetch_s3_objects rest)%list
  | Page None :: rest => fetch_s3_objects rest
  | PageError :: _ => []
  end.

(** *** The prefixes (lines 59-61 and 81-90) *)

Inductive error := OverflowError | OSError.

Inductive result (A : Type) :=
| Ok (a : A)
| Raise (e : error).
Arguments Ok {A} a.
Arguments Raise {A} e.

(** [_DAYS_IN_MONTH] and [_DAYS_BEFORE_MONTH] of the [datetime]
    module. *)
Definition DAYS_IN_MONTH (m : Z) : Z :=
  match m with
  | 1 => 31 | 2 => 28 | 3 => 31 | 4 => 30 | 5 => 31 | 6 => 30
  | 7 => 31 | 8 => 31 | 9 => 30 | 10 => 31 | 11 => 30 | 12 => 31
  | _ => -1
  end.

Definition DAYS_BEFORE_MONTH (m : Z) : Z :=
  match m with
  | 1 => 0 | 2 => 31 | 3 => 59 | 4 => 90 | 5 => 120 | 6 => 151
  | 7 => 181 | 8 => 212 | 9 => 243 | 10 => 273 | 11 => 304 | 12 => 334
  | _ => -1
  end.

(** The month and the day of the day number [n] (from 0) of a year. *)
Definition month_day_of (leapyear : bool) (n : Z) : Z * Z :=
  let month := Z.shiftr (n + 50) 5 in
  let preceding :=
    DAYS_BEFORE_MONTH month + (if (2 <? month) && leapyear then 1 else 0) in
  if n <? preceding then
    let month' := month - 1 in
    let preceding' :=
      preceding
      - (DAYS_IN_MONTH month' + (if (month' =? 2) && leapyear then 1 else 0))
    in (month', n - preceding' + 1)
  else (month, n - preceding + 1).

(** [date.fromordinal(n)]: year, month and day of the ordinal [n]. *)
Definition ord2ymd (n : Z) : Z * Z * Z :=
  let n := n - 1 in
  let n400 := n / 146097 in
  let n := n mod 146097 in
  let n100 := n / 36524 in
  let n := n mod 36524 in
  let n4 := n / 1461 in
  let n := n mod 1461 in
  let n1 := n / 365 in
  let n := n mod 365 in
  let year := n400 * 400 + 1 + n100 * 100 + n4 * 4 + n1 in
  if (n1 =? 4) || (n100 =? 4) then (year - 1, 12, 31)
  else
    let leapyear := (n1 =? 3) && (negb (n4 =? 24) || (n100 =? 3)) in
    let '(month, day) := month_day_of leapyear n in
    (year, month, day).

Definition MAXORDINAL : Z := 3652059.

(** [t + timedelta(seconds=delta)]: the days and seconds of the sum are
    normalised, and a day outside the calendar raises
    [OverflowError]. *)
Definition add_seconds (t : datetime) (delta : Z) : result datetime :=
  let total := total_seconds t + delta in
  let days := total / 86400 in
  let rem := total mod 86400 in
  if (0 <? days) && (days <=? MAXORDINAL)
  then let '(y, m, d) := ord2ymd days in
       Ok (mkdt y m d (rem / 3600) ((rem mod 3600) / 60) (rem mod 60))
  else Raise OverflowError.

(** [f'{product}/{year}/{day_of_year}/{hour}/'] with the three texts of
    [strftime]. *)
Definition hour_prefix (product : string) (t : datetime) : string :=
  product ++ "/" ++ dec (year t) ++ "/" ++ fmt_0d 3 (yday t) ++ "/"
  ++ fmt_0d 2 (hour t) ++ "/".

(** Lines 81-90. *)
Definition prefixes (rq : request) (check_adjacent_hours : bool)
  : result (list string) :=
  let first := hour_prefix (product rq) (dt_input rq) in
  if is_fixed_format rq && check_adjacent_hours
  then
    match add_seconds (dt_input rq) (-3600) with
    | Raise e => Raise e
    | Ok dt_prev =>
        match add_seconds (dt_input rq) 3600 with
        | Raise e => Raise e
        | Ok dt_next =>
            Ok [first; hour_prefix (product rq) dt_prev;
                hour_prefix (product rq) dt_next]
        end
    end
  else Ok [first].

(** *** The downloads (lines 249-278) *)

(** [os.path.join(a, b)] on a POSIX system. *)
Definition os_path_join (a b : string) : string :=
  if startswith b "/" then b
  else if negb (truthy a) || endswith a "/" then a ++ b
  else a ++ "/" ++ b.

(** The local paths that exist, the list [downloaded_files], and the
    keys handed to [download_file], in order. *)
Record transfer := mktr {
  local_paths : list string;
  downloaded_files : list string;
  requested : list string
}.

Definition path_exists (paths : list string) (p : string) : bool :=
  existsb (String.eqb p) paths.

(** Lines 252-253. *)
Definition file_path (path_dest matching_file : string) : string :=
  os_path_join path_dest (file_name matching_file).

(** One round of the loop of lines 251-270. [retrievable] tells of a key
    whether [download_file] returns for it, in which case the file is at
    its path afterwards; otherwise it raises and leaves the local files
    as they are. *)
Definition download_one (path_dest : string) (force_download : bool)
    (retrievable : string -> bool) (tr : transfer) (matching_file : string)
  : transfer :=
  let file_path := file_path path_dest matching_file in
  if path_exists (local_paths tr) file_path && negb force_download
  then mktr (local_paths tr) (downloaded_files tr ++ [file_path])
            (requested tr)
  else if retrievable matching_file
       then mktr (file_path :: local_paths tr)
                 (downloaded_files tr ++ [file_path])
                 (requested tr ++ [matching_file])
       else mktr (local_paths tr) (downloaded_files tr)
                 (requested tr ++ [matching_file]).

Definition download_loop (path_dest : string) (force_download : bool)
    (retrievable : string -> bool) (local : list string)
    (matching_files : list string) : transfer :=
  fold_left (download_one path_dest force_download retrievable)
            matching_files (mktr local [] []).

(** What the function returns. *)
Inductive returned :=
| ReturnNone
| ReturnPath (p : string)
| ReturnList (l : list string).

(** Lines 272-278. *)
Definition return_value (downloaded_files : list string) : returned :=
  match downloaded_files with
  | [] => ReturnNone
  | [p] => ReturnPath p
  | _ :: _ :: _ => ReturnList downloaded_files
  end.

Definition returned_paths (r : returned) : list string :=
  match r with
  | ReturnNone => []
  | ReturnPath p => [p]
  | ReturnList l => l
  end.

(** *** The whole call *)

(** The bucket and the local file system as the call finds them:
    [pages bucket prefix] is what the paginator gives, [retrievable
    bucket key] tells whether the download of a key returns, [local]
    holds the paths that exist and [makedirs] tells whether
    [os.makedirs] returns for a directory. *)
Record world := mkworld {
  pages : string -> string -> list page_event;
  retrievable : string -> string -> bool;
  local : list string;
  makedirs : string -> bool
}.

(** Lines 63 and 92-95. *)
Definition bucket_name (satellite : string) : string :=
  "noaa-goes" ++ tail satellite.

Definition all_objects (w : world) (bucket : string) (ps : list string)
  : list string :=
  flat_map (fun prefix => fetch_s3_objects (pages w bucket prefix)) ps.

(** [download_GOES] from its arguments to its return value, with the
    local paths after the call. [band] is the value of [int(band)] when
    a band is given. *)
Definition download_GOES_call (timestamp satellite product : string)
    (band : option Z) (path_dest : string)
    (scan_params : option scan_params_t)
    (force_download check_adjacent_hours : bool) (w : world)
  : result (returned * list string) :=
  if negb (existsb (String.eqb satellite) valid_satellites)
  then Ok (ReturnNone, local w)
  else if negb (makedirs w path_dest) then Raise OSError
  else
    match parse_timestamp timestamp with
    | None => Ok (ReturnNone, local w)
    | Some (dt_input, has_seconds) =>
        let rq := mkreq dt_input has_seconds satellite product band
                        scan_params in
        match prefixes rq check_adjacent_hours with
        | Raise e => Raise e
        | Ok ps =>
            let objs := all_objects w (bucket_name satellite) ps in
            match download_GOES rq objs with
            | Matched files _ _ =>
                let tr := download_loop path_dest force_download
                            (retrievable w (bucket_name satellite))
                            (local w) files in
                Ok (return_value (downloaded_files tr), local_paths tr)
            | _ => Ok (ReturnNone, local w)
            end
        end
    end.

End GoesRequest.

(** ** downloader_jpss.py: the downloads (lines 148-166) *)

Module JpssDownload.
Import Jpss.

(** Lines 152-153: [file.rsplit('/', 1)[-1]], the text after the last
    [/], under the download directory. *)
Definition local_path (download_dir file : string) : string :=
  download_dir ++ "/" ++ file_name file.

(** The lists [local_files] and [download_tasks]; a task is a blob and
    its destination. *)
Record plan := mkplan {
  local_files : list string;
  download_tasks : list (string * string)
}.

(** One round of the loop of lines 151-159. [present] holds the paths of
    the local files. *)
Definition plan_one (download_dir : string) (present : list string)
    (pl : plan) (file : string) : plan :=
  let local_path := local_path download_dir file in
  if negb (existsb (String.eqb local_path) (local_files pl))
  then
    if existsb (String.eqb local_path) present
    then mkplan (local_files pl ++ [local_path]) (download_tasks pl)
    else mkplan (local_files pl ++ [local_path])
                (download_tasks pl ++ [(file, local_path)])
  else pl.

Definition plan_downloads (download_dir : string) (present : list string)
    (matched_files : list string) : plan :=
  fold_left (plan_one download_dir present) matched_files (mkplan [] []).

(** Lines 161-163: the local files once the pool has run every task.
    [retrievable] tells of a blob whether [download_blob] gets it; when
    it does not, the exception is caught and no file is left. The tasks
    have destinations of their own (see [plan_one]), so that the order
    in which the threads run them does not matter. *)
Definition run_tasks (retrievable : string -> bool) (present : list string)
    (tasks : list (string * string)) : list string :=
  (present ++ map snd (filter (fun task => retrievable (fst task)) tasks))%list.

(** Lines 148-166: the list that is returned and the local files after
    the call. *)
Definition download_files (download_dir : string)
    (retrievable : string -> bool) (present : list string)
    (matched_files : list string) : list string * list string :=
  let pl := plan_downloads download_dir present matched_files in
  let present' := run_tasks retrievable present (download_tasks pl) in
  (filter (fun f => existsb (String.eqb f) present'
                    && negb (endswith f ".sha384"))
          (local_files pl),
   present').

End JpssDownload.

(** ** More concrete requests *)

Module MoreCases.
Import Goes GoesRequest Cases.

(** Lightning at 12:00:20, given with seconds, and the object of that
    second. *)
Definition glm_second_rq : request :=
  mkreq (mkdt 2025 10 8 12 0 20) true "G16" "GLM-L2-LCFA" None None.
Definition glm_002000 : string :=
  goes_key "GLM-L2-LCFA" "GLM-L2-LCFA" "20252811200200".

(** A CONUS object at the query time, 12:00:00. *)
Definition conus_m6_0000 : string :=
  goes_key "ABI-L2-CMIPC" "ABI-L2-CMIPC-M6C13" "20252811200000".

(** A bucket that lists two solar images under the hour of the query,
    in two pages, serves every object and finds no local file. *)
Definition suvi_world : world :=
  mkworld
    (fun bucket prefix =>
       if String.eqb bucket "noaa-goes16"
          && String.eqb prefix "SUVI-L1b-Fe093/2025/281/12/"
       then [Page (Some [suvi_001000]); Page None;
             Page (Some [suvi_010000])]
       else [Page None])
    (fun _ _ => true)
    []
    (fun _ => true).

End MoreCases.

Import Goes.

(** * Properties *)

(** ** Timestamp text and parsed instants *)

Section TimestampText.

Lemma is_digit_char (c : ascii) :
  is_digit c = true ->
  exists d, 0 <= d <= 9 /\ digit_of c = Some d /\ c = digit_char d.
Proof.
  destruct c as [[] [] [] [] [] [] [] []]; intros H;
    try discriminate H;
    match goal with
    | |- exists d, _ /\ digit_of ?c = _ /\ _ =>
        let v := eval vm_compute in (digit_of c) in
        match v with Some ?d => exists d end
    end; repeat split; try lia; reflexivity.
Qed.

Lemma digit_char_inj (a b : Z) :
  0 <= a <= 9 -> 0 <= b <= 9 -> digit_char a = digit_char b -> a = b.
Proof.
  intros Ha Hb E.
  assert (Hd : forall d, 0 <= d <= 9 -> digit_of (digit_char d) = Some d).
  { intros d Hd.
    assert (C : d = 0 \/ d = 1 \/ d = 2 \/ d = 3 \/ d = 4 \/ d = 5 \/ d = 6
                \/ d = 7 \/ d = 8 \/ d = 9) by lia.
    repeat (destruct C as [-> | C]; [reflexivity|]). now subst. }
  apply Hd in Ha, Hb. rewrite E in Ha. congruence.
Qed.

Lemma upto_In (m n : Z) : 0 <= n < m -> In n (upto (Z.to_nat m)).
Proof.
  intros H. assert (Hk : 0 <= n < Z.of_nat (Z.to_nat m)) by lia.
  clear H. induction (Z.to_nat m) as [|k IH]; [lia|]. simpl.
  destruct (Z.eq_dec n (Z.of_nat k)); [now left | right; apply IH; lia].
Qed.

Lemma fmt2_digits (n : Z) : 0 <= n < 100 -> fmt_0d 2 n = digits2 n.
Proof.
  intros H.
  assert (A : forallb (fun n => String.eqb (fmt_0d 2 n) (digits2 n))
                      (upto (Z.to_nat 100)) = true)
    by (vm_compute; reflexivity).
  rewrite forallb_forall in A. apply String.eqb_eq, A, upto_In. lia.
Qed.

Lemma fmt3_digits (n : Z) : 0 <= n < 1000 -> fmt_0d 3 n = digits3 n.
Proof.
  intros H.
  assert (A : forallb (fun n => String.eqb (fmt_0d 3 n) (digits3 n))
                      (upto (Z.to_nat 1000)) = true)
    by (vm_compute; reflexivity).
  rewrite forallb_forall in A. apply String.eqb_eq, A, upto_In. lia.
Qed.

Lemma dec_digits4 (n : Z) : 1000 <= n < 10000 -> dec n = digits4 n.
Proof.
  intros H.
  assert (A : forallb (fun n => (n <? 1000)
                                || String.eqb (dec n) (digits4 n))
                      (upto (Z.to_nat 10000)) = true)
    by (vm_compute; reflexivity).
  rewrite forallb_forall in A.
  specialize (A n (upto_In 10000 n ltac:(lia))).
  apply orb_true_iff in A. destruct A as [A | A]; [lia|].
  now apply String.eqb_eq.
Qed.


Lemma datetime_new_fields (y m d h mi s : Z) (t : datetime) :
  datetime_new y m d h mi s = Some t ->
  t = mkdt y m d h mi s
  /\ 1 <= y <= 9999 /\ 1 <= m <= 12 /\ 1 <= d <= days_in_month y m
  /\ 0 <= h <= 23 /\ 0 <= mi <= 59 /\ 0 <= s <= 59.
Proof.
  unfold datetime_new, MINYEAR, MAXYEAR.
  destruct (_ && _) eqn:E; [|discriminate]. intros [= <-].
  rewrite !andb_true_iff, !Z.leb_le in E.
  split; [reflexivity | lia].
Qed.

Ltac months :=
  cbn [month_day];
  change (1 + 1) with 2; change (2 + 1) with 3; change (3 + 1) with 4;
  change (4 + 1) with 5; change (5 + 1) with 6; change (6 + 1) with 7;
  change (7 + 1) with 8; change (8 + 1) with 9; change (9 + 1) with 10;
  change (10 + 1) with 11; change (11 + 1) with 12;
  unfold days_in_month, days_before_month;
  cbn [Z.eqb Pos.eqb Z.ltb Z.compare Pos.compare Pos.compare_cont
       orb andb negb].

(** [month_day] and the day of the year are inverse to each other. *)
Lemma month_day_yday (y j : Z) :
  1 <= j <= days_in_year y ->
  let '(m, d) := month_day y 1 11 j in
  1 <= m <= 12 /\ 1 <= d <= days_in_month y m
  /\ days_before_month y m + d = j.
Proof.
  unfold days_in_year. months.
  destruct (is_leap y); intros H;
    repeat match goal with
           | |- context [?a <=? ?b] => destruct (Z.leb_spec a b)
           end;
    cbn [Z.eqb Pos.eqb Z.ltb Z.compare Pos.compare Pos.compare_cont
         orb andb negb]; lia.
Qed.

Lemma yday_month_day (y m d : Z) :
  1 <= m <= 12 -> 1 <= d <= days_in_month y m ->
  month_day y 1 11 (days_before_month y m + d) = (m, d).
Proof.
  intros Hm.
  assert (C : m = 1 \/ m = 2 \/ m = 3 \/ m = 4 \/ m = 5 \/ m = 6 \/ m = 7
              \/ m = 8 \/ m = 9 \/ m = 10 \/ m = 11 \/ m = 12) by lia.
  clear Hm.
  repeat (destruct C as [-> | C]); try subst m; months;
    destruct (is_leap y); intros Hd;
    repeat match goal with
           | |- context [?a <=? ?b] =>
               first [ rewrite (proj2 (Z.leb_le a b)) by lia
                     | rewrite (proj2 (Z.leb_gt a b)) by lia ]
           end;
    f_equal; lia.
Qed.

Lemma digit_quot (d r k : Z) :
  0 <= d <= 9 -> 0 <= r < k -> 0 < k ->
  (d * k + r) / k = d /\ (d * k + r) mod k = r.
Proof.
  intros Hd Hr Hk. split.
  - rewrite Z.div_add_l by lia. rewrite Z.div_small by lia. lia.
  - rewrite Z.add_comm, Z.mod_add by lia. now apply Z.mod_small.
Qed.

Lemma int_body_digit (c : ascii) (r : list ascii) (acc d : Z) (b : bool) :
  digit_of c = Some d ->
  int_body (c :: r) acc b = int_body r (10 * acc + d) true.
Proof. intros E. unfold int_body at 1. rewrite E. reflexivity. Qed.

Lemma some_eq (a b : Z) : Some a = Some b -> a = b.
Proof. congruence. Qed.

Lemma int_body_nil (acc : Z) : int_body [] acc true = Some acc.
Proof. reflexivity. Qed.

(** A string of two, three or four digits is the text of its number. *)
Lemma num2_digits (c1 c2 : ascii) (n : Z) :
  num (String c1 (String c2 "")) = Some n ->
  String c1 (String c2 "") = digits2 n /\ 0 <= n < 100.
Proof.
  unfold num. cbn [all_digits String.eqb negb andb].
  destruct (is_digit c1) eqn:H1; [|discriminate].
  destruct (is_digit c2) eqn:H2; [|discriminate].
  destruct (is_digit_char c1 H1) as (d1 & B1 & E1 & ->).
  destruct (is_digit_char c2 H2) as (d2 & B2 & E2 & ->).
  cbn [andb list_ascii_of_string].
  rewrite (int_body_digit _ _ _ _ _ E1), (int_body_digit _ _ _ _ _ E2),
    int_body_nil.
  intros E%some_eq. subst n. unfold digits2.
  destruct (digit_quot d1 d2 10 B1 ltac:(lia) ltac:(lia)) as [Q R].
  replace (10 * (10 * 0 + d1) + d2) with (d1 * 10 + d2) by lia.
  rewrite Q, R. split; [reflexivity | lia].
Qed.

Lemma num3_digits (c1 c2 c3 : ascii) (n : Z) :
  num (String c1 (String c2 (String c3 ""))) = Some n ->
  String c1 (String c2 (String c3 "")) = digits3 n /\ 0 <= n < 1000.
Proof.
  unfold num. cbn [all_digits String.eqb negb andb].
  destruct (is_digit c1) eqn:H1; [|discriminate].
  destruct (is_digit c2) eqn:H2; [|discriminate].
  destruct (is_digit c3) eqn:H3; [|discriminate].
  destruct (is_digit_char c1 H1) as (d1 & B1 & E1 & ->).
  destruct (is_digit_char c2 H2) as (d2 & B2 & E2 & ->).
  destruct (is_digit_char c3 H3) as (d3 & B3 & E3 & ->).
  cbn [andb list_ascii_of_string].
  rewrite (int_body_digit _ _ _ _ _ E1), (int_body_digit _ _ _ _ _ E2),
    (int_body_digit _ _ _ _ _ E3), int_body_nil.
  intros E%some_eq. subst n. unfold digits3, digits2.
  replace (10 * (10 * (10 * 0 + d1) + d2) + d3)
    with (d1 * 100 + (d2 * 10 + d3)) by lia.
  destruct (digit_quot d1 (d2 * 10 + d3) 100 B1 ltac:(lia) ltac:(lia))
    as [Q R].
  destruct (digit_quot d2 d3 10 B2 ltac:(lia) ltac:(lia)) as [Q' R'].
  rewrite Q, R, Q', R'. split; [reflexivity | lia].
Qed.

Lemma num4_digits (c1 c2 c3 c4 : ascii) (n : Z) :
  num (String c1 (String c2 (String c3 (String c4 "")))) = Some n ->
  String c1 (String c2 (String c3 (String c4 ""))) = digits4 n
  /\ 0 <= n < 10000.
Proof.
  unfold num. cbn [all_digits String.eqb negb andb].
  destruct (is_digit c1) eqn:H1; [|discriminate].
  destruct (is_digit c2) eqn:H2; [|discriminate].
  destruct (is_digit c3) eqn:H3; [|discriminate].
  destruct (is_digit c4) eqn:H4; [|discriminate].
  destruct (is_digit_char c1 H1) as (d1 & B1 & E1 & ->).
  destruct (is_digit_char c2 H2) as (d2 & B2 & E2 & ->).
  destruct (is_digit_char c3 H3) as (d3 & B3 & E3 & ->).
  destruct (is_digit_char c4 H4) as (d4 & B4 & E4 & ->).
  cbn [andb list_ascii_of_string].
  rewrite (int_body_digit _ _ _ _ _ E1), (int_body_digit _ _ _ _ _ E2),
    (int_body_digit _ _ _ _ _ E3), (int_body_digit _ _ _ _ _ E4),
    int_body_nil.
  intros E%some_eq. subst n. unfold digits4, digits3, digits2.
  replace (10 * (10 * (10 * (10 * 0 + d1) + d2) + d3) + d4)
    with (d1 * 1000 + (d2 * 100 + (d3 * 10 + d4))) by lia.
  destruct (digit_quot d1 (d2 * 100 + (d3 * 10 + d4)) 1000 B1
              ltac:(lia) ltac:(lia)) as [Q R].
  destruct (digit_quot d2 (d3 * 10 + d4) 100 B2 ltac:(lia) ltac:(lia))
    as [Q' R'].
  destruct (digit_quot d3 d4 10 B3 ltac:(lia) ltac:(lia)) as [Q'' R''].
  rewrite Q, R, Q', R', Q'', R''. split; [reflexivity | lia].
Qed.

Ltac divmod := Z.div_mod_to_equations; lia.

Lemma digits2_inj (a b : Z) :
  0 <= a < 100 -> 0 <= b < 100 -> digits2 a = digits2 b -> a = b.
Proof.
  intros Ha Hb E. unfold digits2 in E.
  assert (E1 : digit_char (a / 10) = digit_char (b / 10)) by congruence.
  assert (E2 : digit_char (a mod 10) = digit_char (b mod 10))
    by congruence.
  apply digit_char_inj in E1; [|divmod|divmod].
  apply digit_char_inj in E2; [|divmod|divmod].
  divmod.
Qed.

Lemma digits3_inj (a b : Z) :
  0 <= a < 1000 -> 0 <= b < 1000 -> digits3 a = digits3 b -> a = b.
Proof.
  intros Ha Hb E. unfold digits3 in E.
  assert (E1 : digit_char (a / 100) = digit_char (b / 100)) by congruence.
  assert (E2 : digits2 (a mod 100) = digits2 (b mod 100)) by congruence.
  apply digit_char_inj in E1; [|divmod|divmod].
  apply digits2_inj in E2; [|divmod|divmod].
  divmod.
Qed.

Lemma digits4_inj (a b : Z) :
  0 <= a < 10000 -> 0 <= b < 10000 -> digits4 a = digits4 b -> a = b.
Proof.
  intros Ha Hb E. unfold digits4 in E.
  assert (E1 : digit_char (a / 1000) = digit_char (b / 1000))
    by congruence.
  assert (E2 : digits3 (a mod 1000) = digits3 (b mod 1000)) by congruence.
  apply digit_char_inj in E1; [|divmod|divmod].
  apply digits3_inj in E2; [|divmod|divmod].
  divmod.
Qed.

(** A timestamp text that parses has 13 characters. *)
Lemma strptime_Yj_length (ts : string) (t : PyDatetime.datetime) :
  strptime_Yj ts = Some t -> String.length ts = 13%nat.
Proof.
  unfold strptime_Yj.
  destruct (String.length ts =? 13)%nat eqn:E; [|discriminate].
  intros _. now apply Nat.eqb_eq.
Qed.


Lemma length13 (s : string) :
  String.length s = 13%nat ->
  exists c1 c2 c3 c4 c5 c6 c7 c8 c9 c10 c11 c12 c13,
    s = String c1 (String c2 (String c3 (String c4 (String c5 (String c6
          (String c7 (String c8 (String c9 (String c10 (String c11
            (String c12 (String c13 "")))))))))))).
Proof.
  intros H.
  do 13 (destruct s as [|? s]; [discriminate H|]).
  destruct s; [|discriminate H].
  repeat eexists.
Qed.

Lemma yday_bounds (y m d : Z) :
  1 <= m <= 12 -> 1 <= d <= days_in_month y m ->
  1 <= days_before_month y m + d <= 366.
Proof.
  intros Hm.
  assert (C : m = 1 \/ m = 2 \/ m = 3 \/ m = 4 \/ m = 5 \/ m = 6 \/ m = 7
              \/ m = 8 \/ m = 9 \/ m = 10 \/ m = 11 \/ m = 12) by lia.
  clear Hm.
  repeat (destruct C as [-> | C]); try subst m;
    unfold days_in_month, days_before_month;
    cbn [Z.eqb Pos.eqb Z.ltb Z.compare Pos.compare Pos.compare_cont
         orb andb negb];
    destruct (is_leap y); lia.
Qed.

(** The first 11 characters of a timestamp text that parses, against
    those of the text of a query: they are equal exactly when the two
    instants agree down to the minute, provided the day of the year of
    the text lies in the year of the text. *)
Lemma minute_text_iff (ts : string) (t q : datetime) (hs : bool) :
  strptime_Yj ts = Some t ->
  num (slice ts 0 4) = Some (year t) ->
  valid q -> 1000 <= year q ->
  slice ts 0 11
  = slice (if hs then strftime_YjHMS q else strftime_YjHM q) 0 11
  <-> year t = year q /\ month t = month q /\ day t = day q
      /\ hour t = hour q /\ minute t = minute q.
Proof.
  intros Hp Hy Hq Hq1000.
  destruct (length13 ts (strptime_Yj_length ts t Hp))
    as (c1 & c2 & c3 & c4 & c5 & c6 & c7 & c8 & c9 & c10 & c11 & c12
        & c13 & ->).
  unfold strptime_Yj in Hp.
  cbn [String.length Nat.eqb negb slice substring Nat.sub] in Hp, Hy |- *.
  destruct (num (String c1 (String c2 (String c3 (String c4 "")))))
    as [y|] eqn:Ny; [|discriminate].
  destruct (num (String c5 (String c6 (String c7 ""))))
    as [j|] eqn:Nj; [|discriminate].
  destruct (num (String c8 (String c9 ""))) as [h|] eqn:Nh; [|discriminate].
  destruct (num (String c10 (String c11 ""))) as [mi|] eqn:Nm;
    [|discriminate].
  destruct (num (String c12 (String c13 ""))) as [sec|]; [|discriminate].
  destruct (_ && _) eqn:C; [|discriminate].
  destruct (y =? 0); [discriminate|].
  destruct (date_of_yday y j) as [[y' m'] d'] eqn:D.
  apply datetime_new_fields in Hp.
  destruct Hp as (-> & By & Bm & Bd & Bh & Bi & Bs).
  cbn [year month day hour minute second] in *.
  apply some_eq in Hy. subst y'.
  rewrite !andb_true_iff, !Z.leb_le in C.
  unfold date_of_yday in D.
  destruct (j <=? days_in_year y) eqn:Hj; [|injection D; lia].
  apply Z.leb_le in Hj.
  pose proof (month_day_yday y j ltac:(lia)) as Hmd.
  destruct (month_day y 1 11 j) as [m0 d0]. injection D as -> ->.
  destruct Hmd as (_ & _ & Hyd).
  unfold valid in Hq. apply datetime_new_fields in Hq.
  destruct Hq as (Eq & Qy & Qm & Qd & Qh & Qi & Qs).
  pose proof (yday_bounds (year q) (month q) (day q) Qm Qd) as Qyd.
  destruct (num4_digits _ _ _ _ _ Ny) as [T4 _].
  destruct (num3_digits _ _ _ _ Nj) as [T3 _].
  destruct (num2_digits _ _ _ Nh) as [T2 _].
  destruct (num2_digits _ _ _ Nm) as [T2' _].
  assert (Hq11 : slice (if hs then strftime_YjHMS q else strftime_YjHM q)
                       0 11
                 = digits4 (year q) ++ digits3 (yday q)
                   ++ digits2 (hour q) ++ digits2 (minute q)).
  { unfold strftime_YjHMS, strftime_YjHM.
    rewrite (dec_digits4 (year q)) by lia.
    rewrite (fmt3_digits (yday q)) by (unfold yday; lia).
    rewrite (fmt2_digits (hour q)), (fmt2_digits (minute q)),
      (fmt2_digits (second q)) by lia.
    unfold digits4, digits3, digits2.
    destruct hs; reflexivity. }
  cbn [slice Nat.sub] in Hq11. rewrite Hq11.
  change (String c1 (String c2 (String c3 (String c4 (String c5 (String c6
            (String c7 (String c8 (String c9 (String c10
              (String c11 "")))))))))))
    with (String c1 (String c2 (String c3 (String c4 ""))) ++
          String c5 (String c6 (String c7 "")) ++
          String c8 (String c9 "") ++ String c10 (String c11 "")).
  rewrite T4, T3, T2, T2'.
  split.
  - intros E.
    assert (E4 : digits4 y = digits4 (year q))
      by (unfold digits4, digits3, digits2 in *; cbn [append] in E;
          congruence).
    assert (E3 : digits3 j = digits3 (yday q))
      by (unfold digits4, digits3, digits2 in *; cbn [append] in E;
          congruence).
    assert (E2 : digits2 h = digits2 (hour q))
      by (unfold digits4, digits3, digits2 in *; cbn [append] in E;
          congruence).
    assert (E2' : digits2 mi = digits2 (minute q))
      by (unfold digits4, digits3, digits2 in *; cbn [append] in E;
          congruence).
    apply digits4_inj in E4; [|lia|lia].
    apply digits3_inj in E3; [|lia|unfold yday; lia].
    apply digits2_inj in E2; [|lia|lia].
    apply digits2_inj in E2'; [|lia|lia].
    subst y h mi. rewrite E3 in Hyd. unfold yday in Hyd.
    pose proof (yday_month_day (year q) (month q) (day q) Qm Qd) as Inv.
    pose proof (yday_month_day (year q) m' d' Bm Bd) as Inv0.
    rewrite Hyd in Inv0. rewrite Inv in Inv0. injection Inv0 as -> ->.
    auto.
  - intros (E1 & E2 & E3 & E4 & E5). subst y m' d' h mi.
    unfold yday. now rewrite Hyd.
Qed.

Lemma num_all_digits (s : string) (n : Z) :
  num s = Some n -> all_digits s = true.
Proof.
  unfold num. destruct (all_digits s); [reflexivity | discriminate].
Qed.

(** A timestamp text that parses consists of digits. *)
Lemma strptime_Yj_digits (ts : string) (t : datetime) :
  strptime_Yj ts = Some t -> all_digits ts = true.
Proof.
  intros Hp.
  destruct (length13 ts (strptime_Yj_length ts t Hp))
    as (c1 & c2 & c3 & c4 & c5 & c6 & c7 & c8 & c9 & c10 & c11 & c12
        & c13 & ->).
  unfold strptime_Yj in Hp.
  cbn [String.length Nat.eqb negb slice substring Nat.sub] in Hp.
  destruct (num (String c1 (String c2 (String c3 (String c4 "")))))
    as [y|] eqn:Ny; [|discriminate].
  destruct (num (String c5 (String c6 (String c7 ""))))
    as [j|] eqn:Nj; [|discriminate].
  destruct (num (String c8 (String c9 ""))) as [h|] eqn:Nh; [|discriminate].
  destruct (num (String c10 (String c11 ""))) as [mi|] eqn:Nm;
    [|discriminate].
  destruct (num (String c12 (String c13 ""))) as [sec|] eqn:Ns;
    [|discriminate].
  apply num_all_digits in Ny, Nj, Nh, Nm, Ns.
  cbn [all_digits] in *.
  rewrite !andb_true_iff in *. tauto.
Qed.

End TimestampText.

(** ** Shape of the search of [download_GOES] *)

Section GoesSearch.

Variable rq : request.
Variable all_objects : list string.

Let bstr := band_str rq all_objects.

(** An object whose file name starts with a target pattern has a
    non-empty key. *)
Lemma pattern_key_truthy (b m s key : string) :
  startswith (file_name key) (target_pattern rq b m s) = true ->
  truthy key = true.
Proof.
  destruct key as [|a key']; [|reflexivity].
  unfold target_pattern. simpl. discriminate.
Qed.

Lemma found_app_single (st : state) (key : string) m s c d :
  found (mkst (matching_files st ++ [key]) m s c d) = true.
Proof.
  unfold found; simpl. destruct (matching_files st); reflexivity.
Qed.

(** The body of the object loop either leaves the state as it is or
    leaves a state in which something is found. *)
Lemma scan_obj_same_or_found (b m s : string) (st : state) (key : string) :
  fst (scan_obj rq (target_pattern rq b m s) m s st key) = st
  \/ found (fst (scan_obj rq (target_pattern rq b m s) m s st key)) = true.
Proof.
  unfold scan_obj.
  destruct (startswith (file_name key) (target_pattern rq b m s)) eqn:Hp;
    cbn [negb fst]; [|now left].
  pose proof (pattern_key_truthy _ _ _ _ Hp) as Hk.
  destruct (file_timestamp_str key) as [ts|]; [|now left].
  destruct (is_glm_product rq).
  - destruct (has_seconds rq).
    + destruct (String.eqb _ _); cbn [negb fst]; auto.
    + destruct (strptime_Yj ts); cbn [negb fst]; auto.
      destruct (_ && _); cbn [negb fst]; auto.
  - destruct (is_conus rq).
    + destruct (strptime_Yj ts); cbn [negb fst]; auto.
      destruct (_ && _); cbn [negb fst]; auto.
      right. unfold found; cbn [matching_files closest_file].
      destruct (matching_files st); auto.
    + destruct (_ || _).
      * destruct (String.eqb _ _); cbn [negb fst]; auto.
        right. apply found_app_single.
      * destruct (strptime_Yj ts); cbn [negb fst]; auto.
        destruct (_ && _); cbn [negb fst]; auto.
Qed.

Lemma scan_objects_same_or_found (b m s : string) (objs : list string) :
  forall st,
    scan_objects rq (target_pattern rq b m s) m s st objs = st
    \/ found (scan_objects rq (target_pattern rq b m s) m s st objs) = true.
Proof.
  induction objs as [|key rest IH]; intros st; simpl; [now left|].
  pose proof (scan_obj_same_or_found b m s st key) as H.
  destruct (scan_obj rq (target_pattern rq b m s) m s st key) as [st' brk].
  simpl in H. destruct brk.
  - exact H.
  - destruct H as [-> | H]; [apply IH|].
    destruct (IH st') as [-> | H']; auto.
Qed.

Lemma scan_not_found (st : state) (c : string * string) :
  found (scan rq all_objects st c) = false -> scan rq all_objects st c = st.
Proof.
  unfold scan, pattern_of. intros H.
  destruct (scan_objects_same_or_found (band_str rq all_objects)
              (fst c) (snd c) all_objects st) as [E | E]; [exact E|].
  unfold scan, pattern_of in *. congruence.
Qed.

Lemma sector_loop_combo (m : string) (secs : list string) :
  forall st attempted,
    sector_loop rq bstr all_objects m st attempted secs
    = combo_loop rq all_objects st attempted (map (pair m) secs).
Proof.
  induction secs as [|sec rest IH]; intros st attempted; simpl; [reflexivity|].
  unfold scan, pattern_of; simpl. fold bstr.
  destruct (found _); [reflexivity|]. apply IH.
Qed.

Lemma combo_loop_app (l1 l2 : list (string * string)) :
  forall st attempted,
    found st = false ->
    combo_loop rq all_objects st attempted (l1 ++ l2)
    = let '(st', attempted') := combo_loop rq all_objects st attempted l1 in
      if found st' then (st', attempted')
      else combo_loop rq all_objects st' attempted' l2.
Proof.
  induction l1 as [|c rest IH]; intros st attempted Hst; simpl.
  - now rewrite Hst.
  - destruct (found (scan rq all_objects st c)) eqn:Hf.
    + now rewrite Hf.
    + now apply IH.
Qed.

Lemma mode_loop_combo (modes : list string) :
  forall st attempted,
    found st = false ->
    mode_loop rq bstr all_objects st attempted modes
    = combo_loop rq all_objects st attempted (list_prod modes (sectors rq)).
Proof.
  induction modes as [|m rest IH]; intros st attempted Hst; simpl;
    [reflexivity|].
  rewrite combo_loop_app by exact Hst.
  rewrite sector_loop_combo.
  destruct (combo_loop rq all_objects st attempted
              (map (pair m) (sectors rq))) as [st' att'].
  destruct (found st') eqn:Hf; [reflexivity|].
  now apply IH.
Qed.

(** The loop stops at the first pair whose scan finds something; the
    scans before it leave the state untouched. *)
Lemma combo_loop_first (cs : list (string * string)) :
  forall st attempted,
    (exists pre c post,
        cs = (pre ++ c :: post)%list
        /\ Forall (fun c' => found (scan rq all_objects st c') = false) pre
        /\ found (scan rq all_objects st c) = true
        /\ combo_loop rq all_objects st attempted cs
           = (scan rq all_objects st c,
              attempted ++ map (pattern_of rq all_objects) (pre ++ [c]))%list)
    \/ (Forall (fun c' => found (scan rq all_objects st c') = false) cs
        /\ combo_loop rq all_objects st attempted cs
           = (st, attempted ++ map (pattern_of rq all_objects) cs)%list).
Proof.
  induction cs as [|c rest IH]; intros st attempted; simpl.
  - right. split; [constructor|]. now rewrite app_nil_r.
  - destruct (found (scan rq all_objects st c)) eqn:Hf.
    + left. exists [], c, rest. simpl. repeat split; auto.
    + pose proof (scan_not_found st c Hf) as E. rewrite E.
      destruct (IH st (attempted ++ [pattern_of rq all_objects c])%list)
        as [(pre & c0 & post & -> & Hpre & Hc & Hl) | (Hall & Hl)].
      * left. exists (c :: pre), c0, post. simpl. repeat split; auto.
        rewrite Hl. now rewrite <- app_assoc.
      * right. split; [constructor; auto|].
        rewrite Hl. now rewrite <- app_assoc.
Qed.

Lemma found_init : found (init_state rq) = false.
Proof. reflexivity. Qed.

Lemma search_first :
  (exists pre c post,
      combos rq = (pre ++ c :: post)%list
      /\ Forall (fun c' =>
                   found (scan rq all_objects (init_state rq) c') = false)
                pre
      /\ found (scan rq all_objects (init_state rq) c) = true
      /\ search rq all_objects
         = (scan rq all_objects (init_state rq) c,
            map (pattern_of rq all_objects) (pre ++ [c])))
  \/ (Forall (fun c' => found (scan rq all_objects (init_state rq) c') = false)
             (combos rq)
      /\ search rq all_objects
         = (init_state rq, map (pattern_of rq all_objects) (combos rq))).
Proof.
  unfold search. fold bstr.
  rewrite mode_loop_combo by apply found_init.
  apply (combo_loop_first (combos rq) (init_state rq) []).
Qed.

End GoesSearch.

(** ** The loop over the objects, rule by rule *)

Section GoesRules.

Variable rq : request.
Variables pattern try_mode sec : string.

Lemma rule_conus :
  rule_of rq = ConusClosest ->
  is_glm_product rq = false /\ is_conus rq = true.
Proof.
  unfold rule_of. destruct (is_glm_product rq).
  - destruct (has_seconds rq); discriminate.
  - destruct (is_conus rq); [auto|]. destruct (_ || _); discriminate.
Qed.

Lemma rule_exact :
  rule_of rq = ExactMinute ->
  is_glm_product rq = false /\ is_conus rq = false
  /\ is_fixed_format rq || startswith (product rq) "ABI-" = true.
Proof.
  unfold rule_of. destruct (is_glm_product rq).
  - destruct (has_seconds rq); discriminate.
  - destruct (is_conus rq); [discriminate|].
    destruct (_ || _); [auto | discriminate].
Qed.

Lemma rule_other :
  rule_of rq = OtherClosest ->
  is_glm_product rq = false /\ is_conus rq = false
  /\ is_fixed_format rq || startswith (product rq) "ABI-" = false.
Proof.
  unfold rule_of. destruct (is_glm_product rq).
  - destruct (has_seconds rq); discriminate.
  - destruct (is_conus rq); [discriminate|].
    destruct (_ || _); [discriminate | auto].
Qed.

(** *** Exact minute *)

Lemma scan_obj_exact (st : state) (key : string) :
  rule_of rq = ExactMinute ->
  scan_obj rq pattern try_mode sec st key
  = (if exact_minute rq pattern key
     then mkst (matching_files st ++ [key]) (used_mode st) (used_sector st)
               (closest_file st) (closest_time_diff st)
     else st, false).
Proof.
  intros (Hg & Hc & Hf)%rule_exact.
  unfold scan_obj, exact_minute, candidate. rewrite Hg, Hc, Hf.
  destruct (startswith (file_name key) pattern); simpl; [|reflexivity].
  destruct (file_timestamp_str key); [|reflexivity].
  destruct (String.eqb _ _); reflexivity.
Qed.

Lemma scan_objects_exact (objs : list string) :
  rule_of rq = ExactMinute ->
  forall st,
    scan_objects rq pattern try_mode sec st objs
    = mkst (matching_files st ++ filter (exact_minute rq pattern) objs)
           (used_mode st) (used_sector st)
           (closest_file st) (closest_time_diff st).
Proof.
  intros Hr. induction objs as [|key rest IH]; intros st; simpl.
  - rewrite app_nil_r. now destruct st.
  - rewrite scan_obj_exact by exact Hr.
    destruct (exact_minute rq pattern key); rewrite IH; simpl.
    + now rewrite <- app_assoc.
    + reflexivity.
Qed.

(** *** Closest within two minutes *)

Lemma scan_obj_conus (st : state) (key : string) :
  rule_of rq = ConusClosest ->
  scan_obj rq pattern try_mode sec st key
  = (match conus_diff rq pattern key with
     | Some d =>
         if match closest_file st with None => true | Some _ => false end
            || (d <? closest_time_diff st)
         then mkst (matching_files st) try_mode sec (Some key) d
         else st
     | None => st
     end, false).
Proof.
  intros (Hg & Hc)%rule_conus.
  unfold scan_obj, conus_diff, time_diff, candidate. rewrite Hg, Hc.
  destruct (startswith (file_name key) pattern); simpl; [|reflexivity].
  destruct (file_timestamp_str key) as [ts|]; [|reflexivity].
  destruct (strptime_Yj ts) as [t|]; [|reflexivity].
  destruct (abs_diff t (dt_input rq) <=? 120); simpl; [|reflexivity].
  destruct (_ || _); reflexivity.
Qed.

Lemma scan_objects_conus (objs : list string) :
  rule_of rq = ConusClosest ->
  forall st,
    let st' := scan_objects rq pattern try_mode sec st objs in
    matching_files st' = matching_files st
    /\ (st' = st
        \/ exists k d,
             In k objs /\ conus_diff rq pattern k = Some d
             /\ st' = mkst (matching_files st) try_mode sec (Some k) d)
    /\ (forall k' d',
           In k' objs -> conus_diff rq pattern k' = Some d' ->
           closest_file st' <> None /\ closest_time_diff st' <= d')
    /\ (closest_file st <> None ->
        closest_file st' <> None
        /\ closest_time_diff st' <= closest_time_diff st).
Proof.
  intros Hr. induction objs as [|key rest IH]; intros st; simpl.
  - repeat split; auto; try lia; try contradiction.
  - rewrite scan_obj_conus by exact Hr.
    set (st1 := match conus_diff rq pattern key with
                | Some d => _ | None => st end).
    destruct (IH st1) as (Hm & Hsel & Hmin & Hmono).
    assert (Hst1 : st1 = st
                   \/ exists d, conus_diff rq pattern key = Some d
                        /\ (closest_file st = None \/ d < closest_time_diff st)
                        /\ st1 = mkst (matching_files st) try_mode sec
                                      (Some key) d).
    { subst st1. destruct (conus_diff rq pattern key) as [d|]; [|now left].
      destruct (closest_file st) eqn:Hcf; simpl.
      - destruct (d <? closest_time_diff st) eqn:Hlt; [|now left].
        right. exists d. repeat split; auto. right. lia.
      - right. exists d. auto. }
    assert (Hm1 : matching_files st1 = matching_files st).
    { destruct Hst1 as [-> | (d & _ & _ & ->)]; reflexivity. }
    split; [congruence|]. split; [|split].
    + destruct Hsel as [E | (k & d & Hin & Hd & E)].
      * rewrite E. destruct Hst1 as [-> | (d & Hd & _ & E1)]; [now left|].
        right. exists key, d. repeat split; auto.
      * right. exists k, d. repeat split; auto. now rewrite E, Hm1.
    + intros k' d' [<- | Hin] Hd.
      * destruct Hst1 as [E | (d & Hd1 & Hcond & E)].
        -- (* the state was kept: an earlier file is at least as close *)
           rewrite E in *. subst st1.
           rewrite Hd in E.
           destruct (closest_file st) eqn:Hcf; simpl in E.
           ++ destruct (d' <? closest_time_diff st) eqn:Hlt.
              ** exfalso. apply (f_equal closest_time_diff) in E.
                 simpl in E. lia.
              ** destruct Hmono as [Hn Hle]; [congruence|].
                 split; [exact Hn | lia].
           ++ apply (f_equal closest_file) in E. simpl in E. congruence.
        -- rewrite Hd in Hd1. injection Hd1 as <-.
           assert (Hd1 : closest_time_diff st1 = d') by now rewrite E.
           destruct Hmono as [Hn Hle]; [rewrite E; discriminate|].
           split; [exact Hn | lia].
      * exact (Hmin k' d' Hin Hd).
    + intros Hcf.
      destruct Hst1 as [E | (d & _ & [Hc | Hc] & E)].
      * rewrite E in *. now apply Hmono.
      * congruence.
      * assert (Hd1 : closest_time_diff st1 = d) by now rewrite E.
        destruct Hmono as [Hn Hle]; [rewrite E; discriminate|].
        split; [exact Hn | lia].
Qed.

(** *** Closest under ten minutes *)

Lemma scan_obj_other (st : state) (key : string) :
  rule_of rq = OtherClosest ->
  scan_obj rq pattern try_mode sec st key
  = (match other_diff rq pattern key with
     | Some d =>
         if is_empty (matching_files st) || (d <? closest_time_diff st)
         then mkst [key] try_mode sec (closest_file st) d
         else st
     | None => st
     end, false).
Proof.
  intros (Hg & Hc & Hf)%rule_other.
  unfold scan_obj, other_diff, time_diff, candidate. rewrite Hg, Hc, Hf.
  destruct (startswith (file_name key) pattern); simpl; [|reflexivity].
  destruct (file_timestamp_str key) as [ts|]; [|reflexivity].
  destruct (strptime_Yj ts) as [t|]; [|reflexivity].
  destruct (abs_diff t (dt_input rq) <? 600); simpl; [|reflexivity].
  destruct (is_empty _ || _); reflexivity.
Qed.

Lemma scan_objects_other (objs : list string) :
  rule_of rq = OtherClosest ->
  forall st,
    let st' := scan_objects rq pattern try_mode sec st objs in
    closest_file st' = closest_file st
    /\ (st' = st
        \/ exists k d,
             In k objs /\ other_diff rq pattern k = Some d
             /\ st' = mkst [k] try_mode sec (closest_file st) d)
    /\ (forall k' d',
           In k' objs -> other_diff rq pattern k' = Some d' ->
           matching_files st' <> [] /\ closest_time_diff st' <= d')
    /\ (matching_files st <> [] ->
        matching_files st' <> []
        /\ closest_time_diff st' <= closest_time_diff st).
Proof.
  intros Hr. induction objs as [|key rest IH]; intros st; simpl.
  - repeat split; auto; try lia; try contradiction.
  - rewrite scan_obj_other by exact Hr.
    set (st1 := match other_diff rq pattern key with
                | Some d => _ | None => st end).
    destruct (IH st1) as (Hm & Hsel & Hmin & Hmono).
    assert (Hst1 : st1 = st
                   \/ exists d, other_diff rq pattern key = Some d
                        /\ (matching_files st = [] \/ d < closest_time_diff st)
                        /\ st1 = mkst [key] try_mode sec (closest_file st) d).
    { subst st1. destruct (other_diff rq pattern key) as [d|]; [|now left].
      destruct (matching_files st) eqn:Hmf; simpl.
      - right. exists d. auto.
      - destruct (d <? closest_time_diff st) eqn:Hlt; [|now left].
        right. exists d. repeat split; auto. right. lia. }
    assert (Hc1 : closest_file st1 = closest_file st).
    { destruct Hst1 as [-> | (d & _ & _ & ->)]; reflexivity. }
    split; [congruence|]. split; [|split].
    + destruct Hsel as [E | (k & d & Hin & Hd & E)].
      * rewrite E. destruct Hst1 as [-> | (d & Hd & _ & E1)]; [now left|].
        right. exists key, d. repeat split; auto.
      * right. exists k, d. repeat split; auto. now rewrite E, Hc1.
    + intros k' d' [<- | Hin] Hd.
      * destruct Hst1 as [E | (d & Hd1 & Hcond & E)].
        -- assert (Hkeep : matching_files st <> []
                           /\ closest_time_diff st <= d').
           { subst st1. rewrite Hd in E.
             destruct (matching_files st) eqn:Hmf; simpl in E.
             - apply (f_equal matching_files) in E. simpl in E. congruence.
             - destruct (d' <? closest_time_diff st) eqn:Hlt.
               + apply (f_equal closest_time_diff) in E. simpl in E. lia.
               + split; [discriminate | lia]. }
           destruct Hkeep as [Hne Hle0].
           assert (E1 : closest_time_diff st1 = closest_time_diff st)
             by now rewrite E.
           destruct Hmono as [Hn Hle]; [now rewrite E|].
           split; [exact Hn | lia].
        -- rewrite Hd in Hd1. injection Hd1 as <-.
           assert (Hd1 : closest_time_diff st1 = d') by now rewrite E.
           destruct Hmono as [Hn Hle]; [rewrite E; discriminate|].
           split; [exact Hn | lia].
      * exact (Hmin k' d' Hin Hd).
    + intros Hmf.
      destruct Hst1 as [E | (d & _ & [Hc | Hc] & E)].
      * assert (E1 : closest_time_diff st1 = closest_time_diff st)
          by now rewrite E.
        destruct Hmono as [Hn Hle]; [now rewrite E|].
        split; [exact Hn | lia].
      * congruence.
      * assert (Hd1 : closest_time_diff st1 = d) by now rewrite E.
        destruct Hmono as [Hn Hle]; [rewrite E; discriminate|].
        split; [exact Hn | lia].
Qed.

(** *** Lightning, query without seconds *)

Lemma scan_obj_glm_minute (st : state) (key : string) :
  rule_of rq = GlmMinute ->
  scan_obj rq pattern try_mode sec st key
  = (match time_diff rq pattern key with
     | Some d =>
         if (d <=? 20) && (is_empty (matching_files st) || (d <? 20))
         then mkst [key] (used_mode st) sec (closest_file st)
                   (closest_time_diff st)
         else st
     | None => st
     end, false).
Proof.
  intros Hr.
  assert (Hg : is_glm_product rq = true /\ has_seconds rq = false).
  { unfold rule_of in Hr. destruct (is_glm_product rq).
    - destruct (has_seconds rq); [discriminate | auto].
    - destruct (is_conus rq); [discriminate|].
      destruct (_ || _); discriminate. }
  destruct Hg as [Hg Hs].
  unfold scan_obj, time_diff, candidate. rewrite Hg, Hs.
  destruct (startswith (file_name key) pattern); cbn [negb]; [|reflexivity].
  destruct (file_timestamp_str key) as [ts|]; [|reflexivity].
  destruct (strptime_Yj ts) as [t|]; [|reflexivity].
  destruct (_ && _); reflexivity.
Qed.

(** Once an object is kept, objects at 20 seconds or more leave the
    state as it is. *)
Lemma glm_minute_far_objects (l : list string) :
  rule_of rq = GlmMinute ->
  (forall k' d', In k' l -> time_diff rq pattern k' = Some d' -> 20 <= d') ->
  forall st,
    is_empty (matching_files st) = false ->
    scan_objects rq pattern try_mode sec st l = st.
Proof.
  intros Hr. induction l as [|y l IH]; intros Hl st Hst;
    cbn [scan_objects]; [reflexivity|].
  rewrite scan_obj_glm_minute by exact Hr.
  assert (Hl' : forall k' d',
             In k' l -> time_diff rq pattern k' = Some d' -> 20 <= d')
    by (intros k' d' Hin; apply Hl; now right).
  destruct (time_diff rq pattern y) as [d'|] eqn:Hy; [|now apply IH].
  assert (20 <= d') by (apply (Hl y d'); [now left | exact Hy]).
  rewrite Hst. cbn [orb].
  replace (d' <? 20) with false by (symmetry; apply Z.ltb_ge; lia).
  rewrite andb_false_r. now apply IH.
Qed.

(** The object kept is the last one strictly under 20 seconds, however
    close the objects before it are. *)
Lemma glm_minute_keeps_last_under_20s (l1 l2 : list string) (k : string)
    (d : Z) :
  rule_of rq = GlmMinute ->
  time_diff rq pattern k = Some d -> d < 20 ->
  (forall k' d', In k' l2 -> time_diff rq pattern k' = Some d' -> 20 <= d') ->
  forall st,
    matching_files (scan_objects rq pattern try_mode sec st (l1 ++ k :: l2))
    = [k].
Proof.
  intros Hr Hd Hlt Hl2.
  induction l1 as [|x l1 IH]; intros st; cbn [app scan_objects].
  - rewrite scan_obj_glm_minute by exact Hr. rewrite Hd.
    replace (d <=? 20) with true by (symmetry; apply Z.leb_le; lia).
    replace (d <? 20) with true by (symmetry; apply Z.ltb_lt; lia).
    rewrite orb_true_r. cbn [andb].
    now rewrite glm_minute_far_objects.
  - rewrite scan_obj_glm_minute by exact Hr. apply IH.
Qed.

End GoesRules.

(** ** The selection of [download_GOES] *)

Section GoesSelection.

Variable rq : request.
Variable objs : list string.

Lemma conus_rule : is_conus rq = true -> rule_of rq = ConusClosest.
Proof.
  intros Hc. unfold rule_of. rewrite Hc.
  destruct (is_glm_product rq) eqn:Hg; [|reflexivity].
  unfold is_glm_product in Hg. apply String.eqb_eq in Hg.
  unfold is_conus, is_mesoscale in Hc. rewrite Hg in Hc. discriminate.
Qed.

Lemma fixed_format_not_glm :
  is_fixed_format rq = true -> is_glm_product rq = false.
Proof.
  intros Hf. destruct (is_glm_product rq) eqn:Hg; [|reflexivity].
  unfold is_glm_product in Hg. apply String.eqb_eq in Hg.
  unfold is_fixed_format, is_suvi_product, is_seis_product, is_mag_product
    in Hf.
  rewrite Hg in Hf. discriminate.
Qed.

(** What a scan from the initial state leaves, for the CONUS rule. *)
Lemma scan_conus_init (c : string * string) :
  rule_of rq = ConusClosest ->
  let st := scan rq objs (init_state rq) c in
  matching_files st = []
  /\ (closest_file st = None
      \/ exists k d,
           In k objs /\ conus_diff rq (pattern_of rq objs c) k = Some d
           /\ truthy k = true
           /\ st = mkst [] (fst c) (snd c) (Some k) d)
  /\ (forall k' d',
         In k' objs -> conus_diff rq (pattern_of rq objs c) k' = Some d' ->
         closest_file st <> None /\ closest_time_diff st <= d').
Proof.
  intros Hr st.
  destruct (scan_objects_conus rq (pattern_of rq objs c) (fst c) (snd c)
              objs Hr (init_state rq)) as (Hm & Hsel & Hmin & _).
  fold (scan rq objs (init_state rq) c) in Hm, Hsel, Hmin.
  fold st in Hm, Hsel, Hmin.
  split; [exact Hm|]. split; [|exact Hmin].
  destruct Hsel as [E | (k & d & Hin & Hd & E)].
  - left. now rewrite E.
  - right. exists k, d. repeat split; auto.
    unfold conus_diff, time_diff, candidate in Hd.
    destruct (startswith (file_name k) (pattern_of rq objs c)) eqn:Hp;
      [|discriminate].
    apply (pattern_key_truthy rq _ _ _ _ Hp).
Qed.

(** C1, amended: for a CONUS product the selection is one object, the
    one with the least time difference among the objects within two
    minutes that match the first (mode, sector) pattern under which any
    object is within two minutes; the patterns before it have none, and
    the patterns after it are not tried. When no pattern has one, nothing
    is selected and every pattern has been tried. *)
Theorem conus_closest_of_first_matching_pattern :
  is_conus rq = true ->
  match download_GOES rq objs with
  | Matched files m s =>
      exists pre c post k d,
        combos rq = (pre ++ c :: post)%list
        /\ files = [k] /\ m = fst c /\ s = snd c
        /\ snd (search rq objs) = map (pattern_of rq objs) (pre ++ [c])
        /\ In k objs
        /\ conus_diff rq (pattern_of rq objs c) k = Some d
        /\ (forall k' d',
               In k' objs ->
               conus_diff rq (pattern_of rq objs c) k' = Some d' -> d <= d')
        /\ (forall c' k',
               In c' pre -> In k' objs ->
               conus_diff rq (pattern_of rq objs c') k' = None)
  | NoMatch attempted =>
      attempted = map (pattern_of rq objs) (combos rq)
      /\ forall c k',
           In c (combos rq) -> In k' objs ->
           conus_diff rq (pattern_of rq objs c) k' = None
  | InvalidSatellite | NoFilesFound => True
  end.
Proof.
  intros Hc. pose proof (conus_rule Hc) as Hr.
  assert (Hnone : forall c' k',
             found (scan rq objs (init_state rq) c') = false ->
             In k' objs ->
             conus_diff rq (pattern_of rq objs c') k' = None).
  { intros c' k' Hf Hin.
    destruct (conus_diff rq (pattern_of rq objs c') k') as [d'|] eqn:Hd;
      [|reflexivity].
    destruct (scan_conus_init c' Hr) as (_ & _ & Hmin).
    destruct (Hmin k' d' Hin Hd) as [Hn _].
    rewrite (scan_not_found rq objs _ _ Hf) in Hn. now elim Hn. }
  unfold download_GOES.
  destruct (negb _); [exact I|]. destruct (is_empty objs); [exact I|].
  rewrite Hc.
  destruct (search_first rq objs)
    as [(pre & c & post & Hcs & Hpre & Hfound & Hs) | (Hall & Hs)].
  - rewrite Hs. simpl.
    destruct (scan_conus_init c Hr) as (Hm & Hsel & Hmin).
    destruct Hsel as [Hcf | (k & d & Hin & Hd & Hk & E)].
    + exfalso. unfold found in Hfound. rewrite Hm, Hcf in Hfound.
      discriminate.
    + rewrite E. simpl. rewrite Hk.
      exists pre, c, post, k, d. repeat split; auto.
      * intros k' d' Hin' Hd'. destruct (Hmin k' d' Hin' Hd') as [_ Hle].
        rewrite E in Hle. exact Hle.
      * intros c' k' Hc' Hin'. apply Hnone; [|exact Hin'].
        rewrite Forall_forall in Hpre. now apply Hpre.
  - rewrite Hs. simpl. split; [reflexivity|].
    intros c k' Hc' Hin'. apply Hnone; [|exact Hin'].
    rewrite Forall_forall in Hall. now apply Hall.
Qed.

(** What a scan from the initial state leaves, for the rule of the
    closest object under ten minutes. *)
Lemma scan_other_init (c : string * string) :
  rule_of rq = OtherClosest ->
  let st := scan rq objs (init_state rq) c in
  closest_file st = None
  /\ (matching_files st = []
      \/ exists k d,
           In k objs /\ other_diff rq (pattern_of rq objs c) k = Some d
           /\ st = mkst [k] (fst c) (snd c) None d)
  /\ (forall k' d',
         In k' objs -> other_diff rq (pattern_of rq objs c) k' = Some d' ->
         matching_files st <> [] /\ closest_time_diff st <= d').
Proof.
  intros Hr st.
  destruct (scan_objects_other rq (pattern_of rq objs c) (fst c) (snd c)
              objs Hr (init_state rq)) as (Hm & Hsel & Hmin & _).
  fold (scan rq objs (init_state rq) c) in Hm, Hsel, Hmin.
  fold st in Hm, Hsel, Hmin.
  split; [exact Hm|]. split; [|exact Hmin].
  destruct Hsel as [E | (k & d & Hin & Hd & E)].
  - left. now rewrite E.
  - right. exists k, d. repeat split; auto.
Qed.

(** The first non-empty list of a family. *)
Lemma first_non_empty (A : Type) (F : A -> list string) (cs : list A) :
  (forall pre c post,
      cs = (pre ++ c :: post)%list ->
      Forall (fun c' => F c' = []) pre -> F c <> [] ->
      hd [] (filter (fun l => negb (is_empty l)) (map F cs)) = F c)
  /\ (Forall (fun c' => F c' = []) cs ->
      hd [] (filter (fun l => negb (is_empty l)) (map F cs)) = []).
Proof.
  split.
  - intros pre c post -> Hpre Hc.
    induction Hpre as [|c' pre E _ IH]; cbn [app map filter].
    + destruct (F c); [now contradiction Hc | reflexivity].
    + rewrite E. exact IH.
  - induction 1 as [|c' rest E _ IH]; cbn [map filter]; [reflexivity|].
    rewrite E. exact IH.
Qed.

(** C4, amended: a mesoscale [ABI-] product is matched by exact minute:
    the scan records an object exactly when it passes the exact-minute
    test and never stops on it, and for a valid satellite the selection is
    the objects that pass that test under the first (mode, sector) pattern
    having one. A request reaches the rule of the closest object under
    ten minutes exactly when its product is neither lightning, CONUS,
    SUVI/SEIS/MAG nor an [ABI-] product, and the scan then takes an object
    when its difference is under ten minutes and below the least so far.
    Under that rule the selection is one object, the one with the least
    time difference among the objects strictly under ten minutes that
    match the first (mode, sector) pattern having such an object; when no
    pattern has one, nothing is selected. Without a search the result is
    that of an invalid satellite or of an empty listing. *)
Theorem other_closest_of_first_matching_pattern :
  (is_mesoscale rq = true -> startswith (product rq) "ABI-" = true ->
   rule_of rq = ExactMinute
   /\ (forall p m s st key,
          scan_obj rq p m s st key
          = (if exact_minute rq p key
             then mkst (matching_files st ++ [key]) (used_mode st)
                       (used_sector st) (closest_file st)
                       (closest_time_diff st)
             else st, false))
   /\ (existsb (String.eqb (satellite rq)) valid_satellites = true ->
       selected (download_GOES rq objs)
       = hd [] (filter (fun l => negb (is_empty l))
                  (map (fun c =>
                          filter (exact_minute rq (pattern_of rq objs c))
                                 objs)
                       (combos rq)))))
  /\ (rule_of rq = OtherClosest ->
      match download_GOES rq objs with
      | Matched files m s =>
          exists pre c post k d,
            combos rq = (pre ++ c :: post)%list
            /\ files = [k] /\ m = fst c /\ s = snd c
            /\ In k objs
            /\ other_diff rq (pattern_of rq objs c) k = Some d
            /\ d < 600
            /\ (forall k' d',
                   In k' objs ->
                   other_diff rq (pattern_of rq objs c) k' = Some d' ->
                   d <= d')
            /\ (forall c' k',
                   In c' pre -> In k' objs ->
                   other_diff rq (pattern_of rq objs c') k' = None)
      | NoMatch attempted =>
          forall c k',
            In c (combos rq) -> In k' objs ->
            other_diff rq (pattern_of rq objs c) k' = None
      | InvalidSatellite =>
          existsb (String.eqb (satellite rq)) valid_satellites = false
      | NoFilesFound => objs = []
      end)
  /\ (rule_of rq = OtherClosest
      <-> is_glm_product rq = false /\ is_conus rq = false
          /\ is_fixed_format rq || startswith (product rq) "ABI-" = false)
  /\ (is_glm_product rq = false -> is_conus rq = false ->
      is_fixed_format rq || startswith (product rq) "ABI-" = false ->
      forall p m s st key,
        scan_obj rq p m s st key
        = (match other_diff rq p key with
           | Some d =>
               if is_empty (matching_files st) || (d <? closest_time_diff st)
               then mkst [key] m s (closest_file st) d
               else st
           | None => st
           end, false)).
Proof.
  assert (Hflags : is_glm_product rq = false -> is_conus rq = false ->
                   is_fixed_format rq || startswith (product rq) "ABI-"
                   = false ->
                   rule_of rq = OtherClosest).
  { intros Hg Hc Hf. unfold rule_of. now rewrite Hg, Hc, Hf. }
  split; [|split; [|split]].
  { intros Hm Ha.
    assert (Hr : rule_of rq = ExactMinute).
    { unfold rule_of.
      assert (Hg : is_glm_product rq = false).
      { destruct (is_glm_product rq) eqn:Hg; [|reflexivity].
        unfold is_glm_product in Hg. apply String.eqb_eq in Hg.
        rewrite Hg in Ha. discriminate. }
      unfold is_conus. rewrite Hg, Hm, Ha, andb_false_r, orb_true_r.
      reflexivity. }
    split; [exact Hr|]. split.
    { intros p m s st key. now apply scan_obj_exact. }
    intros Hsat.
    destruct (rule_exact rq Hr) as (Hg & Hc & _).
    set (F := fun c => filter (exact_minute rq (pattern_of rq objs c)) objs).
    assert (Hscan : forall c,
               matching_files (scan rq objs (init_state rq) c) = F c
               /\ closest_file (scan rq objs (init_state rq) c) = None).
    { intros c. unfold scan. rewrite scan_objects_exact by exact Hr.
      split; reflexivity. }
    assert (Hfound : forall c,
               found (scan rq objs (init_state rq) c)
               = negb (is_empty (F c))).
    { intros c. destruct (Hscan c) as [E1 E2]. unfold found.
      rewrite E1, E2. now destruct (F c). }
    destruct (first_non_empty _ F (combos rq)) as [Hfirst Hnone].
    unfold download_GOES. rewrite Hsat. cbn [negb].
    destruct (is_empty objs) eqn:He.
    { destruct objs; [|discriminate]. cbn [selected].
      symmetry. apply Hnone. apply Forall_forall. intros c _. reflexivity. }
    rewrite Hc.
    destruct (search_first rq objs)
      as [(pre & c & post & Hcs & Hpre & Hfd & Hs) | (Hall & Hs)];
      rewrite Hs.
    - rewrite Hfd. cbn [selected]. rewrite (proj1 (Hscan c)).
      symmetry. apply (Hfirst pre c post Hcs).
      + rewrite Forall_forall in *. intros c' Hc'.
        specialize (Hpre c' Hc'). rewrite Hfound in Hpre.
        now destruct (F c').
      + rewrite Hfound in Hfd. intros E. now rewrite E in Hfd.
    - rewrite found_init. cbn [selected].
      symmetry. apply Hnone.
      rewrite Forall_forall in *. intros c' Hc'.
      specialize (Hall c' Hc'). rewrite Hfound in Hall.
      now destruct (F c'). }
  { intros Hr. destruct (rule_other rq Hr) as (Hg & Hc & Hf).
    assert (Hnone : forall c' k',
               found (scan rq objs (init_state rq) c') = false ->
               In k' objs ->
               other_diff rq (pattern_of rq objs c') k' = None).
    { intros c' k' Hfd Hin.
      destruct (other_diff rq (pattern_of rq objs c') k') as [d'|] eqn:Hd;
        [|reflexivity].
      destruct (scan_other_init c' Hr) as (_ & _ & Hmin).
      destruct (Hmin k' d' Hin Hd) as [Hn _].
      rewrite (scan_not_found rq objs _ _ Hfd) in Hn. now elim Hn. }
    unfold download_GOES.
    destruct (negb _) eqn:Hsat; [now apply negb_true_iff in Hsat|].
    destruct (is_empty objs) eqn:He;
      [destruct objs; [reflexivity | discriminate]|].
    rewrite Hc.
    destruct (search_first rq objs)
      as [(pre & c & post & Hcs & Hpre & Hfound & Hs) | (Hall & Hs)].
    - rewrite Hs. rewrite Hfound.
      destruct (scan_other_init c Hr) as (Hcf & Hsel & Hmin).
      destruct Hsel as [Hmf | (k & d & Hin & Hd & E)].
      + exfalso. unfold found in Hfound. rewrite Hmf, Hcf in Hfound.
        discriminate.
      + rewrite E. simpl.
        exists pre, c, post, k, d. repeat split; auto.
        * unfold other_diff in Hd.
          destruct (time_diff rq (pattern_of rq objs c) k) as [d0|];
            [|discriminate].
          destruct (d0 <? 600) eqn:Hlt; [|discriminate].
          injection Hd as <-. lia.
        * intros k' d' Hin' Hd'. destruct (Hmin k' d' Hin' Hd') as [_ Hle].
          rewrite E in Hle. exact Hle.
        * intros c' k' Hc' Hin'. apply Hnone; [|exact Hin'].
          rewrite Forall_forall in Hpre. now apply Hpre.
    - rewrite Hs. simpl.
      intros c k' Hc' Hin'. apply Hnone; [|exact Hin'].
      rewrite Forall_forall in Hall. now apply Hall. }
  { split.
    - apply rule_other.
    - intros (Hg & Hc & Hf). now apply Hflags. }
  intros Hg Hc Hf p m s st key.
  apply scan_obj_other. now apply Hflags.
Qed.

(** The pattern, the modes and the sectors of a fixed-format product. *)
Lemma fixed_format_combos :
  is_fixed_format rq = true ->
  combos rq = [("", "")] /\ band_str rq objs = "".
Proof.
  intros Hf. unfold combos, possible_modes, sectors, band_str.
  rewrite Hf, orb_true_r. auto.
Qed.

(** C3, amended: for a SUVI, SEIS or MAG product (whose name does not end
    in C) the selection is, in listing order, every object whose file
    name starts with the product's pattern, whose timestamp text between
    [_s] and [_e] has at least 14 characters, and whose first 11
    characters (year, day of year, hour, minute) are those of the text
    of the query; no other object is selected. The timestamp is compared
    as text and is not parsed. For an object whose timestamp does parse,
    to an instant of the year that the text names, and a query of the
    year 1000 or later, the 11 characters agree exactly when the parsed
    timestamp and the query agree down to the minute. *)
Theorem fixed_format_exact_minute_text :
  is_fixed_format rq = true ->
  is_conus rq = false ->
  existsb (String.eqb (satellite rq)) valid_satellites = true ->
  selected (download_GOES rq objs)
  = filter (exact_minute rq (target_pattern rq "" "" "")) objs
  /\ (forall k,
         In k (selected (download_GOES rq objs))
         <-> In k objs
             /\ startswith (file_name k) (target_pattern rq "" "" "") = true
             /\ exists ts,
                  file_timestamp_str k = Some ts
                  /\ slice ts 0 11 = slice (timestamp_prefix rq) 0 11)
  /\ (valid (dt_input rq) -> 1000 <= year (dt_input rq) ->
      forall ts t,
        strptime_Yj ts = Some t ->
        num (slice ts 0 4) = Some (year t) ->
        slice ts 0 11 = slice (timestamp_prefix rq) 0 11
        <-> year t = year (dt_input rq)
            /\ month t = month (dt_input rq)
            /\ day t = day (dt_input rq)
            /\ hour t = hour (dt_input rq)
            /\ minute t = minute (dt_input rq)).
Proof.
  intros Hf Hc Hsat.
  assert (Hr : rule_of rq = ExactMinute).
  { unfold rule_of. now rewrite (fixed_format_not_glm Hf), Hc, Hf. }
  destruct (fixed_format_combos Hf) as [Hcs Hb].
  assert (Hsel : selected (download_GOES rq objs)
                 = filter (exact_minute rq (target_pattern rq "" "" "")) objs).
  { unfold download_GOES. rewrite Hsat. simpl.
    destruct (is_empty objs) eqn:He.
    { destruct objs; [reflexivity | discriminate]. }
    unfold search. rewrite mode_loop_combo by apply found_init.
    fold (combos rq). rewrite Hcs. unfold combo_loop, scan, pattern_of.
    rewrite Hb. cbn [fst snd].
    rewrite scan_objects_exact by exact Hr.
    unfold found. cbn [matching_files closest_file init_state app].
    rewrite Hc.
    destruct (filter _ objs) eqn:Hfl; reflexivity. }
  split; [exact Hsel|]. split.
  - intros k. rewrite Hsel, filter_In. unfold exact_minute, candidate.
    split.
    + intros [Hin Hm]. split; [exact Hin|].
      destruct (startswith (file_name k) _); [|discriminate].
      split; [reflexivity|].
      destruct (file_timestamp_str k) as [ts|]; [|discriminate].
      exists ts. split; [reflexivity|]. now apply String.eqb_eq.
    + intros (Hin & Hp & ts & Hts & E). split; [exact Hin|].
      rewrite Hp, Hts. now apply String.eqb_eq.
  - intros Hv Hy ts t Hp Hyt. unfold timestamp_prefix.
    now apply minute_text_iff.
Qed.



(** An object that fails the test of the rule leaves the state as it
    is. *)
Lemma scan_obj_no_match (p m s : string) (st : state) (key : string) :
  matches rq p key = false ->
  scan_obj rq p m s st key = (st, false).
Proof.
  unfold matches, rule_of, scan_obj, exact_minute, conus_diff, other_diff,
    time_diff, candidate.
  destruct (startswith (file_name key) p); cbn [negb]; [|reflexivity].
  destruct (file_timestamp_str key) as [ts|]; [|reflexivity].
  destruct (is_glm_product rq).
  - destruct (has_seconds rq).
    + now intros ->.
    + destruct (strptime_Yj ts); [|reflexivity]. now intros ->.
  - destruct (is_conus rq).
    + destruct (strptime_Yj ts); [|reflexivity].
      destruct (_ <=? 120); [discriminate | reflexivity].
    + destruct (is_fixed_format rq || startswith (product rq) "ABI-").
      * now intros ->.
      * destruct (strptime_Yj ts); [|reflexivity].
        destruct (_ <? 600); [discriminate | reflexivity].
Qed.

Lemma scan_objects_no_match (p m s : string) (st : state)
    (l : list string) :
  (forall k, In k l -> matches rq p k = false) ->
  scan_objects rq p m s st l = st.
Proof.
  induction l as [|key rest IH]; intros H; simpl; [reflexivity|].
  rewrite scan_obj_no_match by (apply H; now left).
  apply IH. intros k Hk. apply H. now right.
Qed.

(** The search reads the band only through [band_str]. *)
Lemma scan_objects_with_band (b : option Z) (p m s : string)
    (l : list string) :
  forall st,
    scan_objects (with_band rq b) p m s st l = scan_objects rq p m s st l.
Proof.
  induction l as [|key rest IH]; intros st; simpl; [reflexivity|].
  change (scan_obj (with_band rq b) p m s st key)
    with (scan_obj rq p m s st key).
  destruct (scan_obj rq p m s st key) as [st' brk].
  destruct brk; [reflexivity | apply IH].
Qed.

Lemma sector_loop_with_band (b : option Z) (bs m : string)
    (secs : list string) :
  forall st att,
    sector_loop (with_band rq b) bs objs m st att secs
    = sector_loop rq bs objs m st att secs.
Proof.
  induction secs as [|sec rest IH]; intros st att; simpl; [reflexivity|].
  change (target_pattern (with_band rq b) bs m sec)
    with (target_pattern rq bs m sec).
  rewrite scan_objects_with_band.
  destruct (found _); [reflexivity | apply IH].
Qed.

Lemma mode_loop_with_band (b : option Z) (bs : string)
    (modes : list string) :
  forall st att,
    mode_loop (with_band rq b) bs objs st att modes
    = mode_loop rq bs objs st att modes.
Proof.
  induction modes as [|m rest IH]; intros st att; simpl; [reflexivity|].
  change (sectors (with_band rq b)) with (sectors rq).
  rewrite sector_loop_with_band.
  destruct (sector_loop rq bs objs m st att (sectors rq)) as [st' att'].
  destruct (found st'); [reflexivity | apply IH].
Qed.

Lemma search_with_band :
  band rq = None ->
  search (with_band rq (Some 1)) objs = search rq objs.
Proof.
  intros Hb. unfold search. rewrite mode_loop_with_band.
  unfold band_str. cbn [band with_band]. rewrite Hb. reflexivity.
Qed.

Lemma band_token_in_file_name :
  is_band_specific objs = true
  <-> exists key m b,
        In key objs /\ 1 <= m <= 6 /\ 1 <= b <= 16
        /\ contains (band_token m b) (file_name key) = true.
Proof.
  unfold is_band_specific. rewrite existsb_exists. split.
  - intros (key & Hin & H). apply existsb_exists in H.
    destruct H as (m & Hm & H). apply existsb_exists in H.
    destruct H as (b & Hb & H).
    exists key, m, b. repeat split; auto.
    + unfold range_1_7 in Hm. simpl in Hm. lia.
    + unfold range_1_7 in Hm. simpl in Hm. lia.
    + unfold range_1_17 in Hb. simpl in Hb. lia.
    + unfold range_1_17 in Hb. simpl in Hb. lia.
  - intros (key & m & b & Hin & Hm & Hb & H).
    exists key. split; [exact Hin|].
    apply existsb_exists. exists m. split.
    { unfold range_1_7. simpl. lia. }
    apply existsb_exists. exists b. split; [|exact H].
    unfold range_1_17. simpl. lia.
Qed.

(** C6, amended: the listing is band-specific exactly when the file name
    (the part after the last slash) of at least one of its keys holds a
    token [-M<m>C<bb>] with [m] in 1..6 and [bb] in 01..16, whichever key
    that is; a request without a band is answered as the same request
    with band 1; and when the listing is band-specific and no object
    passes the test under any pattern, the request ends as a no-match
    with all the patterns tried, not as an input error. *)
Theorem band_specific_listing_and_default_band :
  (is_band_specific objs = true
   <-> exists key m b,
         In key objs /\ 1 <= m <= 6 /\ 1 <= b <= 16
         /\ contains (band_token m b) (file_name key) = true)
  /\ (band rq = None ->
      download_GOES rq objs = download_GOES (with_band rq (Some 1)) objs)
  /\ (band rq = None ->
      is_band_specific objs = true ->
      existsb (String.eqb (satellite rq)) valid_satellites = true ->
      (forall c k,
          In c (combos rq) -> In k objs ->
          matches rq (pattern_of rq objs c) k = false) ->
      download_GOES rq objs
      = NoMatch (map (pattern_of rq objs) (combos rq))).
Proof.
  split; [exact band_token_in_file_name|]. split.
  - intros Hb. unfold download_GOES.
    now rewrite search_with_band by exact Hb.
  - intros _ Hbs Hsat Hno.
    unfold download_GOES. rewrite Hsat. simpl.
    destruct (is_empty objs) eqn:He.
    { destruct objs; [discriminate Hbs | discriminate He]. }
    destruct (search_first rq objs)
      as [(pre & c & post & Hcs & Hpre & Hfound & Hs) | (Hall & Hs)].
    + exfalso. unfold scan in Hfound.
      rewrite scan_objects_no_match in Hfound; [discriminate|].
      intros k Hk. apply Hno; [|exact Hk].
      rewrite Hcs. apply in_or_app. right. now left.
    + rewrite Hs. simpl. now destruct (is_conus rq).
Qed.

End GoesSelection.

(** ** The selection on concrete listings *)

Section GoesCases.
Import Cases.

(** The CONUS listing: what is selected, the pattern tried, and the two
    time differences. *)
Example conus_case :
  download_GOES conus_rq conus_objs = Matched [conus_m6_0130] "6" ""
  /\ snd (search conus_rq conus_objs) = ["OR_ABI-L2-CMIPC-M6C13_G16_s"]
  /\ conus_diff conus_rq "OR_ABI-L2-CMIPC-M6C13_G16_s" conus_m6_0130 = Some 90
  /\ conus_diff conus_rq "OR_ABI-L2-CMIPC-M3C13_G16_s" conus_m3_0045 = Some 45.
Proof. vm_compute. auto. Qed.

(** C1, as stated, fails: under the default mode 6 the mode-6 object at
    90 seconds is selected, although the mode-3 object at 45 seconds lies
    within two minutes under a pattern of the search order. *)
Lemma conus_not_closest_over_all_patterns :
  ~ (forall k c0 d,
        In k (selected (download_GOES conus_rq conus_objs)) ->
        In c0 (combos conus_rq) ->
        conus_diff conus_rq (pattern_of conus_rq conus_objs c0) k = Some d ->
        forall c k' d',
          In c (combos conus_rq) -> In k' conus_objs ->
          conus_diff conus_rq (pattern_of conus_rq conus_objs c) k' = Some d' ->
          d <= d').
Proof.
  intros H.
  specialize (H conus_m6_0130 ("6", "") 90).
  assert (H' : 90 <= 45).
  { apply H with (c := ("3", "")) (k' := conus_m3_0045);
      vm_compute; auto. }
  lia.
Qed.

(** The theorem of the CONUS rule on the listing above. *)
Lemma conus_witness :
  is_conus conus_rq = true
  /\ exists k d,
       selected (download_GOES conus_rq conus_objs) = [k]
       /\ conus_diff conus_rq "OR_ABI-L2-CMIPC-M6C13_G16_s" k = Some d
       /\ d <= 90.
Proof.
  split; [reflexivity|].
  pose proof (conus_closest_of_first_matching_pattern conus_rq conus_objs
                eq_refl) as P.
  change (download_GOES conus_rq conus_objs)
    with (Matched [conus_m6_0130] "6" "") in P.
  destruct P as (pre & c & post & k & d & _ & Hk & Hm & Hs & _ & _ & Hd
                 & Hmin & _).
  injection Hk as <-. exists conus_m6_0130, d. split; [reflexivity|].
  assert (Hc : c = ("6", "")) by (destruct c; simpl in *; congruence).
  subst c. split; [exact Hd|].
  apply (Hmin conus_m6_0130 90); [now left | reflexivity].
Defined.

(** C2: the code at a listing with objects at 5 and at 15 seconds from a
    query without seconds selects the one at 15 seconds, the last one
    under 20 seconds, where the closest is the one at 5 seconds. *)
Theorem glm_minute_query_keeps_last_under_20s :
  download_GOES glm_rq [glm_000500; glm_001500]
  = Matched [glm_001500] "" ""
  /\ time_diff glm_rq "OR_GLM-L2-LCFA_G16_s" glm_000500 = Some 5
  /\ time_diff glm_rq "OR_GLM-L2-LCFA_G16_s" glm_001500 = Some 15
  /\ download_GOES glm_rq [glm_001500; glm_000500]
     = Matched [glm_000500] "" "".
Proof. vm_compute. auto. Qed.

(** The scenario of the specification: objects at 12:00:15 and 12:05:00. *)
Example glm_scenario :
  download_GOES glm_rq [glm_001500; glm_050000]
  = Matched [glm_001500] "" "".
Proof. vm_compute. reflexivity. Qed.

(** C3, as stated, fails: the object whose seconds read 99 has no
    timestamp, yet it is selected. *)
Lemma fixed_format_selects_unparsed_timestamp :
  ~ (forall k,
        In k (selected (download_GOES suvi_rq [suvi_001000; suvi_0099])) ->
        exists ts t,
          file_timestamp_str k = Some ts
          /\ strptime_Yj ts = Some t
          /\ mkdt (year t) (month t) (day t) (hour t) (minute t) 0
             = mkdt (year noon) (month noon) (day noon)
                    (hour noon) (minute noon) 0).
Proof.
  intros H.
  destruct (H suvi_0099) as (ts & t & Hts & Ht & _).
  - vm_compute. auto.
  - vm_compute in Hts. injection Hts as <-.
    vm_compute in Ht. discriminate.
Qed.

(** The theorem of the fixed-format products on a listing of three
    objects, the third of the minute 12:01. *)
Lemma fixed_format_witness :
  is_fixed_format suvi_rq = true
  /\ is_conus suvi_rq = false
  /\ existsb (String.eqb (satellite suvi_rq)) valid_satellites = true
  /\ valid (dt_input suvi_rq)
  /\ 1000 <= year (dt_input suvi_rq)
  /\ selected (download_GOES suvi_rq [suvi_001000; suvi_0099; suvi_010000])
     = [suvi_001000; suvi_0099]
  /\ slice "2025281120010" 0 11 = slice (timestamp_prefix suvi_rq) 0 11.
Proof.
  split; [reflexivity|]. split; [reflexivity|]. split; [reflexivity|].
  split; [reflexivity|]. split; [vm_compute; discriminate|].
  destruct (fixed_format_exact_minute_text suvi_rq
              [suvi_001000; suvi_0099; suvi_010000]
              eq_refl eq_refl eq_refl) as (Hsel & _ & Htext).
  split; [rewrite Hsel; reflexivity|].
  apply (Htext eq_refl ltac:(vm_compute; discriminate)
               "2025281120010" (mkdt 2025 10 8 12 0 10));
    [reflexivity | reflexivity |].
  repeat split.
Defined.

(** C4, as stated, fails: for a mesoscale product of the imager an
    object 5 minutes from the query, under the first pattern tried, is
    not selected. *)
Lemma mesoscale_abi_is_exact_minute :
  ~ (forall c k d,
        In c (combos meso_rq) -> In k [meso_050000] ->
        other_diff meso_rq (pattern_of meso_rq [meso_050000] c) k = Some d ->
        In k (selected (download_GOES meso_rq [meso_050000]))).
Proof.
  intros H.
  specialize (H ("6", "M1") meso_050000 300).
  apply H; vm_compute; auto.
Qed.

(** The theorem of the ten-minute rule on objects at 3 minutes and at
    1 minute from the query, and the exact-minute rule on a mesoscale
    listing with an object 5 minutes from the query and one of the minute
    of the query: only the latter is selected. *)
Lemma other_closest_witness :
  rule_of exis_rq = OtherClosest
  /\ (exists k d,
         selected (download_GOES exis_rq [exis_030000; exis_010000]) = [k]
         /\ other_diff exis_rq "OR_EXIS-L1b-SFXR-M6_G16_s" k = Some d
         /\ d <= 60)
  /\ is_mesoscale meso_rq = true
  /\ startswith (product meso_rq) "ABI-" = true
  /\ other_diff meso_rq "OR_ABI-L2-CMIPM1-M6C13_G16_s" meso_050000
     = Some 300
  /\ selected (download_GOES meso_rq [meso_050000; meso_003000])
     = [meso_003000].
Proof.
  split; [reflexivity|]. split.
  - pose proof (proj1 (proj2 (other_closest_of_first_matching_pattern exis_rq
                         [exis_030000; exis_010000])) eq_refl) as P.
    change (download_GOES exis_rq [exis_030000; exis_010000])
      with (Matched [exis_010000] "6" "") in P.
    destruct P as (pre & c & post & k & d & _ & Hk & Hm & Hs & _ & Hd & _
                   & Hmin & _).
    injection Hk as <-. exists exis_010000, d. split; [reflexivity|].
    assert (Hc : c = ("6", "")) by (destruct c; simpl in *; congruence).
    subst c. split; [exact Hd|].
    apply (Hmin exis_010000 60); [right; now left | reflexivity].
  - split; [reflexivity|]. split; [reflexivity|].
    split; [vm_compute; reflexivity|].
    destruct (proj1 (other_closest_of_first_matching_pattern meso_rq
                       [meso_050000; meso_003000]) eq_refl eq_refl)
      as (_ & _ & Hsel).
    rewrite (Hsel eq_refl). vm_compute. reflexivity.
Defined.


(** C6, as stated, fails: a token in a directory name does not make the
    listing band-specific. *)
Lemma band_token_outside_file_name :
  ~ (is_band_specific [token_in_directory] = true
     <-> exists key m b,
           In key [token_in_directory] /\ 1 <= m <= 6 /\ 1 <= b <= 16
           /\ contains (band_token m b) key = true).
Proof.
  intros [_ H].
  assert (E : is_band_specific [token_in_directory] = true).
  { apply H. exists token_in_directory, 6, 1.
    split; [now left|]. split; [lia|]. split; [lia|].
    vm_compute. reflexivity. }
  vm_compute in E. discriminate.
Qed.

(** The default band on a band-specific listing without an object of
    band 1. *)
Lemma band_default_witness :
  band (with_band fd_rq None) = None
  /\ is_band_specific [fd_00XX] = true
  /\ download_GOES (with_band fd_rq None) [fd_00XX]
     = NoMatch ["OR_ABI-L2-CMIPF-M6C01_G16_s"; "OR_ABI-L2-CMIPF-M3C01_G16_s";
                "OR_ABI-L2-CMIPF-M4C01_G16_s"; "OR_ABI-L2-CMIPF-M6C01_G16_s"].
Proof.
  split; [reflexivity|]. split; [vm_compute; reflexivity|].
  rewrite (proj2 (proj2 (band_specific_listing_and_default_band
                           (with_band fd_rq None) [fd_00XX]))
             eq_refl eq_refl eq_refl).
  - reflexivity.
  - intros c k Hc Hk.
    destruct Hk as [<- | []].
    vm_compute in Hc.
    repeat (destruct Hc as [<- | Hc]; [vm_compute; reflexivity|]).
    contradiction.
Defined.

End GoesCases.

(** ** Comparison of datetimes *)

Section DatetimeOrder.

Ltac lex :=
  unfold geb; unfold PyDatetime.eqb, ltb, compare, fields; simpl;
  repeat match goal with
         | |- context [?x ?= ?y] => destruct (Z.compare_spec x y); simpl
         end;
  try discriminate; try (intros; repeat split; lia).

Lemma datetime_eqb_eq (a b : datetime) :
  PyDatetime.eqb a b = true <-> a = b.
Proof.
  destruct a as [y1 m1 d1 h1 i1 s1], b as [y2 m2 d2 h2 i2 s2]. split.
  - lex. intros _. congruence.
  - intros E. injection E as -> -> -> -> -> ->.
    unfold PyDatetime.eqb, compare, fields. simpl.
    now rewrite !Z.compare_refl.
Qed.

(** An instant in the range between two bounds of one day is of that
    day. *)
Lemma range_within_day (lo hi t : datetime) :
  year hi = year lo -> month hi = month lo -> day hi = day lo ->
  geb t lo = true -> ltb t hi = true ->
  year t = year lo /\ month t = month lo /\ day t = day lo.
Proof.
  destruct lo as [y1 m1 d1 h1 i1 s1], hi as [y2 m2 d2 h2 i2 s2],
    t as [y m d h i s].
  cbn [year month day]. intros -> -> ->. lex.
Qed.

(** No instant lies in a range whose upper bound, on the same day and at
    a whole minute, is not after the lower bound. *)
Lemma range_empty (lo hi t : datetime) :
  year hi = year lo -> month hi = month lo -> day hi = day lo ->
  second hi = 0 -> second lo = 0 ->
  hour hi < hour lo \/ (hour hi = hour lo /\ minute hi <= minute lo) ->
  geb t lo && ltb t hi = false.
Proof.
  destruct lo as [y1 m1 d1 h1 i1 s1], hi as [y2 m2 d2 h2 i2 s2],
    t as [y m d h i s].
  cbn [year month day hour minute second]. intros -> -> -> -> -> Hhm.
  destruct (geb _ _) eqn:Hge; [|reflexivity].
  destruct (ltb _ _) eqn:Hlt; [|reflexivity].
  exfalso. revert Hge Hlt. lex.
Qed.

End DatetimeOrder.

(** ** downloader_jpss.py: parsing, range and pairing *)

Section JpssLists.
Import Jpss.

(** The two parsers hand every exception over as [None]. *)
Lemma parse_dates_sdr_returns (b s : string) :
  exists o, parse_dates_sdr b s = Ok o.
Proof.
  unfold parse_dates_sdr, try_except.
  match goal with |- exists o, match ?body with _ => _ end = _ =>
    destruct body as [o|e] end; eauto.
Qed.

Lemma parse_dates_geo_returns (s : string) :
  exists o, parse_dates_geo s = Ok o.
Proof.
  unfold parse_dates_geo, try_except.
  match goal with |- exists o, match ?body with _ => _ end = _ =>
    destruct body as [o|e] end; eauto.
Qed.

(** [apply] of a parser that returns: one row per file, in order. *)
Lemma apply_returns (parse : string -> result (option PyDatetime.datetime))
    (files : list string) :
  (forall s, exists o, parse s = Ok o) ->
  exists rows,
    apply parse files = Ok rows
    /\ map fst rows = files
    /\ forall f d, In (f, d) rows -> parse f = Ok d.
Proof.
  intros Hp. induction files as [|f rest (rows & E & Hm & Hin)]; simpl.
  - exists []. repeat split; auto. intros f d [].
  - destruct (Hp f) as [o Ho]. rewrite Ho, E. simpl.
    exists ((f, o) :: rows). repeat split; simpl; [now f_equal|].
    intros f' d' [H | H]; [congruence | now apply Hin].
Qed.

Lemma dropna_In (rows : list row) (f : string) (d : PyDatetime.datetime) :
  In (f, d) (dropna rows) <-> In (f, Some d) rows.
Proof.
  induction rows as [|[f' [d'|]] rest IH]; simpl.
  - tauto.
  - rewrite IH. split; intros [H | H]; auto; left; congruence.
  - rewrite IH. split; [auto | intros [H | H]; [discriminate | auto]].
Qed.

Lemma in_range_In (lo hi : PyDatetime.datetime) (rows : list dated)
    (r : dated) :
  In r (in_range lo hi rows)
  <-> In r rows /\ geb (snd r) lo = true /\ ltb (snd r) hi = true.
Proof.
  unfold in_range. rewrite filter_In, andb_true_iff. tauto.
Qed.

(** *** Pairing and deduplication *)

Lemma matched_geo_In (geo : list dated) (t : PyDatetime.datetime)
    (g : string) :
  In g (matched_geo geo t) <-> In (g, t) geo.
Proof.
  unfold matched_geo. rewrite in_map_iff. split.
  - intros ([g' t'] & <- & H). apply filter_In in H. destruct H as [H E].
    apply datetime_eqb_eq in E. simpl in *. now subst.
  - intros H. exists (g, t). split; [reflexivity|].
    apply filter_In. split; [exact H|]. now apply datetime_eqb_eq.
Qed.



Lemma match_files_blocks (sdr geo : list dated) :
  match_files sdr geo = flat_map (block geo) sdr.
Proof.
  induction sdr as [|r rest IH]; simpl; [reflexivity|].
  unfold block at 1. destruct (matched_geo geo (snd r)); simpl; now rewrite IH.
Qed.

Lemma existsb_eqb_In (x : string) (l : list string) :
  existsb (String.eqb x) l = true <-> In x l.
Proof.
  rewrite existsb_exists. split.
  - intros (y & Hy & E). apply String.eqb_eq in E. now subst.
  - intros H. exists x. split; [exact H | apply String.eqb_refl].
Qed.

Lemma fromkeys_In (l : list string) :
  forall seen x, In x (fromkeys seen l) <-> In x l /\ ~ In x seen.
Proof.
  induction l as [|y r IH]; intros seen x; simpl; [tauto|].
  destruct (existsb (String.eqb y) seen) eqn:E.
  - apply existsb_eqb_In in E. rewrite IH. split.
    + intros [H1 H2]. auto.
    + intros [[<- | H1] H2]; [contradiction | auto].
  - assert (Hn : ~ In y seen).
    { intros H. apply existsb_eqb_In in H. congruence. }
    simpl. rewrite IH. simpl. split.
    + intros [<- | [H1 H2]]; auto.
    + intros [[<- | H1] H2]; auto.
      destruct (string_dec y x) as [<- | Hne]; auto.
      right. split; auto. intros [H | H]; auto.
Qed.

Lemma fromkeys_NoDup (l : list string) :
  forall seen, NoDup (fromkeys seen l).
Proof.
  induction l as [|y r IH]; intros seen; simpl; [constructor|].
  destruct (existsb (String.eqb y) seen); [apply IH|].
  constructor; [|apply IH].
  rewrite fromkeys_In. simpl. tauto.
Qed.

Lemma fromkeys_snoc (l : list string) (x : string) :
  forall seen,
    fromkeys seen (l ++ [x])
    = (fromkeys seen l
       ++ (if existsb (String.eqb x) seen || existsb (String.eqb x) l
           then [] else [x]))%list.
Proof.
  induction l as [|y r IH]; intros seen; simpl.
  - rewrite orb_false_r. destruct (existsb (String.eqb x) seen); reflexivity.
  - destruct (existsb (String.eqb y) seen) eqn:E.
    + rewrite IH.
      destruct (String.eqb_spec x y) as [-> | Hne]; simpl.
      * now rewrite E.
      * reflexivity.
    + rewrite IH. simpl. rewrite (String.eqb_sym x y).
      destruct (String.eqb y x); simpl.
      * now rewrite orb_true_r.
      * reflexivity.
Qed.

Lemma fromkeys_NoDup_id (l : list string) :
  forall seen,
    NoDup l -> (forall x, In x l -> ~ In x seen) -> fromkeys seen l = l.
Proof.
  induction l as [|y r IH]; intros seen Hnd Hs; simpl; [reflexivity|].
  inversion Hnd as [|? ? Hy Hr]; subst.
  destruct (existsb (String.eqb y) seen) eqn:E.
  - apply existsb_eqb_In in E. exfalso. apply (Hs y); simpl; auto.
  - f_equal. apply IH; [exact Hr|].
    intros x Hx [<- | H]; [contradiction|].
    apply (Hs x); simpl; auto.
Qed.

End JpssLists.

Section JpssFacts.
Import Jpss.

Variables band start end_ : string.
Variable include_checksums : bool.
Variable storage : string -> list string.

Lemma geo_rows_returns (dp : string) (lo hi : PyDatetime.datetime)
    (types : list string) :
  exists g, geo_rows include_checksums storage dp lo hi types = Ok g.
Proof.
  induction types as [|ty rest (g & E)]; [simpl; eauto|].
  cbn [geo_rows]. unfold bind.
  destruct (apply_returns parse_dates_geo
              (list_blobs include_checksums (storage (ty ++ "/" ++ dp)))
              parse_dates_geo_returns) as (rows & Er & _).
  rewrite Er, E. eauto.
Qed.

(** The bounds, when both are built. *)
Lemma limiters_fields (lo hi : PyDatetime.datetime) :
  start_limiter start = Ok lo ->
  end_limiter start end_ = Ok hi ->
  year hi = year lo /\ month hi = month lo /\ day hi = day lo
  /\ int (slice end_ 11 13) = Ok (hour hi)
  /\ int (slice end_ 14 16) = Ok (minute hi)
  /\ second hi = 0 /\ second lo = 0.
Proof.
  unfold start_limiter, end_limiter, bind.
  destruct (int (slice start 0 4)) as [y|]; [|discriminate].
  destruct (int (slice start 5 7)) as [m|]; [|discriminate].
  destruct (int (slice start 8 10)) as [d|]; [|discriminate].
  destruct (int (slice start 11 13)) as [h|]; [|discriminate].
  destruct (int (slice start 14 16)) as [mi|]; [|discriminate].
  destruct (int (slice end_ 11 13)) as [h'|]; [|discriminate].
  destruct (int (slice end_ 14 16)) as [mi'|]; [|discriminate].
  unfold datetime, datetime_new.
  destruct (_ && _); [|discriminate].
  destruct (_ && _); [|discriminate].
  intros [= <-] [= <-]. simpl. auto 10.
Qed.

(** The rows that reach the pairing. *)
Lemma lets_get_rows (sdr : list dated) :
  lets_get band start end_ include_checksums storage = Ok sdr ->
  exists lo hi,
    start_limiter start = Ok lo /\ end_limiter start end_ = Ok hi
    /\ forall f d,
         In (f, d) sdr ->
         In f (list_blobs include_checksums
                 (storage (target_data band ++ "/" ++ date_path start)))
         /\ parse_dates_sdr band f = Ok (Some d)
         /\ geb d lo = true /\ ltb d hi = true.
Proof.
  unfold lets_get, bind.
  destruct (start_limiter start) as [lo|]; [|discriminate].
  destruct (end_limiter start end_) as [hi|]; [|discriminate].
  destruct (apply_returns (parse_dates_sdr band)
              (list_blobs include_checksums
                 (storage (target_data band ++ "/" ++ date_path start)))
              (parse_dates_sdr_returns band)) as (rows & Er & Hm & Hp).
  rewrite Er. intros [= <-]. exists lo, hi. repeat split; auto.
  - apply in_range_In in H. destruct H as [H _].
    apply dropna_In in H. rewrite <- Hm.
    now apply (in_map fst) in H.
  - apply in_range_In in H. destruct H as [H _].
    apply dropna_In in H. now apply Hp.
  - now apply in_range_In in H.
  - now apply in_range_In in H.
Qed.

Lemma lets_get_returns (lo hi : PyDatetime.datetime) :
  start_limiter start = Ok lo -> end_limiter start end_ = Ok hi ->
  exists rows,
    lets_get band start end_ include_checksums storage
    = Ok (in_range lo hi (dropna rows)).
Proof.
  intros El Eh. unfold lets_get, bind. rewrite El, Eh.
  destruct (apply_returns (parse_dates_sdr band)
              (list_blobs include_checksums
                 (storage (target_data band ++ "/" ++ date_path start)))
              (parse_dates_sdr_returns band)) as (rows & Er & _).
  rewrite Er. eauto.
Qed.

Lemma geo_files_returns (lo hi : PyDatetime.datetime) :
  start_limiter start = Ok lo -> end_limiter start end_ = Ok hi ->
  exists geo,
    geo_files band start end_ include_checksums storage = Ok geo.
Proof.
  intros El Eh. unfold geo_files, bind. rewrite El, Eh.
  apply geo_rows_returns.
Qed.

End JpssFacts.

Section JpssClaims.
Import Jpss.

Variables band start end_ : string.
Variable include_checksums : bool.
Variable storage : string -> list string.

(** C7, amended: the list built by the pairing loop is, for the SDR files
    of the range in listing order, each file that has a geolocation file
    of exactly its parsed time, immediately followed by all such
    geolocation files, and nothing for the other SDR files. The output is
    that list with every repetition of a key after its first occurrence
    removed; so it has no repetition and the same keys, it is that list
    itself when no key repeats in it, and an SDR file of the range
    without a geolocation file of its time (and whose name is not a
    geolocation name) is absent from it. *)
Theorem pairing_output (out : list string) :
  download_jpss_sdr band start end_ include_checksums storage = Ok out ->
  exists sdr geo,
    lets_get band start end_ include_checksums storage = Ok sdr
    /\ geo_files band start end_ include_checksums storage = Ok geo
    /\ match_files sdr geo = flat_map (block geo) sdr
    /\ (forall t g, In g (matched_geo geo t) <-> In (g, t) geo)
    /\ out = dedup (match_files sdr geo)
    /\ NoDup out
    /\ (forall x, In x out <-> In x (match_files sdr geo))
    /\ (forall l x,
           dedup (l ++ [x])
           = if existsb (String.eqb x) l then dedup l
             else (dedup l ++ [x])%list)
    /\ (NoDup (match_files sdr geo) -> out = match_files sdr geo)
    /\ (forall r,
           In r sdr -> matched_geo geo (snd r) = [] ->
           ~ In (fst r) (map fst geo) -> ~ In (fst r) out).
Proof.
  unfold download_jpss_sdr, bind.
  destruct (lets_get band start end_ include_checksums storage)
    as [sdr|] eqn:Es; [|discriminate].
  destruct (geo_files band start end_ include_checksums storage)
    as [geo|] eqn:Eg; [|discriminate].
  intros [= <-]. exists sdr, geo.
  assert (Hin : forall x, In x (dedup (match_files sdr geo))
                          <-> In x (match_files sdr geo)).
  { intros x. unfold dedup. split; intros H.
    - now apply fromkeys_In in H.
    - apply fromkeys_In. simpl. tauto. }
  split; [reflexivity|]. split; [reflexivity|].
  split; [apply match_files_blocks|].
  split; [intros t g; apply matched_geo_In|].
  split; [reflexivity|].
  split; [apply fromkeys_NoDup|].
  split; [exact Hin|].
  split; [|split].
  - intros l x. unfold dedup. rewrite fromkeys_snoc. simpl.
    destruct (existsb (String.eqb x) l); [now rewrite app_nil_r | reflexivity].
  - intros Hnd. apply fromkeys_NoDup_id; auto.
  - intros [f d] Hr Hnone Hgeo Hout. simpl in *.
    apply Hin in Hout. rewrite match_files_blocks in Hout.
    apply in_flat_map in Hout. destruct Hout as ([f' d'] & Hr' & Hb).
    unfold block in Hb. simpl in Hb.
    destruct (matched_geo geo d') as [|g gs] eqn:Em; [contradiction|].
    destruct Hb as [<- | Hg].
    + destruct (lets_get_rows band start end_ include_checksums storage
                  sdr Es) as (lo & hi & _ & _ & Hrows).
      destruct (Hrows f' d Hr) as (_ & P1 & _).
      destruct (Hrows f' d' Hr') as (_ & P2 & _).
      assert (d = d') by congruence. subst d'.
      rewrite Hnone in Em. discriminate.
    + apply Hgeo. rewrite <- Em in Hg. apply matched_geo_In in Hg.
      now apply (in_map fst) in Hg.
Qed.

(** C8, amended: band [DNB] takes its geolocation files from the stream
    [VIIRS-DNB-GEO] of its own; a band whose name starts with M takes
    them from [VIIRS-MOD-GEO-TC] and one whose name starts with I from
    [VIIRS-IMG-GEO-TC]; and the geolocation rows depend on the storage
    only through the listing of that stream for the day of [start]. *)
Theorem geolocation_stream_of_band :
  target_data_geo "DNB" = ["VIIRS-DNB-GEO"]
  /\ (forall b, startswith b "M" = true ->
                target_data_geo b = ["VIIRS-MOD-GEO-TC"])
  /\ (forall b, startswith b "I" = true ->
                target_data_geo b = ["VIIRS-IMG-GEO-TC"])
  /\ (forall storage',
         (forall g, In g (target_data_geo band) ->
                    storage' (g ++ "/" ++ date_path start)
                    = storage (g ++ "/" ++ date_path start)) ->
         geo_files band start end_ include_checksums storage'
         = geo_files band start end_ include_checksums storage).
Proof.
  split; [reflexivity|]. split; [|split].
  - intros b Hb. unfold target_data_geo. rewrite Hb.
    destruct (String.eqb_spec b "DNB") as [-> | _];
      [discriminate | reflexivity].
  - intros b Hb. unfold target_data_geo.
    destruct (String.eqb_spec b "DNB") as [-> | _]; [discriminate|].
    destruct b as [|c b']; [discriminate|].
    unfold startswith in *. cbn [prefix] in *.
    destruct (Ascii.ascii_dec "I" c) as [<- | Hn];
      [reflexivity | discriminate].
  - intros storage' H. unfold geo_files, bind.
    destruct (start_limiter start) as [lo|]; [|reflexivity].
    destruct (end_limiter start end_) as [hi|]; [|reflexivity].
    induction (target_data_geo band) as [|ty rest IH]; [reflexivity|].
    cbn [geo_rows]. rewrite H by now left.
    rewrite IH; [reflexivity|]. intros g Hg. apply H. now right.
Qed.

(** C10: the upper bound of the range takes its date from [start] and
    only its hour and minute from [end]: two [end] arguments with the
    same characters 11-12 and 14-15 give the same result; the range lies
    within the day of [start]; and when the hour and minute of [end] are
    not after those of [start], no SDR file is in the range and nothing
    is selected. *)
Theorem end_bound_on_start_date :
  (forall end',
      slice end' 11 13 = slice end_ 11 13 ->
      slice end' 14 16 = slice end_ 14 16 ->
      download_jpss_sdr band start end' include_checksums storage
      = download_jpss_sdr band start end_ include_checksums storage)
  /\ (forall lo hi,
         start_limiter start = Ok lo ->
         end_limiter start end_ = Ok hi ->
         (year hi = year lo /\ month hi = month lo /\ day hi = day lo
          /\ int (slice end_ 11 13) = Ok (hour hi)
          /\ int (slice end_ 14 16) = Ok (minute hi)
          /\ second hi = 0)
         /\ (forall t, geb t lo = true -> ltb t hi = true ->
                       year t = year lo /\ month t = month lo
                       /\ day t = day lo)
         /\ (hour hi < hour lo
             \/ (hour hi = hour lo /\ minute hi <= minute lo) ->
             lets_get band start end_ include_checksums storage = Ok []
             /\ download_jpss_sdr band start end_ include_checksums storage
                = Ok [])).
Proof.
  split.
  - intros end' H1 H2.
    unfold download_jpss_sdr, lets_get, geo_files, end_limiter.
    now rewrite H1, H2.
  - intros lo hi El Eh.
    destruct (limiters_fields start end_ lo hi El Eh)
      as (Hy & Hm & Hd & Hh & Hmi & Hs & Hs').
    split; [auto 10|]. split.
    + intros t. now apply range_within_day.
    + intros Hnot.
      destruct (lets_get_returns band start end_ include_checksums storage
                  lo hi El Eh) as (rows & Er).
      assert (Hempty : in_range lo hi (dropna rows) = []).
      { unfold in_range. clear Er.
        induction (dropna rows) as [|r rest IH]; [reflexivity|].
        cbn [filter].
        rewrite (range_empty lo hi (snd r) Hy Hm Hd Hs Hs' Hnot).
        exact IH. }
      rewrite Hempty in Er. split; [exact Er|].
      unfold download_jpss_sdr, bind. rewrite Er.
      destruct (geo_files_returns band start end_ include_checksums storage
                  lo hi El Eh) as (geo & Eg).
      now rewrite Eg.
Qed.

End JpssClaims.

(** ** Objects whose timestamp does not parse *)

Section ParseFailures.
Import Jpss.

Lemma geo_rows_rows (ic : bool) (storage : string -> list string)
    (dp : string) (lo hi : PyDatetime.datetime) (types : list string) :
  forall geo,
    geo_rows ic storage dp lo hi types = Ok geo ->
    forall f d, In (f, d) geo -> parse_dates_geo f = Ok (Some d).
Proof.
  induction types as [|ty rest IH]; intros geo; cbn [geo_rows].
  - intros [= <-] f d [].
  - unfold bind.
    destruct (apply_returns parse_dates_geo
                (list_blobs ic (storage (ty ++ "/" ++ dp)))
                parse_dates_geo_returns) as (rows & Er & _ & Hp).
    rewrite Er.
    destruct (geo_rows ic storage dp lo hi rest) as [more|];
      [|discriminate].
    intros [= <-] f d Hin. apply in_app_or in Hin.
    destruct Hin as [Hin | Hin].
    + apply in_range_In in Hin. destruct Hin as [Hin _].
      apply dropna_In in Hin. now apply Hp.
    + now apply (IH more eq_refl).
Qed.

(** C9, amended: the two parsers of the SDR and geolocation names return
    for every name, with [None] for a name they cannot read, and a file
    without a date is in neither frame; in [download_GOES] an object
    without an [_e] mark after [_s], or with fewer than 14 characters
    between them, is passed over under every rule, and so is an object
    whose timestamp text does not parse (it parses only when it is 13
    digits) under the rules that parse it (lightning without seconds,
    CONUS, closest under ten minutes); in each case the loop goes on with
    the next object. The exact-minute rule and the lightning rule with
    seconds compare the text and do not parse it. *)
Theorem unparsed_timestamps_are_skipped :
  (forall b s, exists o, parse_dates_sdr b s = Ok o)
  /\ (forall s, exists o, parse_dates_geo s = Ok o)
  /\ (forall band start end_ ic storage sdr f,
         lets_get band start end_ ic storage = Ok sdr ->
         parse_dates_sdr band f = Ok None -> ~ In f (map fst sdr))
  /\ (forall band start end_ ic storage geo f,
         geo_files band start end_ ic storage = Ok geo ->
         parse_dates_geo f = Ok None -> ~ In f (map fst geo))
  /\ (forall rq p m s st key,
         file_timestamp_str key = None ->
         scan_obj rq p m s st key = (st, false))
  /\ (forall rq p m s st key ts,
         file_timestamp_str key = Some ts ->
         strptime_Yj ts = None ->
         rule_of rq = GlmMinute \/ rule_of rq = ConusClosest
         \/ rule_of rq = OtherClosest ->
         scan_obj rq p m s st key = (st, false))
  /\ (forall ts t,
         strptime_Yj ts = Some t ->
         String.length ts = 13%nat /\ all_digits ts = true).
Proof.
  split; [exact parse_dates_sdr_returns|].
  split; [exact parse_dates_geo_returns|].
  split; [|split; [|split; [|split]]].
  - intros band start end_ ic storage sdr f Es Hp Hin.
    apply in_map_iff in Hin. destruct Hin as ([f' d] & <- & Hin).
    destruct (lets_get_rows band start end_ ic storage sdr Es)
      as (lo & hi & _ & _ & Hrows).
    destruct (Hrows f' d Hin) as (_ & P & _). simpl in Hp. congruence.
  - intros band start end_ ic storage geo f Eg Hp Hin.
    apply in_map_iff in Hin. destruct Hin as ([f' d] & <- & Hin).
    unfold geo_files, bind in Eg.
    destruct (start_limiter start) as [lo|]; [|discriminate].
    destruct (end_limiter start end_) as [hi|]; [|discriminate].
    pose proof (geo_rows_rows ic storage _ lo hi _ geo Eg f' d Hin) as P.
    simpl in Hp. congruence.
  - intros rq p m s st key Hts. unfold scan_obj. rewrite Hts.
    now destruct (negb _).
  - intros rq p m s st key ts Hts Hp Hr. unfold scan_obj.
    rewrite Hts, Hp. destruct (negb _); [reflexivity|].
    unfold rule_of in Hr.
    destruct (is_glm_product rq).
    + destruct (has_seconds rq); [|reflexivity].
      destruct Hr as [Hr | [Hr | Hr]]; discriminate.
    + destruct (is_conus rq); [reflexivity|].
      destruct (is_fixed_format rq || startswith (product rq) "ABI-");
        [|reflexivity].
      destruct Hr as [Hr | [Hr | Hr]]; discriminate.
  - intros ts t Hp. split.
    + exact (strptime_Yj_length ts t Hp).
    + exact (strptime_Yj_digits ts t Hp).
Qed.

End ParseFailures.

(** ** The pairing on a concrete listing *)

Section JpssCases.
Import Jpss Cases.

(** The output and the two frames for the range 00:00 to 00:10. *)
Example pairing_case :
  download_jpss_sdr "I1" "2025-01-01 00:00" "2025-01-01 00:10" false bucket
  = Ok [sdr_0000_a; geo_0000; sdr_0000_b]
  /\ lets_get "I1" "2025-01-01 00:00" "2025-01-01 00:10" false bucket
     = Ok [(sdr_0000_a, t_000022); (sdr_0000_b, t_000022);
           (sdr_0001, mkdt 2025 1 1 0 1 48)]
  /\ geo_files "I1" "2025-01-01 00:00" "2025-01-01 00:10" false bucket
     = Ok [(geo_0000, t_000022)].
Proof. vm_compute. auto. Qed.

(** C7, as stated, fails: the second SDR file of 00:00:22 has a
    geolocation file of its time and is in the output, but is not
    followed by it there. *)
Lemma shared_geolocation_follows_first_sdr_only :
  ~ (forall out sdr geo r,
        download_jpss_sdr "I1" "2025-01-01 00:00" "2025-01-01 00:10" false
                          bucket = Ok out ->
        lets_get "I1" "2025-01-01 00:00" "2025-01-01 00:10" false bucket
        = Ok sdr ->
        geo_files "I1" "2025-01-01 00:00" "2025-01-01 00:10" false bucket
        = Ok geo ->
        In r sdr -> matched_geo geo (snd r) <> [] ->
        exists pre post,
          out = (pre ++ (fst r :: matched_geo geo (snd r)) ++ post)%list).
Proof.
  intros H.
  destruct (H [sdr_0000_a; geo_0000; sdr_0000_b]
              [(sdr_0000_a, t_000022); (sdr_0000_b, t_000022);
               (sdr_0001, mkdt 2025 1 1 0 1 48)]
              [(geo_0000, t_000022)] (sdr_0000_b, t_000022))
    as (pre & post & E).
  - vm_compute. reflexivity.
  - vm_compute. reflexivity.
  - vm_compute. reflexivity.
  - right. now left.
  - vm_compute. discriminate.
  - change (matched_geo [(geo_0000, t_000022)] (snd (sdr_0000_b, t_000022)))
      with [geo_0000] in E.
    cbn [fst app] in E.
    assert (Ha : String.eqb sdr_0000_b sdr_0000_a = false)
      by (vm_compute; reflexivity).
    assert (Hg : String.eqb sdr_0000_b geo_0000 = false)
      by (vm_compute; reflexivity).
    assert (Hb : String.eqb sdr_0000_b sdr_0000_b = true)
      by apply String.eqb_refl.
    apply (f_equal (map (String.eqb sdr_0000_b))) in E.
    rewrite map_app in E. cbn [map] in E. rewrite Ha, Hg, Hb in E.
    destruct pre as [|x1 pre]; cbn [map app] in E; [discriminate E|].
    injection E as _ E.
    destruct pre as [|x2 pre]; cbn [map app] in E; [discriminate E|].
    injection E as _ E.
    destruct pre as [|x3 pre]; cbn [map app] in E; [discriminate E|].
    injection E as _ E. destruct pre; discriminate E.
Qed.

(** The theorem of the pairing on the listing above. *)
Lemma pairing_witness :
  download_jpss_sdr "I1" "2025-01-01 00:00" "2025-01-01 00:10" false bucket
  = Ok [sdr_0000_a; geo_0000; sdr_0000_b]
  /\ NoDup [sdr_0000_a; geo_0000; sdr_0000_b]
  /\ ~ In sdr_0001 [sdr_0000_a; geo_0000; sdr_0000_b].
Proof.
  assert (E : download_jpss_sdr "I1" "2025-01-01 00:00" "2025-01-01 00:10"
                false bucket = Ok [sdr_0000_a; geo_0000; sdr_0000_b])
    by (vm_compute; reflexivity).
  split; [exact E|].
  destruct (pairing_output "I1" "2025-01-01 00:00" "2025-01-01 00:10" false
              bucket _ E)
    as (sdr & geo & _ & _ & _ & _ & _ & Hnd & _ & _ & _ & _).
  split; [exact Hnd|].
  vm_compute. intros [H | [H | [H | []]]]; discriminate.
Defined.

(** C8, as stated, fails: band DNB does not read the stream of the M
    bands. *)
Lemma dnb_geolocation_is_not_moderate :
  ~ (forall b, b = "DNB" \/ startswith b "M" = true ->
               target_data_geo b = ["VIIRS-MOD-GEO-TC"]).
Proof.
  intros H. specialize (H "DNB" (or_introl eq_refl)). discriminate.
Qed.

(** The streams of the bands M3 and I1. *)
Lemma geolocation_stream_witness :
  startswith "M3" "M" = true
  /\ startswith "I1" "I" = true
  /\ target_data_geo "M3" = ["VIIRS-MOD-GEO-TC"]
  /\ target_data_geo "I1" = ["VIIRS-IMG-GEO-TC"].
Proof.
  destruct (geolocation_stream_of_band "I1" "2025-01-01 00:00"
              "2025-01-01 00:10" false bucket) as (_ & HM & HI & _).
  split; [reflexivity|]. split; [reflexivity|].
  split; [apply HM | apply HI]; reflexivity.
Defined.

(** A range from 00:30 whose end names 00:10 of the next day. *)
Lemma end_bound_witness :
  start_limiter "2025-01-01 00:30" = Ok (mkdt 2025 1 1 0 30 0)
  /\ end_limiter "2025-01-01 00:30" "2025-01-02 00:10"
     = Ok (mkdt 2025 1 1 0 10 0)
  /\ download_jpss_sdr "I1" "2025-01-01 00:30" "2025-01-02 00:10" false
                       bucket = Ok [].
Proof.
  split; [reflexivity|]. split; [reflexivity|].
  destruct (end_bound_on_start_date "I1" "2025-01-01 00:30"
              "2025-01-02 00:10" false bucket) as [_ H].
  destruct (H (mkdt 2025 1 1 0 30 0) (mkdt 2025 1 1 0 10 0)
              eq_refl eq_refl) as (_ & _ & Hempty).
  apply Hempty. right. simpl. lia.
Defined.

(** A key with 7 characters between [_s] and [_e]. *)
Lemma unparsed_witness :
  file_timestamp_str "OR_ABI-L2-CMIPC-M6C13_G16_s2025281_e2025" = None
  /\ scan_obj conus_rq "OR_ABI-L2-CMIPC-M6C13_G16_s" "6" ""
              (init_state conus_rq)
              "OR_ABI-L2-CMIPC-M6C13_G16_s2025281_e2025"
     = (init_state conus_rq, false).
Proof.
  split; [reflexivity|].
  apply (proj1 (proj2 (proj2 (proj2 (proj2
           unparsed_timestamps_are_skipped))))).
  reflexivity.
Defined.

(** C9, as stated, fails: under the exact-minute rule an object whose
    seconds are not digits is selected. *)
Lemma exact_minute_selects_non_numeric_seconds :
  ~ (forall k,
        In k (selected (download_GOES fd_rq [fd_00XX])) ->
        exists ts t,
          file_timestamp_str k = Some ts /\ strptime_Yj ts = Some t).
Proof.
  intros H.
  destruct (H fd_00XX) as (ts & t & Hts & Ht).
  - vm_compute. auto.
  - vm_compute in Hts. injection Hts as <-.
    vm_compute in Ht. discriminate.
Qed.

End JpssCases.

(** ** The selection under every rule *)

Section GoesAllRules.

Variable rq : request.


Lemma scan_obj_recorded (p m s : string) (st : state) (key k : string) :
  In k (matching_files (fst (scan_obj rq p m s st key)))
  \/ closest_file (fst (scan_obj rq p m s st key)) = Some k ->
  (In k (matching_files st) \/ closest_file st = Some k)
  \/ (k = key /\ matches rq p key = true).
Proof.
  destruct (matches rq p key) eqn:Hm.
  2:{ rewrite scan_obj_no_match by exact Hm. now left. }
  unfold scan_obj.
  destruct (negb _); cbn [fst]; [now left|].
  destruct (file_timestamp_str key) as [ts|]; cbn [fst]; [|now left].
  assert (Hone : In k [key] -> k = key /\ true = true)
    by (intros [<- | []]; auto).
  destruct (is_glm_product rq).
  - destruct (has_seconds rq).
    + destruct (String.eqb _ _); cbn [fst matching_files closest_file];
        [|now left].
      intros [H | H]; [right; now apply Hone | left; now right].
    + destruct (strptime_Yj ts); cbn [fst]; [|now left].
      destruct (_ && _); cbn [fst matching_files closest_file]; [|now left].
      intros [H | H]; [right; now apply Hone | left; now right].
  - destruct (is_conus rq).
    + destruct (strptime_Yj ts); cbn [fst]; [|now left].
      destruct (_ && _); cbn [fst matching_files closest_file]; [|now left].
      intros [H | H]; [left; now left|].
      right. split; [congruence | reflexivity].
    + destruct (_ || _).
      * destruct (String.eqb _ _); cbn [fst matching_files closest_file];
          [|now left].
        intros [H | H]; [|left; now right].
        apply in_app_or in H. destruct H as [H | H];
          [left; now left | right; now apply Hone].
      * destruct (strptime_Yj ts); cbn [fst]; [|now left].
        destruct (_ && _); cbn [fst matching_files closest_file];
          [|now left].
        intros [H | H]; [right; now apply Hone | left; now right].
Qed.

Lemma scan_objects_recorded (p m s : string) (l : list string) (k : string) :
  forall st,
    In k (matching_files (scan_objects rq p m s st l))
    \/ closest_file (scan_objects rq p m s st l) = Some k ->
    (In k (matching_files st) \/ closest_file st = Some k)
    \/ (In k l /\ matches rq p k = true).
Proof.
  induction l as [|key rest IH]; intros st; cbn [scan_objects]; [now left|].
  pose proof (scan_obj_recorded p m s st key k) as H1.
  destruct (scan_obj rq p m s st key) as [st' brk]. cbn [fst] in H1.
  destruct brk.
  - intros H. destruct (H1 H) as [H' | [-> H']]; [now left|].
    right. split; [now left | exact H'].
  - intros H. destruct (IH st' H) as [H' | [Hin Hm]].
    + destruct (H1 H') as [H'' | [-> H'']]; [now left|].
      right. split; [now left | exact H''].
    + right. split; [now right | exact Hm].
Qed.

Lemma matches_candidate (p key : string) :
  matches rq p key = true ->
  startswith (file_name key) p = true
  /\ exists ts, file_timestamp_str key = Some ts.
Proof.
  unfold matches, exact_minute, conus_diff, other_diff, time_diff, candidate.
  destruct (startswith (file_name key) p).
  - destruct (file_timestamp_str key) as [ts|]; [eauto|].
    destruct (rule_of rq); discriminate.
  - destruct (rule_of rq); discriminate.
Qed.

Lemma found_closest (mf : list string) (m s key : string) (d : Z) :
  truthy key = true -> found (mkst mf m s (Some key) d) = true.
Proof.
  intros H. unfold found; cbn [matching_files closest_file].
  rewrite H. now destruct mf.
Qed.

(** The body of the loop keeps a found state found, and finds the
    object when it passes the test of the rule. *)
Lemma scan_obj_finds (b m s : string) (st : state) (key : string) :
  (forall k0, closest_file st = Some k0 -> truthy k0 = true) ->
  let st' := fst (scan_obj rq (target_pattern rq b m s) m s st key) in
  (forall k0, closest_file st' = Some k0 -> truthy k0 = true)
  /\ (found st = true -> found st' = true)
  /\ (matches rq (target_pattern rq b m s) key = true -> found st' = true).
Proof.
  intros Hw st'. subst st'.
  destruct (matches rq (target_pattern rq b m s) key) eqn:Hm.
  2:{ rewrite scan_obj_no_match by exact Hm. cbn [fst].
      repeat split; auto. discriminate. }
  destruct (matches_candidate _ _ Hm) as (Hp & ts & Hts).
  pose proof (pattern_key_truthy _ _ _ _ _ Hp) as Hk.
  revert Hm.
  unfold matches, rule_of, scan_obj, exact_minute, conus_diff, other_diff,
    time_diff, candidate.
  rewrite Hp, Hts. cbn [negb].
  assert (Hne : forall x, is_empty x = false -> found st = true ->
                          x = matching_files st -> found st = true)
    by auto.
  destruct (is_glm_product rq).
  - destruct (has_seconds rq).
    + intros Hm; rewrite Hm. cbn [fst]. repeat split; auto.
    + destruct (strptime_Yj ts) as [t|]; [|discriminate].
      intros Hm; rewrite Hm. cbn [andb].
      destruct (is_empty (matching_files st) || _) eqn:E; cbn [fst];
        [repeat split; auto|].
      repeat split; auto. intros _.
      apply orb_false_elim in E. destruct E as [E _].
      unfold found. now destruct (matching_files st).
  - destruct (is_conus rq).
    + destruct (strptime_Yj ts) as [t|]; [|discriminate].
      destruct (_ <=? 120); [|discriminate]. intros _. cbn [andb].
      destruct (closest_file st) as [k0|] eqn:Ec; cbn [orb].
      * destruct (_ <? _); cbn [fst].
        -- split; [intros k' E; cbn in E; now injection E as <-|].
           split; intros _; now apply found_closest.
        -- split; [intros k1 E1; apply Hw; congruence|].
           split; [auto|]. intros _.
           unfold found. rewrite Ec. rewrite (Hw k0 eq_refl).
           now destruct (matching_files st).
      * cbn [fst].
        split; [intros k' E; cbn in E; now injection E as <-|].
        split; intros _; now apply found_closest.
    + destruct (is_fixed_format rq || startswith (product rq) "ABI-").
      * intros Hm; rewrite Hm. cbn [fst]. split; [exact Hw|].
        split; intros _; apply found_app_single.
      * destruct (strptime_Yj ts) as [t|]; [|discriminate].
        destruct (_ <? 600); [|discriminate]. intros _. cbn [andb].
        destruct (is_empty (matching_files st) || _) eqn:E; cbn [fst];
          [repeat split; auto|].
        repeat split; auto. intros _.
        apply orb_false_elim in E. destruct E as [E _].
        unfold found. now destruct (matching_files st).
Qed.

Lemma scan_objects_finds (b m s : string) (l : list string) :
  forall st,
    (forall k0, closest_file st = Some k0 -> truthy k0 = true) ->
    let st' := scan_objects rq (target_pattern rq b m s) m s st l in
    (found st = true -> found st' = true)
    /\ ((exists k, In k l /\ matches rq (target_pattern rq b m s) k = true) ->
        found st' = true).
Proof.
  induction l as [|key rest IH]; intros st Hw; cbn [scan_objects].
  - split; [auto|]. intros (k & [] & _).
  - pose proof (scan_obj_finds b m s st key Hw) as (Hw' & Hf & Hm).
    pose proof (scan_obj_same_or_found rq b m s st key) as Hs.
    destruct (scan_obj rq (target_pattern rq b m s) m s st key)
      as [st1 brk] eqn:E0.
    cbn [fst] in Hw', Hf, Hm, Hs.
    destruct (IH st1 Hw') as [IH1 IH2].
    destruct brk.
    + split; [exact Hf|].
      intros (k & [<- | Hin] & Hk); [now apply Hm|].
      destruct Hs as [-> | Hs]; [|exact Hs].
      destruct (matches rq (target_pattern rq b m s) key) eqn:E;
        [now apply Hm|].
      rewrite scan_obj_no_match in E0 by exact E. discriminate E0.
    + split; [intros H; apply IH1; now apply Hf|].
      intros (k & [<- | Hin] & Hk).
      * apply IH1. now apply Hm.
      * apply IH2. now exists k.
Qed.


Variable objs : list string.

(** A selected key is held by the state of the scan of some pair. *)
Lemma selected_recorded (k : string) :
  In k (selected (download_GOES rq objs)) ->
  exists c,
    In c (combos rq)
    /\ (In k (matching_files (scan rq objs (init_state rq) c))
        \/ closest_file (scan rq objs (init_state rq) c) = Some k).
Proof.
  unfold download_GOES.
  destruct (negb _); [contradiction|].
  destruct (is_empty objs); [contradiction|].
  destruct (search_first rq objs)
    as [(pre & c & post & Hcs & _ & _ & Hs) | (_ & Hs)]; rewrite Hs.
  - intros Hsel. exists c.
    split; [rewrite Hcs; apply in_or_app; right; now left|].
    destruct (is_conus rq).
    + destruct (closest_file (scan rq objs (init_state rq) c)) as [k0|].
      * destruct (truthy k0).
        -- destruct Hsel as [<- | []]. now right.
        -- destruct (found _); [now left | contradiction].
      * destruct (found _); [now left | contradiction].
    + destruct (found _); [now left | contradiction].
  - cbn. destruct (is_conus rq); contradiction.
Qed.

(** X1: under every rule, a key that [download_GOES] selects is a key of
    the listing and passes the test of the rule under one of the
    (mode, sector) pairs of the search: nothing outside the listing and
    nothing that fails the test is ever handed to the downloads. *)
Theorem selected_objects_are_listed_and_pass (k : string) :
  In k (selected (download_GOES rq objs)) ->
  In k objs
  /\ exists c,
       In c (combos rq) /\ matches rq (pattern_of rq objs c) k = true.
Proof.
  intros Hsel. destruct (selected_recorded k Hsel) as (c & Hc & Hrec).
  unfold scan in Hrec. apply scan_objects_recorded in Hrec.
  destruct Hrec as [[[] | Hrec] | [Hin Hm]]; [discriminate Hrec|].
  split; [exact Hin|]. now exists c.
Qed.

Lemma found_scan_iff (c : string * string) :
  found (scan rq objs (init_state rq) c) = true
  <-> exists k, In k objs /\ matches rq (pattern_of rq objs c) k = true.
Proof.
  split.
  - intros Hf.
    assert (Hrec : exists k,
               In k (matching_files (scan rq objs (init_state rq) c))
               \/ closest_file (scan rq objs (init_state rq) c) = Some k).
    { unfold found in Hf.
      destruct (matching_files (scan rq objs (init_state rq) c)) as [|k l].
      - destruct (closest_file (scan rq objs (init_state rq) c)) as [k|];
          [|discriminate]. exists k. now right.
      - exists k. left. now left. }
    destruct Hrec as [k Hrec]. unfold scan in Hrec.
    apply scan_objects_recorded in Hrec.
    destruct Hrec as [[[] | Hrec] | H]; [discriminate Hrec|]. now exists k.
  - intros H. unfold scan, pattern_of.
    apply (scan_objects_finds (band_str rq objs) (fst c) (snd c) objs
             (init_state rq)); [discriminate | exact H].
Qed.

(** Outside the CONUS rule no closest file is recorded. *)
Lemma scan_objects_closest (p m s : string) (l : list string) :
  is_conus rq = false ->
  forall st, closest_file (scan_objects rq p m s st l) = closest_file st.
Proof.
  intros Hc. induction l as [|key rest IH]; intros st; cbn [scan_objects];
    [reflexivity|].
  assert (H : closest_file (fst (scan_obj rq p m s st key))
              = closest_file st).
  { unfold scan_obj. rewrite Hc.
    destruct (negb _); [reflexivity|].
    destruct (file_timestamp_str key); [|reflexivity].
    destruct (is_glm_product rq).
    - destruct (has_seconds rq).
      + now destruct (String.eqb _ _).
      + destruct (strptime_Yj _); [|reflexivity]. now destruct (_ && _).
    - destruct (_ || _).
      + now destruct (String.eqb _ _).
      + destruct (strptime_Yj _); [|reflexivity]. now destruct (_ && _). }
  destruct (scan_obj rq p m s st key) as [st' brk]. cbn [fst] in H.
  destruct brk; [exact H|]. now rewrite IH.
Qed.

(** When nothing is selected every pattern has been tried. *)
Lemma no_match_attempted (att : list string) :
  download_GOES rq objs = NoMatch att ->
  att = map (pattern_of rq objs) (combos rq).
Proof.
  unfold download_GOES.
  destruct (negb _); [discriminate|].
  destruct (is_empty objs); [discriminate|].
  destruct (search_first rq objs)
    as [(pre & c & post & Hcs & _ & Hfound & Hs) | (Hall & Hs)]; rewrite Hs.
  - rewrite Hfound.
    destruct (if is_conus rq then _ else _) as [k0|]; [|discriminate].
    destruct (truthy k0); discriminate.
  - rewrite found_init.
    destruct (if is_conus rq then _ else _) as [k0|]; [|now intros [= <-]].
    destruct (truthy k0); [discriminate | now intros [= <-]].
Qed.

(** X2: for a valid satellite and a non-empty listing, under every
    rule: either [download_GOES] selects at least one object, and some
    object of the listing passes the test under some pattern; or it
    selects nothing, every pattern has been tried, and no object passes
    the test under any of them. *)
Theorem nothing_selected_iff_nothing_passes :
  existsb (String.eqb (satellite rq)) valid_satellites = true ->
  objs <> [] ->
  match download_GOES rq objs with
  | Matched files _ _ =>
      files <> []
      /\ exists c k,
           In c (combos rq) /\ In k objs
           /\ matches rq (pattern_of rq objs c) k = true
  | NoMatch attempted =>
      attempted = map (pattern_of rq objs) (combos rq)
      /\ forall c k,
           In c (combos rq) -> In k objs ->
           matches rq (pattern_of rq objs c) k = false
  | InvalidSatellite | NoFilesFound => False
  end.
Proof.
  intros Hsat Hne. unfold download_GOES. rewrite Hsat. cbn [negb].
  destruct objs as [|o objs'] eqn:Eo; [congruence|]. cbn [is_empty].
  rewrite <- Eo in *.
  destruct (search_first rq objs)
    as [(pre & c & post & Hcs & _ & Hfound & Hs) | (Hall & Hs)]; rewrite Hs.
  - assert (Hc : In c (combos rq))
      by (rewrite Hcs; apply in_or_app; right; now left).
    pose proof (proj1 (found_scan_iff c) Hfound) as (k & Hin & Hm).
    assert (Hex : exists c k,
               In c (combos rq) /\ In k objs
               /\ matches rq (pattern_of rq objs c) k = true)
      by (exists c, k; auto).
    rewrite Hfound.
    assert (Hmf : is_conus rq = false ->
                  matching_files (scan rq objs (init_state rq) c) <> []).
    { intros Hcon Hnil. unfold found in Hfound. rewrite Hnil in Hfound.
      unfold scan in Hfound.
      rewrite scan_objects_closest in Hfound by exact Hcon.
      discriminate Hfound. }
    destruct (is_conus rq).
    + destruct (closest_file (scan rq objs (init_state rq) c)) as [k0|] eqn:Ec.
      * destruct (truthy k0) eqn:Et.
        -- split; [discriminate | exact Hex].
        -- split; [|exact Hex]. intros Hnil.
           unfold found in Hfound. rewrite Hnil, Ec, Et in Hfound.
           discriminate.
      * split; [|exact Hex]. intros Hnil.
        unfold found in Hfound. rewrite Hnil, Ec in Hfound. discriminate.
    + split; [now apply Hmf | exact Hex].
  - cbn [fst snd init_state closest_file].
    assert (E : (if is_conus rq then @None string else None) = None)
      by now destruct (is_conus rq).
    rewrite E. rewrite found_init.
    split; [reflexivity|].
    intros c k Hc Hin.
    destruct (matches rq (pattern_of rq objs c) k) eqn:Hm; [|reflexivity].
    rewrite Forall_forall in Hall. specialize (Hall c Hc).
    assert (found (scan rq objs (init_state rq) c) = true)
      by (apply found_scan_iff; now exists k).
    congruence.
Qed.

End GoesAllRules.

(** ** Lightning *)

Section GoesLightning.

Variable rq : request.

Lemma glm_product_flags :
  is_glm_product rq = true ->
  is_conus rq = false /\ is_mesoscale rq = false
  /\ is_fixed_format rq = false.
Proof.
  unfold is_glm_product. intros H. apply String.eqb_eq in H.
  unfold is_conus, is_mesoscale, is_fixed_format, is_suvi_product,
    is_seis_product, is_mag_product.
  rewrite H. repeat split; reflexivity.
Qed.

Lemma rule_glm_second :
  rule_of rq = GlmSecond ->
  is_glm_product rq = true /\ has_seconds rq = true.
Proof.
  unfold rule_of. destruct (is_glm_product rq).
  - destruct (has_seconds rq); [auto | discriminate].
  - destruct (is_conus rq); [discriminate|]. destruct (_ || _); discriminate.
Qed.

Lemma rule_glm_minute :
  rule_of rq = GlmMinute ->
  is_glm_product rq = true /\ has_seconds rq = false.
Proof.
  unfold rule_of. destruct (is_glm_product rq).
  - destruct (has_seconds rq); [discriminate | auto].
  - destruct (is_conus rq); [discriminate|]. destruct (_ || _); discriminate.
Qed.

(** A lightning request has one pattern, without mode, sector or band. *)
Lemma glm_search (objs : list string) :
  is_glm_product rq = true ->
  search rq objs
  = (let st := scan_objects rq (target_pattern rq "" "" "") "" ""
                            (mkst [] "" "" None 600) objs in
     (st, [target_pattern rq "" "" ""])).
Proof.
  intros Hg. unfold search, possible_modes, band_str, init_state.
  rewrite Hg. cbn [orb negb mode_loop]. unfold sectors. rewrite Hg.
  cbn [orb sector_loop app].
  destruct (found _) eqn:E; cbn iota; rewrite ?E; reflexivity.
Qed.

Variables pattern try_mode sec : string.

Lemma scan_obj_glm_second (st : state) (key : string) :
  rule_of rq = GlmSecond ->
  scan_obj rq pattern try_mode sec st key
  = if matches rq pattern key
    then (mkst [key] (used_mode st) sec (closest_file st)
               (closest_time_diff st), true)
    else (st, false).
Proof.
  intros Hr. destruct (rule_glm_second Hr) as [Hg Hs].
  unfold scan_obj, matches, candidate. rewrite Hr, Hg, Hs.
  destruct (startswith (file_name key) pattern); cbn [negb]; [|reflexivity].
  destruct (file_timestamp_str key) as [ts|]; reflexivity.
Qed.

(** With seconds in the query the loop stops at the first object that
    passes the test. *)
Lemma scan_objects_glm_second (l : list string) (st : state) :
  rule_of rq = GlmSecond ->
  (exists l1 k l2,
      l = (l1 ++ k :: l2)%list
      /\ (forall k', In k' l1 -> matches rq pattern k' = false)
      /\ matches rq pattern k = true
      /\ scan_objects rq pattern try_mode sec st l
         = mkst [k] (used_mode st) sec (closest_file st)
                (closest_time_diff st))
  \/ ((forall k, In k l -> matches rq pattern k = false)
      /\ scan_objects rq pattern try_mode sec st l = st).
Proof.
  intros Hr. induction l as [|key rest IH]; cbn [scan_objects].
  - right. split; [intros k []|reflexivity].
  - rewrite scan_obj_glm_second by exact Hr.
    destruct (matches rq pattern key) eqn:Hm.
    + left. exists [], key, rest. repeat split; auto. intros k' [].
    + destruct IH as [(l1 & k & l2 & -> & Hpre & Hk & E) | (Hall & E)].
      * left. exists (key :: l1), k, l2. repeat split; auto.
        intros k' [<- | Hin]; auto.
      * right. split; [|exact E]. intros k [<- | Hin]; auto.
Qed.

(** Without seconds in the query: the last object strictly under 20
    seconds when there is one, else the first object within 20
    seconds. *)
Lemma scan_objects_glm_minute (l : list string) :
  rule_of rq = GlmMinute ->
  forall st,
    let under :=
      filter (fun k => match time_diff rq pattern k with
                       | Some d => d <? 20
                       | None => false
                       end) l in
    let st' := scan_objects rq pattern try_mode sec st l in
    matching_files st'
    = match under with
      | [] => if is_empty (matching_files st)
              then firstn 1 (filter (matches rq pattern) l)
              else matching_files st
      | _ :: _ => [last under ""]
      end
    /\ used_mode st' = used_mode st
    /\ (used_sector st' = used_sector st \/ used_sector st' = sec).
Proof.
  intros Hr. induction l as [|key rest IH]; intros st; cbn zeta.
  - cbn [scan_objects filter firstn]. repeat split; auto.
    now destruct (matching_files st).
  - cbn [scan_objects filter]. rewrite scan_obj_glm_minute by exact Hr.
    unfold matches at 1. rewrite Hr.
    destruct (time_diff rq pattern key) as [d|] eqn:Hd.
    2:{ apply IH. }
    destruct (d <? 20) eqn:Hlt.
    + assert (Hle : (d <=? 20) = true)
        by (apply Z.leb_le; apply Z.ltb_lt in Hlt; lia).
      rewrite Hle, orb_true_r. cbn [andb].
      destruct (IH (mkst [key] (used_mode st) sec (closest_file st)
                         (closest_time_diff st))) as (E & Em & Es).
      cbn [matching_files used_mode used_sector is_empty] in E, Em, Es.
      split; [|split; [exact Em | right; destruct Es as [Es | Es]; exact Es]].
      rewrite E.
      destruct (filter _ rest) as [|u us]; [reflexivity|].
      reflexivity.
    + rewrite orb_false_r.
      destruct (d <=? 20) eqn:Hle; cbn [andb].
      * destruct (is_empty (matching_files st)) eqn:He.
        -- destruct (IH (mkst [key] (used_mode st) sec (closest_file st)
                              (closest_time_diff st))) as (E & Em & Es).
           cbn [matching_files used_mode used_sector is_empty] in E, Em, Es.
           split; [|split; [exact Em
                           | right; destruct Es as [Es | Es]; exact Es]].
           rewrite E. cbn [firstn].
           destruct (filter _ rest); reflexivity.
        -- destruct (IH st) as (E & Em & Es).
           split; [|split; [exact Em | exact Es]].
           rewrite E, He. reflexivity.
      * apply IH.
Qed.

End GoesLightning.

Section GoesLightningSelection.

Variable rq : request.
Variable objs : list string.

(** X3: for the lightning product and a query with seconds, the
    selection is one object: the first one in the order of the listing
    whose file name starts with the pattern and whose timestamp text
    begins with the 13 characters of the query; no mode and no sector
    are reported. Without such an object only that one pattern has been
    tried. *)
Theorem lightning_with_seconds_selects_first_exact_text :
  rule_of rq = GlmSecond ->
  match download_GOES rq objs with
  | Matched files m s =>
      m = "" /\ s = ""
      /\ exists l1 k l2,
           objs = (l1 ++ k :: l2)%list /\ files = [k]
           /\ startswith (file_name k) (target_pattern rq "" "" "") = true
           /\ (exists ts, file_timestamp_str k = Some ts
                          /\ slice ts 0 13 = timestamp_prefix rq)
           /\ forall k', In k' l1 ->
                         matches rq (target_pattern rq "" "" "") k' = false
  | NoMatch attempted =>
      attempted = [target_pattern rq "" "" ""]
      /\ forall k, In k objs ->
                   matches rq (target_pattern rq "" "" "") k = false
  | InvalidSatellite | NoFilesFound => True
  end.
Proof.
  intros Hr. destruct (rule_glm_second rq Hr) as [Hg Hs].
  destruct (glm_product_flags rq Hg) as (Hc & _ & _).
  unfold download_GOES.
  destruct (negb _); [exact I|]. destruct (is_empty objs); [exact I|].
  rewrite glm_search by exact Hg. cbn zeta. rewrite Hc.
  destruct (scan_objects_glm_second rq (target_pattern rq "" "" "") "" ""
              objs (mkst [] "" "" None 600) Hr)
    as [(l1 & k & l2 & E & Hpre & Hk & ->) | (Hall & ->)].
  - cbn. split; [reflexivity|]. split; [reflexivity|].
    exists l1, k, l2. split; [exact E|]. split; [reflexivity|].
    destruct (matches_candidate rq _ _ Hk) as (Hp & ts & Hts).
    split; [exact Hp|]. split; [|exact Hpre].
    exists ts. split; [exact Hts|].
    unfold matches, candidate in Hk. rewrite Hr, Hp, Hts in Hk.
    now apply String.eqb_eq.
  - cbn. split; [reflexivity | exact Hall].
Qed.

(** X4: for the lightning product and a query without seconds, the
    selection is the last object of the listing that is strictly less
    than 20 seconds from the query when there is one, else the first
    object that is within 20 seconds, else nothing. *)
Theorem lightning_without_seconds_selection :
  rule_of rq = GlmMinute ->
  existsb (String.eqb (satellite rq)) valid_satellites = true ->
  let p := target_pattern rq "" "" "" in
  let under :=
    filter (fun k => match time_diff rq p k with
                     | Some d => d <? 20
                     | None => false
                     end) objs in
  let within :=
    filter (fun k => match time_diff rq p k with
                     | Some d => d <=? 20
                     | None => false
                     end) objs in
  selected (download_GOES rq objs)
  = match under with
    | [] => firstn 1 within
    | _ :: _ => [last under ""]
    end.
Proof.
  intros Hr Hsat p under within.
  destruct (rule_glm_minute rq Hr) as [Hg Hs].
  destruct (glm_product_flags rq Hg) as (Hc & _ & _).
  assert (Hw : within = filter (matches rq p) objs).
  { subst within. apply filter_ext. intros k. unfold matches.
    now rewrite Hr. }
  unfold download_GOES. rewrite Hsat. cbn [negb].
  destruct (is_empty objs) eqn:He.
  { destruct objs; [|discriminate]. reflexivity. }
  rewrite glm_search by exact Hg. cbn zeta. rewrite Hc.
  destruct (scan_objects_glm_minute rq p "" "" objs Hr
              (mkst [] "" "" None 600)) as (E & _ & _).
  cbn [matching_files is_empty] in E. fold under in E. rewrite <- Hw in E.
  fold p.
  assert (Hcf : closest_file (scan_objects rq p "" "" (mkst [] "" "" None 600)
                                objs) = None)
    by (now rewrite scan_objects_closest by exact Hc).
  unfold found. rewrite Hcf.
  destruct (matching_files _) as [|f fs] eqn:Emf.
  - cbn [selected]. exact E.
  - cbn [selected]. exact E.
Qed.

End GoesLightningSelection.

Section GoesExactMinute.

Variable rq : request.
Variable objs : list string.

(** X5: under the exact-minute rule the selection holds, in the order
    of the listing, every object that passes the test under the first
    pattern under which some object passes it. The mode that is
    reported is the requested one (none for a fixed-format product) and
    the sector reported is empty, whichever pattern matched. *)
Theorem exact_minute_selects_all_of_first_pattern :
  rule_of rq = ExactMinute ->
  match download_GOES rq objs with
  | Matched files m s =>
      m = (if is_fixed_format rq then "" else mode rq) /\ s = ""
      /\ exists pre c post,
           combos rq = (pre ++ c :: post)%list
           /\ files = filter (exact_minute rq (pattern_of rq objs c)) objs
           /\ files <> []
           /\ forall c',
                In c' pre ->
                filter (exact_minute rq (pattern_of rq objs c')) objs = []
  | NoMatch attempted =>
      forall c,
        In c (combos rq) ->
        filter (exact_minute rq (pattern_of rq objs c)) objs = []
  | InvalidSatellite | NoFilesFound => True
  end.
Proof.
  intros Hr. destruct (rule_exact rq Hr) as (Hg & Hc & _).
  assert (Hscan : forall c,
             scan rq objs (init_state rq) c
             = mkst (filter (exact_minute rq (pattern_of rq objs c)) objs)
                    (if is_fixed_format rq then "" else mode rq) "" None 600).
  { intros c. unfold scan. rewrite scan_objects_exact by exact Hr.
    unfold init_state. rewrite Hg. cbn.
    now destruct (is_fixed_format rq). }
  assert (Hnone : forall c,
             found (scan rq objs (init_state rq) c) = false ->
             filter (exact_minute rq (pattern_of rq objs c)) objs = []).
  { intros c. rewrite Hscan. unfold found. cbn.
    now destruct (filter _ objs). }
  unfold download_GOES.
  destruct (negb _); [exact I|]. destruct (is_empty objs); [exact I|].
  rewrite Hc.
  destruct (search_first rq objs)
    as [(pre & c & post & Hcs & Hpre & Hfound & Hs) | (Hall & Hs)];
    rewrite Hs.
  - rewrite Hfound. rewrite Hscan. cbn.
    split; [reflexivity|]. split; [reflexivity|].
    exists pre, c, post. split; [exact Hcs|]. split; [reflexivity|]. split.
    + intros Hnil. rewrite Hscan in Hfound. unfold found in Hfound.
      cbn in Hfound. now rewrite Hnil in Hfound.
    + intros c' Hin. apply Hnone. rewrite Forall_forall in Hpre.
      now apply Hpre.
  - rewrite found_init. intros c Hin. apply Hnone.
    rewrite Forall_forall in Hall. now apply Hall.
Qed.

(** X6: when no file name of the listing holds a mode and band token,
    or the product is the lightning product or a fixed-format product,
    the pattern has no band part and the [band] argument does not
    change the result. *)
Theorem band_is_read_only_with_band_tokens (b : option Z) :
  is_band_specific objs = false \/ is_glm_product rq = true
  \/ is_fixed_format rq = true ->
  band_str rq objs = ""
  /\ download_GOES (with_band rq b) objs = download_GOES rq objs.
Proof.
  intros H.
  assert (Hb : forall b', band_str (with_band rq b') objs = "").
  { intros b'. unfold band_str.
    change (is_glm_product (with_band rq b')) with (is_glm_product rq).
    change (is_fixed_format (with_band rq b')) with (is_fixed_format rq).
    destruct H as [H | [H | H]]; rewrite H.
    - now destruct (_ || _).
    - reflexivity.
    - now rewrite orb_true_r. }
  assert (Hb0 : band_str rq objs = "").
  { unfold band_str. destruct H as [H | [H | H]]; rewrite H.
    - now destruct (_ || _).
    - reflexivity.
    - now rewrite orb_true_r. }
  split; [exact Hb0|].
  unfold download_GOES, search. rewrite Hb, Hb0.
  change (possible_modes (with_band rq b)) with (possible_modes rq).
  change (init_state (with_band rq b)) with (init_state rq).
  change (is_conus (with_band rq b)) with (is_conus rq).
  change (satellite (with_band rq b)) with (satellite rq).
  now rewrite mode_loop_with_band.
Qed.

End GoesExactMinute.

(** ** The [scan_params] argument *)

Section GoesScanParams.
Import GoesRequest.

Variable rq : request.
Variable objs : list string.

Lemma scan_objects_with_scan_params (sp : option scan_params_t)
    (p m s : string) (l : list string) :
  forall st,
    scan_objects (with_scan_params rq sp) p m s st l
    = scan_objects rq p m s st l.
Proof.
  induction l as [|key rest IH]; intros st; simpl; [reflexivity|].
  change (scan_obj (with_scan_params rq sp) p m s st key)
    with (scan_obj rq p m s st key).
  destruct (scan_obj rq p m s st key) as [st' brk].
  destruct brk; [reflexivity | apply IH].
Qed.

Lemma sector_loop_with_scan_params (sp : option scan_params_t)
    (bs m : string) (secs : list string) :
  forall st att,
    sector_loop (with_scan_params rq sp) bs objs m st att secs
    = sector_loop rq bs objs m st att secs.
Proof.
  induction secs as [|sec rest IH]; intros st att; simpl; [reflexivity|].
  change (target_pattern (with_scan_params rq sp) bs m sec)
    with (target_pattern rq bs m sec).
  rewrite scan_objects_with_scan_params.
  destruct (found _); [reflexivity | apply IH].
Qed.

(** Two values of [scan_params] that give the same mode and the same
    sectors give the same search. *)
Lemma mode_loop_with_scan_params (sp sp' : option scan_params_t)
    (bs : string) (modes : list string) :
  sectors (with_scan_params rq sp) = sectors (with_scan_params rq sp') ->
  forall st att,
    mode_loop (with_scan_params rq sp) bs objs st att modes
    = mode_loop (with_scan_params rq sp') bs objs st att modes.
Proof.
  intros Hs. induction modes as [|m rest IH]; intros st att; simpl;
    [reflexivity|].
  rewrite Hs. rewrite !sector_loop_with_scan_params.
  destruct (sector_loop rq bs objs m st att _) as [st' att'].
  destruct (found st'); [reflexivity | apply IH].
Qed.

Lemma download_GOES_with_scan_params (sp sp' : option scan_params_t) :
  mode (with_scan_params rq sp) = mode (with_scan_params rq sp') ->
  sectors (with_scan_params rq sp) = sectors (with_scan_params rq sp') ->
  download_GOES (with_scan_params rq sp) objs
  = download_GOES (with_scan_params rq sp') objs.
Proof.
  intros Hm Hs. unfold download_GOES, search.
  rewrite (mode_loop_with_scan_params sp sp') by exact Hs.
  unfold possible_modes, init_state. rewrite Hm.
  reflexivity.
Qed.

(** X7: [scan_params] is not read for the lightning and fixed-format
    products; a sector is read only for a mesoscale product and only
    when it is [M1] or [M2]; a dictionary without keys is as no
    dictionary; and with a sector [M1] or [M2] on a mesoscale product
    the patterns that are tried are those of that sector alone, one for
    each of the four modes. *)
Theorem scan_params_are_read_for_mode_and_mesoscale_sector
    (m : option string) (s : string) :
  (is_glm_product rq = true \/ is_fixed_format rq = true ->
   forall sp,
     download_GOES (with_scan_params rq sp) objs
     = download_GOES (with_scan_params rq None) objs)
  /\ (is_mesoscale rq = false \/ (s <> "M1" /\ s <> "M2") ->
      download_GOES (with_scan_params rq (Some (mksp m (Some s)))) objs
      = download_GOES (with_scan_params rq (Some (mksp m None))) objs)
  /\ download_GOES (with_scan_params rq (Some (mksp None None))) objs
     = download_GOES (with_scan_params rq None) objs
  /\ (is_glm_product rq = false -> is_fixed_format rq = false ->
      is_mesoscale rq = true -> s = "M1" \/ s = "M2" ->
      forall att,
        download_GOES (with_scan_params rq (Some (mksp m (Some s)))) objs
        = NoMatch att ->
        att = map (fun try_mode =>
                     target_pattern rq (band_str rq objs) try_mode s)
                  [match m with Some x => x | None => "6" end; "3"; "4"; "6"]).
Proof.
  split; [|split; [|split]].
  - intros H sp.
    assert (Hgf : is_glm_product rq || is_fixed_format rq = true)
      by (destruct H as [H | H]; rewrite H; [reflexivity
                                            | apply orb_true_r]).
    unfold download_GOES, search.
    rewrite (mode_loop_with_scan_params sp None).
    + unfold possible_modes, init_state.
      change (is_glm_product (with_scan_params rq sp))
        with (is_glm_product rq).
      change (is_fixed_format (with_scan_params rq sp))
        with (is_fixed_format rq).
      change (is_glm_product (with_scan_params rq None))
        with (is_glm_product rq).
      change (is_fixed_format (with_scan_params rq None))
        with (is_fixed_format rq).
      rewrite Hgf. reflexivity.
    + unfold sectors.
      change (is_glm_product (with_scan_params rq sp))
        with (is_glm_product rq).
      change (is_fixed_format (with_scan_params rq sp))
        with (is_fixed_format rq).
      change (is_glm_product (with_scan_params rq None))
        with (is_glm_product rq).
      change (is_fixed_format (with_scan_params rq None))
        with (is_fixed_format rq).
      now rewrite Hgf.
  - intros H. apply download_GOES_with_scan_params; [reflexivity|].
    unfold sectors.
    change (is_mesoscale (with_scan_params rq (Some (mksp m (Some s)))))
      with (is_mesoscale rq).
    change (is_mesoscale (with_scan_params rq (Some (mksp m None))))
      with (is_mesoscale rq).
    cbn [sector scan_params with_scan_params sp_sector].
    destruct H as [H | [H1 H2]].
    + rewrite H. reflexivity.
    + apply String.eqb_neq in H1, H2. rewrite H1, H2. reflexivity.
  - apply download_GOES_with_scan_params; reflexivity.
  - intros Hg Hf Hm Hs att E.
    apply no_match_attempted in E. rewrite E.
    unfold combos, possible_modes, sectors.
    change (is_glm_product (with_scan_params rq (Some (mksp m (Some s)))))
      with (is_glm_product rq).
    change (is_fixed_format (with_scan_params rq (Some (mksp m (Some s)))))
      with (is_fixed_format rq).
    change (is_mesoscale (with_scan_params rq (Some (mksp m (Some s)))))
      with (is_mesoscale rq).
    rewrite Hg, Hf, Hm.
    cbn [orb negb sector mode scan_params with_scan_params sp_sector sp_mode].
    assert (Hs' : String.eqb s "M1" || String.eqb s "M2" = true)
      by (destruct Hs as [-> | ->]; reflexivity).
    rewrite Hs'. reflexivity.
Qed.

End GoesScanParams.

(** ** The text of the query and the text of an object *)

Section QueryText.

Lemma num_digits2 (n : Z) : 0 <= n < 100 -> num (digits2 n) = Some n.
Proof.
  intros H.
  assert (A : forallb (fun n => match num (digits2 n) with
                                | Some m => m =? n
                                | None => false
                                end)
                      (upto (Z.to_nat 100)) = true)
    by (vm_compute; reflexivity).
  rewrite forallb_forall in A.
  specialize (A n (upto_In 100 n H)).
  destruct (num (digits2 n)) as [m|]; [|discriminate].
  apply Z.eqb_eq in A. now subst.
Qed.

Lemma num_digits3 (n : Z) : 0 <= n < 1000 -> num (digits3 n) = Some n.
Proof.
  intros H.
  assert (A : forallb (fun n => match num (digits3 n) with
                                | Some m => m =? n
                                | None => false
                                end)
                      (upto (Z.to_nat 1000)) = true)
    by (vm_compute; reflexivity).
  rewrite forallb_forall in A.
  specialize (A n (upto_In 1000 n H)).
  destruct (num (digits3 n)) as [m|]; [|discriminate].
  apply Z.eqb_eq in A. now subst.
Qed.

Lemma num_digits4 (n : Z) : 0 <= n < 10000 -> num (digits4 n) = Some n.
Proof.
  intros H.
  assert (A : forallb (fun n => match num (digits4 n) with
                                | Some m => m =? n
                                | None => false
                                end)
                      (upto (Z.to_nat 10000)) = true)
    by (vm_compute; reflexivity).
  rewrite forallb_forall in A.
  specialize (A n (upto_In 10000 n H)).
  destruct (num (digits4 n)) as [m|]; [|discriminate].
  apply Z.eqb_eq in A. now subst.
Qed.

Lemma yday_in_year (y m d : Z) :
  1 <= m <= 12 -> 1 <= d <= days_in_month y m ->
  days_before_month y m + d <= days_in_year y.
Proof.
  intros Hm.
  assert (C : m = 1 \/ m = 2 \/ m = 3 \/ m = 4 \/ m = 5 \/ m = 6 \/ m = 7
              \/ m = 8 \/ m = 9 \/ m = 10 \/ m = 11 \/ m = 12) by lia.
  clear Hm.
  repeat (destruct C as [-> | C]); try subst m;
    unfold days_in_month, days_before_month, days_in_year;
    cbn [Z.eqb Pos.eqb Z.ltb Z.compare Pos.compare Pos.compare_cont
         orb andb negb];
    destruct (is_leap y); lia.
Qed.

(** The two texts of an instant, digit by digit. *)
Lemma strftime_digits (q : datetime) :
  valid q -> 1000 <= year q ->
  strftime_YjHMS q
  = digits4 (year q) ++ digits3 (yday q) ++ digits2 (hour q)
    ++ digits2 (minute q) ++ digits2 (second q)
  /\ strftime_YjHM q
     = digits4 (year q) ++ digits3 (yday q) ++ digits2 (hour q)
       ++ digits2 (minute q).
Proof.
  intros Hq Hy. unfold valid in Hq. apply datetime_new_fields in Hq.
  destruct Hq as (_ & Qy & Qm & Qd & Qh & Qi & Qs).
  pose proof (yday_bounds (year q) (month q) (day q) Qm Qd) as Qyd.
  unfold strftime_YjHMS, strftime_YjHM.
  rewrite (dec_digits4 (year q)) by lia.
  rewrite (fmt3_digits (yday q)) by (unfold yday; lia).
  rewrite (fmt2_digits (hour q)), (fmt2_digits (minute q)),
    (fmt2_digits (second q)) by lia.
  split; reflexivity.
Qed.

(** Reading the text that [strftime] writes gives the instant back. *)
Lemma strptime_strftime (q : datetime) :
  valid q -> 1000 <= year q ->
  strptime_Yj (strftime_YjHMS q) = Some q.
Proof.
  intros Hq Hy. destruct (strftime_digits q Hq Hy) as [E _]. rewrite E.
  pose proof Hq as Hv.
  unfold valid in Hq. apply datetime_new_fields in Hq.
  destruct Hq as (_ & Qy & Qm & Qd & Qh & Qi & Qs).
  pose proof (yday_bounds (year q) (month q) (day q) Qm Qd) as Qyd.
  pose proof (yday_in_year (year q) (month q) (day q) Qm Qd) as Qin.
  pose proof (num_digits4 (year q) ltac:(lia)) as N4.
  pose proof (num_digits3 (yday q) ltac:(unfold yday; lia)) as N3.
  pose proof (num_digits2 (hour q) ltac:(lia)) as Nh.
  pose proof (num_digits2 (minute q) ltac:(lia)) as Nm.
  pose proof (num_digits2 (second q) ltac:(lia)) as Ns.
  unfold strptime_Yj.
  unfold digits4, digits3, digits2 in *.
  cbn [append String.length Nat.eqb negb slice substring Nat.sub].
  rewrite N4, N3, Nh, Nm, Ns.
  replace ((1 <=? yday q) && (yday q <=? 366) && (hour q <=? 23)
           && (minute q <=? 59) && (second q <=? 61)) with true.
  2:{ symmetry. rewrite !andb_true_iff, !Z.leb_le. unfold yday. lia. }
  replace (year q =? 0) with false by (symmetry; apply Z.eqb_neq; lia).
  unfold date_of_yday, yday.
  replace (days_before_month (year q) (month q) + day q
           <=? days_in_year (year q)) with true
    by (symmetry; apply Z.leb_le; lia).
  rewrite yday_month_day by assumption.
  exact Hv.
Qed.

Lemma abs_diff_refl (q : datetime) : abs_diff q q = 0.
Proof. unfold abs_diff. rewrite Z.sub_diag. reflexivity. Qed.

(** X8: the text that [strftime] writes for a valid query of a year
    from 1000 on is read back by [strptime] as the query; so an object
    that passes lines 165-175 and whose timestamp text is that text lies
    0 seconds from the query and passes the test of every rule. *)
Theorem object_at_the_query_instant_passes_every_rule
    (rq : request) (p k : string) :
  valid (dt_input rq) -> 1000 <= year (dt_input rq) ->
  candidate p k = Some (strftime_YjHMS (dt_input rq)) ->
  strptime_Yj (strftime_YjHMS (dt_input rq)) = Some (dt_input rq)
  /\ time_diff rq p k = Some 0
  /\ matches rq p k = true.
Proof.
  intros Hq Hy Hc.
  pose proof (strptime_strftime _ Hq Hy) as Hp.
  split; [exact Hp|].
  assert (Ht : time_diff rq p k = Some 0).
  { unfold time_diff. rewrite Hc, Hp. now rewrite abs_diff_refl. }
  split; [exact Ht|].
  destruct (strftime_digits _ Hq Hy) as [E13 E11].
  unfold matches, conus_diff, other_diff, exact_minute.
  rewrite Ht, Hc.
  destruct (rule_of rq) eqn:Hr; try reflexivity.
  - destruct (rule_glm_second rq Hr) as [_ Hs].
    unfold timestamp_prefix. rewrite Hs. rewrite E13.
    unfold digits4, digits3, digits2.
    cbn [append slice substring Nat.sub]. apply String.eqb_refl.
  - unfold timestamp_prefix.
    destruct (has_seconds rq); rewrite ?E13, ?E11;
      unfold digits4, digits3, digits2;
      cbn [append slice substring Nat.sub]; apply String.eqb_refl.
Qed.

(** The 13 characters of a timestamp text that parses are the text of
    a query exactly when the two instants are the same, provided the
    day of the year of the text lies in the year of the text. *)
Lemma second_text_iff (ts : string) (t q : datetime) :
  strptime_Yj ts = Some t ->
  num (slice ts 0 4) = Some (year t) ->
  valid q -> 1000 <= year q ->
  ts = strftime_YjHMS q <-> t = q.
Proof.
  intros Hp Hyt Hq Hy. split.
  - intros ->. rewrite strptime_strftime in Hp by assumption. congruence.
  - intros <-.
    pose proof (proj2 (minute_text_iff ts t t true Hp Hyt Hq Hy)
                  ltac:(repeat split; reflexivity)) as E11.
    destruct (strftime_digits t Hq Hy) as [E13 _].
    cbn iota in E11. rewrite E13 in E11 |- *.
    destruct (length13 ts (strptime_Yj_length ts t Hp))
      as (c1 & c2 & c3 & c4 & c5 & c6 & c7 & c8 & c9 & c10 & c11 & c12
          & c13 & ->).
    unfold strptime_Yj in Hp.
    cbn [String.length Nat.eqb negb slice substring Nat.sub] in Hp.
    destruct (num (String c1 (String c2 (String c3 (String c4 "")))))
      as [y|]; [|discriminate].
    destruct (num (String c5 (String c6 (String c7 ""))))
      as [j|]; [|discriminate].
    destruct (num (String c8 (String c9 ""))) as [h|]; [|discriminate].
    destruct (num (String c10 (String c11 ""))) as [mi|]; [|discriminate].
    destruct (num (String c12 (String c13 ""))) as [sec|] eqn:Ns;
      [|discriminate].
    destruct (_ && _); [|discriminate].
    destruct (y =? 0); [discriminate|].
    destruct (date_of_yday y j) as [[y' m'] d'].
    apply datetime_new_fields in Hp. destruct Hp as (-> & _).
    cbn [year month day hour minute second yday] in *.
    destruct (num2_digits _ _ _ Ns) as [T2 _].
    unfold digits4, digits3, digits2 in *.
    cbn [append slice substring Nat.sub] in E11 |- *.
    injection E11 as -> -> -> -> -> -> -> -> -> -> ->.
    injection T2 as -> ->. reflexivity.
Qed.

(** X9: for the lightning product and a query with seconds, an object
    whose first 13 timestamp characters parse, with the day of the year
    in the year that the text names, passes the test exactly when its
    start time is the query time to the second. *)
Theorem lightning_with_seconds_matches_the_query_second
    (rq : request) (p k ts : string) (t : datetime) :
  rule_of rq = GlmSecond ->
  valid (dt_input rq) -> 1000 <= year (dt_input rq) ->
  candidate p k = Some ts ->
  strptime_Yj (slice ts 0 13) = Some t ->
  num (slice ts 0 4) = Some (year t) ->
  matches rq p k = true <-> t = dt_input rq.
Proof.
  intros Hr Hq Hy Hc Hp Hyt.
  destruct (rule_glm_second rq Hr) as [_ Hs].
  unfold matches. rewrite Hr, Hc. unfold timestamp_prefix. rewrite Hs.
  rewrite String.eqb_eq.
  apply second_text_iff; try assumption.
  rewrite <- Hyt. f_equal. unfold slice. cbn [Nat.sub].
  clear. do 5 (destruct ts as [|? ts]; [reflexivity|]). reflexivity.
Qed.

End QueryText.

(** ** The timestamp argument of [download_GOES] *)

Section GoesTimestamp.
Import GoesRequest.

Lemma string_app_assoc (a b c : string) : (a ++ b) ++ c = a ++ b ++ c.
Proof.
  induction a as [|x a IH]; cbn [append]; [reflexivity | now rewrite IH].
Qed.

Lemma string_app_nil_r (a : string) : a ++ "" = a.
Proof.
  induction a as [|x a IH]; cbn [append]; [reflexivity | now rewrite IH].
Qed.

Lemma digit_char_digit (d : Z) :
  0 <= d <= 9 -> is_digit (digit_char d) = true.
Proof.
  intros H.
  assert (C : d = 0 \/ d = 1 \/ d = 2 \/ d = 3 \/ d = 4 \/ d = 5 \/ d = 6
              \/ d = 7 \/ d = 8 \/ d = 9) by lia.
  repeat (destruct C as [-> | C]); try subst d; reflexivity.
Qed.

(** A digit is none of the separators and no white space. *)
Lemma digit_not_separator (x : ascii) :
  is_digit x = true ->
  Ascii.eqb x "-" = false /\ Ascii.eqb x " " = false
  /\ Ascii.eqb x ":" = false /\ is_re_space x = false.
Proof.
  intros H. destruct (is_digit_char x H) as (d & Hd & _ & ->).
  assert (C : d = 0 \/ d = 1 \/ d = 2 \/ d = 3 \/ d = 4 \/ d = 5 \/ d = 6
              \/ d = 7 \/ d = 8 \/ d = 9) by lia.
  repeat (destruct C as [-> | C]); try subst d; repeat split; reflexivity.
Qed.

Lemma remove_char_digit (c x : ascii) (s : string) :
  is_digit x = true -> c = "-"%char \/ c = " "%char \/ c = ":"%char ->
  remove_char c (String x s) = String x (remove_char c s).
Proof.
  intros H Hc. destruct (digit_not_separator x H) as (H1 & H2 & H3 & _).
  cbn [remove_char].
  destruct Hc as [-> | [-> | ->]]; now rewrite ?H1, ?H2, ?H3.
Qed.

(** The digits of the texts. *)
Lemma digits2_chars (n : Z) :
  0 <= n < 100 ->
  exists a b,
    digits2 n = String a (String b "")
    /\ is_digit a = true /\ is_digit b = true.
Proof.
  intros H. exists (digit_char (n / 10)), (digit_char (n mod 10)).
  split; [reflexivity|].
  split; apply digit_char_digit; Z.div_mod_to_equations; lia.
Qed.

Lemma digits4_chars (n : Z) :
  0 <= n < 10000 ->
  exists a b c d,
    digits4 n = String a (String b (String c (String d "")))
    /\ is_digit a = true /\ is_digit b = true
    /\ is_digit c = true /\ is_digit d = true.
Proof.
  intros H.
  exists (digit_char (n / 1000)), (digit_char (n mod 1000 / 100)),
    (digit_char (n mod 1000 mod 100 / 10)),
    (digit_char (n mod 1000 mod 100 mod 10)).
  split; [reflexivity|].
  repeat split; apply digit_char_digit; Z.div_mod_to_equations; lia.
Qed.

Lemma py_int_digits2 (n : Z) : 0 <= n < 100 -> py_int (digits2 n) = Some n.
Proof.
  intros H.
  assert (A : forallb (fun n => match py_int (digits2 n) with
                                | Some m => m =? n
                                | None => false
                                end)
                      (upto (Z.to_nat 100)) = true)
    by (vm_compute; reflexivity).
  rewrite forallb_forall in A.
  specialize (A n (upto_In 100 n H)).
  destruct (py_int (digits2 n)) as [m|]; [|discriminate].
  apply Z.eqb_eq in A. now subst.
Qed.

Lemma py_int_digits4 (n : Z) :
  0 <= n < 10000 -> py_int (digits4 n) = Some n.
Proof.
  intros H.
  assert (A : forallb (fun n => match py_int (digits4 n) with
                                | Some m => m =? n
                                | None => false
                                end)
                      (upto (Z.to_nat 10000)) = true)
    by (vm_compute; reflexivity).
  rewrite forallb_forall in A.
  specialize (A n (upto_In 10000 n H)).
  destruct (py_int (digits4 n)) as [m|]; [|discriminate].
  apply Z.eqb_eq in A. now subst.
Qed.

(** A group reads the two digits of a number in its range. *)
Lemma group_digits2 (two : ascii -> ascii -> bool) (one : ascii -> bool)
    (lo hi : Z) (n : Z) (r : string) :
  forallb (fun n => (n <? lo)
                    || two (digit_char (n / 10)) (digit_char (n mod 10)))
          (upto (Z.to_nat (hi + 1))) = true ->
  0 <= lo -> lo <= n <= hi ->
  group two one (digits2 n ++ r) = Some (digits2 n, r).
Proof.
  intros A Hlo H. rewrite forallb_forall in A.
  specialize (A n (upto_In (hi + 1) n ltac:(lia))).
  apply orb_true_iff in A. destruct A as [A | A];
    [apply Z.ltb_lt in A; lia|].
  unfold digits2. cbn [append group]. now rewrite A.
Qed.

Lemma re_m_digits2 (n : Z) (r : string) :
  1 <= n <= 12 -> re_m (digits2 n ++ r) = Some (digits2 n, r).
Proof. apply group_digits2; [vm_compute; reflexivity | lia]. Qed.

Lemma re_d_digits2 (n : Z) (r : string) :
  1 <= n <= 31 -> re_d (digits2 n ++ r) = Some (digits2 n, r).
Proof. apply group_digits2; [vm_compute; reflexivity | lia]. Qed.

Lemma re_H_digits2 (n : Z) (r : string) :
  0 <= n <= 23 -> re_H (digits2 n ++ r) = Some (digits2 n, r).
Proof. apply group_digits2; [vm_compute; reflexivity | lia]. Qed.

Lemma re_M_digits2 (n : Z) (r : string) :
  0 <= n <= 59 -> re_M (digits2 n ++ r) = Some (digits2 n, r).
Proof. apply group_digits2; [vm_compute; reflexivity | lia]. Qed.

Lemma re_S_digits2 (n : Z) (r : string) :
  0 <= n <= 59 -> re_S (digits2 n ++ r) = Some (digits2 n, r).
Proof. apply group_digits2; [vm_compute; reflexivity | lia]. Qed.

Lemma re_Y_digits4 (n : Z) (r : string) :
  0 <= n < 10000 -> re_Y (digits4 n ++ r) = Some (digits4 n, r).
Proof.
  intros H. destruct (digits4_chars n H) as (a & b & c & d & E & Ha & Hb
                                             & Hc & Hd).
  rewrite E. cbn [append re_Y]. now rewrite Ha, Hb, Hc, Hd.
Qed.

Lemma lit_cons (c : ascii) (r : string) : lit c (String c r) = Some r.
Proof. unfold lit. now rewrite Ascii.eqb_refl. Qed.

Lemma days_in_month_le (y m : Z) : days_in_month y m <= 31.
Proof.
  unfold days_in_month.
  destruct (m =? 2); [destruct (is_leap y); lia|].
  destruct (_ || _); lia.
Qed.

(** The text with seconds of a valid instant is read as that instant. *)
Lemma strptime_iso_text_second (t : datetime) :
  valid t -> strptime_iso (text_second t) = Some t.
Proof.
  intros Hv. pose proof Hv as Hq.
  unfold valid in Hq. apply datetime_new_fields in Hq.
  destruct Hq as (_ & Qy & Qm & Qd & Qh & Qi & Qs).
  pose proof (days_in_month_le (year t) (month t)) as Hdim.
  unfold strptime_iso, text_second, text_minute.
  rewrite !string_app_assoc.
  rewrite re_Y_digits4 by lia. cbn [obind append].
  rewrite lit_cons. cbn [obind].
  rewrite re_m_digits2 by lia. cbn [obind append].
  rewrite lit_cons. cbn [obind].
  rewrite re_d_digits2 by lia. cbn [obind append].
  destruct (digits2_chars (hour t) ltac:(lia)) as (a & b & E & Ha & _).
  assert (Hsp : re_spaces (String " " (digits2 (hour t) ++ ":" ++
                  digits2 (minute t) ++ ":" ++ digits2 (second t)))
                = Some (digits2 (hour t) ++ ":" ++ digits2 (minute t)
                        ++ ":" ++ digits2 (second t))).
  { unfold re_spaces. change (is_re_space " ") with true. cbn iota.
    rewrite E. cbn [append skip_spaces].
    destruct (digit_not_separator a Ha) as (_ & _ & _ & Hs).
    now rewrite Hs. }
  cbn [append] in Hsp. rewrite Hsp. cbn [obind].
  rewrite re_H_digits2 by lia. cbn [obind append].
  rewrite lit_cons. cbn [obind].
  rewrite re_M_digits2 by lia. cbn [obind append].
  rewrite lit_cons. cbn [obind].
  rewrite <- (string_app_nil_r (digits2 (second t))) at 1.
  rewrite re_S_digits2 by lia. cbn [obind String.eqb negb].
  rewrite py_int_digits4 by lia. cbn [obind].
  rewrite !py_int_digits2 by lia. cbn [obind].
  exact Hv.
Qed.


Lemma remove_char_digits2 (c : ascii) (n : Z) (r : string) :
  0 <= n < 100 -> c = "-"%char \/ c = " "%char \/ c = ":"%char ->
  remove_char c (digits2 n ++ r) = digits2 n ++ remove_char c r.
Proof.
  intros H Hc. destruct (digits2_chars n H) as (a & b & E & Ha & Hb).
  rewrite E. cbn [append]. now rewrite !remove_char_digit.
Qed.

Lemma remove_char_digits4 (c : ascii) (n : Z) (r : string) :
  0 <= n < 10000 -> c = "-"%char \/ c = " "%char \/ c = ":"%char ->
  remove_char c (digits4 n ++ r) = digits4 n ++ remove_char c r.
Proof.
  intros H Hc.
  destruct (digits4_chars n H) as (a & b & x & d & E & Ha & Hb & Hx & Hd).
  rewrite E. cbn [append]. now rewrite !remove_char_digit.
Qed.

Lemma remove_char_same (c : ascii) (r : string) :
  remove_char c (String c r) = remove_char c r.
Proof. cbn [remove_char]. now rewrite Ascii.eqb_refl. Qed.

Lemma remove_char_other (c x : ascii) (r : string) :
  Ascii.eqb x c = false ->
  remove_char c (String x r) = String x (remove_char c r).
Proof. intros H. cbn [remove_char]. now rewrite H. Qed.

Lemma text_has_seconds (t : datetime) :
  valid t ->
  timestamp_has_seconds (text_second t) = true
  /\ timestamp_has_seconds (text_minute t) = false.
Proof.
  intros Hq. unfold valid in Hq. apply datetime_new_fields in Hq.
  destruct Hq as (_ & Qy & Qm & Qd & Qh & Qi & Qs).
  pose proof (days_in_month_le (year t) (month t)) as Hdim.
  assert (Hs : forall r,
             remove_char ":" (remove_char " " (remove_char "-"
               (text_minute t ++ r)))
             = digits4 (year t) ++ digits2 (month t) ++ digits2 (day t)
               ++ digits2 (hour t) ++ digits2 (minute t)
               ++ remove_char ":" (remove_char " " (remove_char "-" r))).
  { intros r. unfold text_minute. rewrite !string_app_assoc.
    cbn [append].
    repeat first
      [ rewrite remove_char_digits4 by (auto; lia)
      | rewrite remove_char_digits2 by (auto; lia)
      | rewrite remove_char_same
      | rewrite remove_char_other by reflexivity ].
    reflexivity. }
  unfold timestamp_has_seconds, text_second. split.
  - rewrite Hs. rewrite <- (string_app_nil_r (digits2 (second t))).
    cbn [append].
    rewrite remove_char_other by reflexivity.
    rewrite remove_char_other by reflexivity.
    rewrite remove_char_same.
    repeat first
      [ rewrite remove_char_digits2 by (auto; lia) ].
    unfold digits4, digits3, digits2. reflexivity.
  - rewrite <- (string_app_nil_r (text_minute t)). rewrite Hs.
    unfold digits4, digits3, digits2. reflexivity.
Qed.

(** What each step of the format takes from the front of the text. *)
Lemma re_Y_app (s g r : string) : re_Y s = Some (g, r) -> s = g ++ r.
Proof.
  unfold re_Y. destruct s as [|a [|b [|c [|d s]]]]; try discriminate.
  destruct (_ && _); [|discriminate]. now intros [= <- <-].
Qed.

Lemma lit_app (c : ascii) (s r : string) :
  lit c s = Some r -> s = String c r.
Proof.
  unfold lit. destruct s as [|a s]; [discriminate|].
  destruct (Ascii.eqb a c) eqn:E; [|discriminate].
  apply Ascii.eqb_eq in E. now intros [= <-]; subst.
Qed.

Lemma group_app (two : ascii -> ascii -> bool) (one : ascii -> bool)
    (s g r : string) :
  group two one s = Some (g, r) ->
  s = g ++ r
  /\ ((exists a, g = String a "")
      \/ (exists a b, g = String a (String b ""))).
Proof.
  unfold group. destruct s as [|a [|b s]]; [discriminate | |].
  - destruct (one a); [|discriminate]. intros [= <- <-]. eauto.
  - destruct (two a b); [intros [= <- <-]; eauto|].
    destruct (one a); [|discriminate]. intros [= <- <-]. eauto.
Qed.

Lemma skip_spaces_app (s : string) : exists w, s = w ++ skip_spaces s.
Proof.
  induction s as [|a s (w & IH)]; [now exists ""|].
  cbn [skip_spaces]. destruct (is_re_space a).
  - exists (String a w). cbn [append]. now rewrite <- IH.
  - now exists "".
Qed.

Lemma re_spaces_app (s r : string) :
  re_spaces s = Some r -> exists w, s = w ++ r.
Proof.
  unfold re_spaces. destruct s as [|a s]; [discriminate|].
  destruct (is_re_space a); [|discriminate]. intros [= <-].
  destruct (skip_spaces_app s) as (w & E).
  exists (String a w). cbn [append]. now rewrite <- E.
Qed.

(** The text that [strptime] accepts ends with the group of the
    seconds. *)
Lemma strptime_iso_seconds (s : string) (t : datetime) :
  strptime_iso s = Some t ->
  valid t
  /\ exists pre gS,
       s = pre ++ gS
       /\ ((exists a, gS = String a "")
           \/ (exists a b, gS = String a (String b "")))
       /\ py_int gS = Some (second t).
Proof.
  unfold strptime_iso, obind.
  destruct (re_Y s) as [[gY s1]|] eqn:E1; [|discriminate].
  destruct (lit "-" s1) as [s2|] eqn:E2; [|discriminate].
  destruct (re_m s2) as [[gm s3]|] eqn:E3; [|discriminate].
  destruct (lit "-" s3) as [s4|] eqn:E4; [|discriminate].
  destruct (re_d s4) as [[gd s5]|] eqn:E5; [|discriminate].
  destruct (re_spaces s5) as [s6|] eqn:E6; [|discriminate].
  destruct (re_H s6) as [[gH s7]|] eqn:E7; [|discriminate].
  destruct (lit ":" s7) as [s8|] eqn:E8; [|discriminate].
  destruct (re_M s8) as [[gM s9]|] eqn:E9; [|discriminate].
  destruct (lit ":" s9) as [s10|] eqn:E10; [|discriminate].
  destruct (re_S s10) as [[gS s11]|] eqn:E11; [|discriminate].
  destruct (String.eqb s11 "") eqn:E12; cbn [negb]; [|discriminate].
  destruct (py_int gY) as [y|]; [|discriminate].
  destruct (py_int gm) as [m|]; [|discriminate].
  destruct (py_int gd) as [d|]; [|discriminate].
  destruct (py_int gH) as [h|]; [|discriminate].
  destruct (py_int gM) as [mi|]; [|discriminate].
  destruct (py_int gS) as [sec|] eqn:ES; [|discriminate].
  intros Hd. pose proof (datetime_new_fields _ _ _ _ _ _ _ Hd) as (-> & _).
  split; [exact Hd|].
  apply String.eqb_eq in E12. subst s11.
  apply re_Y_app in E1. apply lit_app in E2, E4, E8, E10.
  apply group_app in E3, E5, E7, E9, E11.
  destruct E3 as [E3 _], E5 as [E5 _], E7 as [E7 _], E9 as [E9 _],
    E11 as [E11 Hg].
  apply re_spaces_app in E6. destruct E6 as (w & E6).
  exists (gY ++ "-" ++ gm ++ "-" ++ gd ++ w ++ gH ++ ":" ++ gM ++ ":"), gS.
  split; [|split; [exact Hg | exact ES]].
  rewrite !string_app_assoc. cbn [append].
  rewrite string_app_nil_r in E11. congruence.
Qed.

Lemma list_ascii_app (a b : string) :
  list_ascii_of_string (a ++ b)
  = (list_ascii_of_string a ++ list_ascii_of_string b)%list.
Proof.
  induction a as [|x a IH]; cbn; [reflexivity | now rewrite IH].
Qed.

(** A group at the end of a text that ends with [:00] reads zero. *)
Lemma seconds_of_appended (ts pre gS : string) :
  ts ++ ":00" = pre ++ gS ->
  (exists a, gS = String a "")
  \/ (exists a b, gS = String a (String b "")) ->
  py_int gS = Some 0.
Proof.
  intros E Hg. apply (f_equal list_ascii_of_string) in E.
  rewrite !list_ascii_app in E. apply (f_equal (@rev ascii)) in E.
  rewrite !rev_app_distr in E.
  destruct Hg as [(a & ->) | (a & b & ->)]; cbn in E.
  - injection E as E _. now subst a.
  - injection E as E1 E2 _. now subst a b.
Qed.

(** X11: a timestamp argument that is accepted gives a valid instant,
    and when it counts as given without seconds that instant is on a
    whole minute. *)
Theorem timestamp_without_seconds_is_a_whole_minute
    (timestamp : string) (t : datetime) (hs : bool) :
  parse_timestamp timestamp = Some (t, hs) ->
  valid t
  /\ hs = timestamp_has_seconds timestamp
  /\ (hs = false -> second t = 0).
Proof.
  unfold parse_timestamp, obind.
  destruct (strptime_iso _) as [t'|] eqn:E; [|discriminate].
  intros [= -> <-].
  destruct (strptime_iso_seconds _ _ E) as (Hv & pre & gS & Es & Hg & Hsec).
  split; [exact Hv|]. split; [reflexivity|].
  intros Hs. rewrite Hs in Es.
  rewrite (seconds_of_appended _ _ _ Es Hg) in Hsec. congruence.
Qed.

(** X10: the two documented forms of the timestamp argument are read as
    the instant they name: [YYYY-MM-DD HH:MM:SS] of a valid instant
    with [has_seconds] set, and [YYYY-MM-DD HH:MM] of a valid instant
    on a whole minute without it. *)
Theorem documented_timestamps_are_read (t : datetime) :
  valid t ->
  parse_timestamp (text_second t) = Some (t, true)
  /\ (second t = 0 -> parse_timestamp (text_minute t) = Some (t, false)).
Proof.
  intros Hv. destruct (text_has_seconds t Hv) as [Hs Hm].
  unfold parse_timestamp. rewrite Hs, Hm. split.
  - now rewrite strptime_iso_text_second.
  - intros H0.
    replace (text_minute t ++ ":00") with (text_second t).
    + now rewrite strptime_iso_text_second.
    + unfold text_second. now rewrite H0.
Qed.

End GoesTimestamp.

(** ** The prefixes of [download_GOES] *)

Section GoesPrefixes.
Import GoesRequest.

(** Month and day of a day number of the year. *)
Lemma month_day_of_spec (leapyear : bool) (n : Z) :
  0 <= n < (if leapyear then 366 else 365) ->
  let '(m, d) := month_day_of leapyear n in
  1 <= m <= 12
  /\ 1 <= d <= DAYS_IN_MONTH m + (if (m =? 2) && leapyear then 1 else 0)
  /\ DAYS_BEFORE_MONTH m + (if (2 <? m) && leapyear then 1 else 0) + d
     = n + 1.
Proof.
  intros H.
  assert (A : forall l,
             forallb (fun n =>
                        let '(m, d) := month_day_of l n in
                        implb (if l then true else n <? 365)
                          ((1 <=? m) && (m <=? 12) && (1 <=? d)
                           && (d <=? DAYS_IN_MONTH m
                                     + (if (m =? 2) && l then 1 else 0))
                           && (DAYS_BEFORE_MONTH m
                               + (if (2 <? m) && l then 1 else 0) + d
                               =? n + 1)))
                     (upto (Z.to_nat 366)) = true)
    by (intros []; vm_compute; reflexivity).
  specialize (A leapyear). rewrite forallb_forall in A.
  assert (Hn : 0 <= n < 366) by (destruct leapyear; lia).
  specialize (A n (upto_In 366 n Hn)).
  destruct (month_day_of leapyear n) as [m d].
  assert (Hc : (if leapyear then true else n <? 365) = true).
  { destruct leapyear; [reflexivity|]. apply Z.ltb_lt. lia. }
  rewrite Hc in A. cbn [implb] in A.
  rewrite !andb_true_iff, !Z.leb_le, Z.eqb_eq in A. lia.
Qed.

Lemma days_tables (y m : Z) :
  1 <= m <= 12 ->
  days_before_month y m
  = DAYS_BEFORE_MONTH m + (if (2 <? m) && is_leap y then 1 else 0)
  /\ days_in_month y m
     = DAYS_IN_MONTH m + (if (m =? 2) && is_leap y then 1 else 0).
Proof.
  intros Hm.
  assert (C : m = 1 \/ m = 2 \/ m = 3 \/ m = 4 \/ m = 5 \/ m = 6 \/ m = 7
              \/ m = 8 \/ m = 9 \/ m = 10 \/ m = 11 \/ m = 12) by lia.
  clear Hm.
  repeat (destruct C as [-> | C]); try subst m;
    unfold days_in_month, days_before_month, DAYS_BEFORE_MONTH,
      DAYS_IN_MONTH;
    cbn [Z.eqb Pos.eqb Z.ltb Z.compare Pos.compare Pos.compare_cont
         orb andb negb];
    destruct (is_leap y); split; reflexivity.
Qed.

(** The year of an ordinal, from the numbers of whole cycles of 400,
    100, 4 and 1 years before it. *)
Lemma days_before_year_cycles (a b c e : Z) :
  0 <= a -> 0 <= b <= 3 -> 0 <= c <= 24 -> 0 <= e <= 3 ->
  days_before_year (400 * a + 100 * b + 4 * c + e + 1)
  = 146097 * a + 36524 * b + 1461 * c + 365 * e.
Proof.
  intros Ha Hb Hc He. unfold days_before_year. cbn zeta.
  Z.div_mod_to_equations. lia.
Qed.

Lemma is_leap_cycles (a b c e : Z) :
  0 <= a -> 0 <= b <= 3 -> 0 <= c <= 24 -> 0 <= e <= 3 ->
  is_leap (400 * a + 100 * b + 4 * c + e + 1)
  = (e =? 3) && (negb (c =? 24) || (b =? 3)).
Proof.
  intros Ha Hb Hc He. unfold is_leap.
  destruct (e =? 3) eqn:E3; [apply Z.eqb_eq in E3 | apply Z.eqb_neq in E3].
  - replace ((400 * a + 100 * b + 4 * c + e + 1) mod 4 =? 0) with true
      by (symmetry; apply Z.eqb_eq; Z.div_mod_to_equations; lia).
    cbn [andb].
    destruct (c =? 24) eqn:E24;
      [apply Z.eqb_eq in E24 | apply Z.eqb_neq in E24]; cbn [negb orb].
    + replace ((400 * a + 100 * b + 4 * c + e + 1) mod 100 =? 0) with true
        by (symmetry; apply Z.eqb_eq; Z.div_mod_to_equations; lia).
      cbn [negb orb].
      destruct (b =? 3) eqn:Eb;
        [apply Z.eqb_eq in Eb | apply Z.eqb_neq in Eb].
      * apply Z.eqb_eq. Z.div_mod_to_equations. lia.
      * apply Z.eqb_neq. Z.div_mod_to_equations. lia.
    + replace ((400 * a + 100 * b + 4 * c + e + 1) mod 100 =? 0) with false
        by (symmetry; apply Z.eqb_neq; Z.div_mod_to_equations; lia).
      reflexivity.
  - replace ((400 * a + 100 * b + 4 * c + e + 1) mod 4 =? 0) with false
      by (symmetry; apply Z.eqb_neq; Z.div_mod_to_equations; lia).
    reflexivity.
Qed.


(** [date.fromordinal] is the inverse of [toordinal] on the ordinals of
    the calendar. *)
Lemma ord2ymd_spec (n : Z) :
  1 <= n <= MAXORDINAL ->
  let '(y, m, d) := ord2ymd n in
  1 <= y <= 9999 /\ 1 <= m <= 12 /\ 1 <= d <= days_in_month y m
  /\ days_before_year y + days_before_month y m + d = n.
Proof.
  unfold MAXORDINAL. intros Hn. unfold ord2ymd. cbn zeta.
  set (a := (n - 1) / 146097).
  set (r1 := (n - 1) mod 146097).
  set (b := r1 / 36524).
  set (r2 := r1 mod 36524).
  set (c := r2 / 1461).
  set (r3 := r2 mod 1461).
  set (e := r3 / 365).
  set (r := r3 mod 365).
  assert (H1 : n - 1 = 146097 * a + r1 /\ 0 <= r1 < 146097 /\ 0 <= a <= 24)
    by (subst a r1; Z.div_mod_to_equations; lia).
  assert (H2 : r1 = 36524 * b + r2 /\ 0 <= r2 < 36524 /\ 0 <= b <= 4)
    by (subst b r2; Z.div_mod_to_equations; lia).
  assert (H3 : r2 = 1461 * c + r3 /\ 0 <= r3 < 1461 /\ 0 <= c <= 24)
    by (subst c r3; Z.div_mod_to_equations; lia).
  assert (H4 : r3 = 365 * e + r /\ 0 <= r < 365 /\ 0 <= e <= 4)
    by (subst e r; Z.div_mod_to_equations; lia).
  clearbody a r1 b r2 c r3 e r.
  destruct ((e =? 4) || (b =? 4)) eqn:Hend.
  - (* the last day of a leap year *)
    apply orb_true_iff in Hend. rewrite !Z.eqb_eq in Hend.
    assert (Hy : a * 400 + 1 + b * 100 + c * 4 + e - 1
                 = 400 * a + 100 * (if b =? 4 then 3 else b)
                   + 4 * (if b =? 4 then 24 else c) + 3 + 1).
    { destruct (b =? 4) eqn:Eb;
        [apply Z.eqb_eq in Eb | apply Z.eqb_neq in Eb]; lia. }
    rewrite Hy.
    assert (Hb' : 0 <= (if b =? 4 then 3 else b) <= 3).
    { destruct (b =? 4) eqn:Eb;
        [apply Z.eqb_eq in Eb | apply Z.eqb_neq in Eb]; lia. }
    assert (Hc' : 0 <= (if b =? 4 then 24 else c) <= 24).
    { destruct (b =? 4) eqn:Eb;
        [apply Z.eqb_eq in Eb | apply Z.eqb_neq in Eb]; lia. }
    pose proof (days_before_year_cycles a _ _ 3 ltac:(lia) Hb' Hc'
                  ltac:(lia)) as Hd.
    pose proof (is_leap_cycles a _ _ 3 ltac:(lia) Hb' Hc' ltac:(lia)) as Hl.
    assert (Hleap : is_leap (400 * a + 100 * (if b =? 4 then 3 else b)
                             + 4 * (if b =? 4 then 24 else c) + 3 + 1)
                    = true).
    { rewrite Hl. cbn [Z.eqb Pos.eqb andb].
      destruct (b =? 4) eqn:Eb;
        [reflexivity|]. apply Z.eqb_neq in Eb.
      destruct Hend as [He | He]; [|lia].
      (* e = 4 gives r3 = 1460, and c = 24 would need r2 >= 36524 *)
      destruct (c =? 24) eqn:Ec; [|reflexivity].
      apply Z.eqb_eq in Ec. lia. }
    rewrite Hd.
    unfold days_before_month, days_in_month. rewrite Hleap.
    cbn [Z.eqb Pos.eqb Z.ltb Z.compare Pos.compare Pos.compare_cont
         orb andb negb].
    destruct (b =? 4) eqn:Eb;
      [apply Z.eqb_eq in Eb | apply Z.eqb_neq in Eb]; lia.
  - apply orb_false_iff in Hend. rewrite !Z.eqb_neq in Hend.
    assert (Hy : a * 400 + 1 + b * 100 + c * 4 + e
                 = 400 * a + 100 * b + 4 * c + e + 1) by lia.
    rewrite Hy.
    pose proof (days_before_year_cycles a b c e ltac:(lia) ltac:(lia)
                  ltac:(lia) ltac:(lia)) as Hd.
    pose proof (is_leap_cycles a b c e ltac:(lia) ltac:(lia) ltac:(lia)
                  ltac:(lia)) as Hl.
    rewrite <- Hl.
    set (y := 400 * a + 100 * b + 4 * c + e + 1) in *.
    pose proof (month_day_of_spec (is_leap y) r
                  ltac:(destruct (is_leap y); lia)) as Hmd.
    destruct (month_day_of (is_leap y) r) as [m d].
    destruct Hmd as (Hm & Hday & Hsum).
    destruct (days_tables y m Hm) as [Eb Ei]. rewrite Eb, Ei.
    repeat split; try lia.
Qed.


Lemma valid_fields (y m d h mi s : Z) :
  1 <= y <= 9999 -> 1 <= m <= 12 -> 1 <= d <= days_in_month y m ->
  0 <= h <= 23 -> 0 <= mi <= 59 -> 0 <= s <= 59 ->
  valid (mkdt y m d h mi s).
Proof.
  intros Hy Hm Hd Hh Hi Hs. unfold valid, datetime_new, MINYEAR, MAXYEAR.
  cbn [year month day hour minute second].
  repeat match goal with
         | |- context [?a <=? ?b] =>
             rewrite (proj2 (Z.leb_le a b)) by lia
         end.
  reflexivity.
Qed.

(** Adding seconds to a valid instant gives the valid instant that many
    seconds later, or fails when that instant is outside the
    calendar. *)
Lemma add_seconds_spec (t : datetime) (delta : Z) :
  valid t ->
  match add_seconds t delta with
  | Ok t' =>
      valid t' /\ total_seconds t' = total_seconds t + delta
  | Raise e =>
      e = OverflowError
      /\ (total_seconds t + delta < 86400
          \/ (MAXORDINAL + 1) * 86400 <= total_seconds t + delta)
  end.
Proof.
  intros Hv. unfold add_seconds. cbn zeta.
  set (total := total_seconds t + delta).
  destruct ((0 <? total / 86400) && (total / 86400 <=? MAXORDINAL)) eqn:C.
  - apply andb_true_iff in C. rewrite Z.ltb_lt, Z.leb_le in C.
    pose proof (ord2ymd_spec (total / 86400) ltac:(lia)) as Ho.
    destruct (ord2ymd (total / 86400)) as [[y m] d].
    destruct Ho as (Hy & Hm & Hd & Hsum).
    split.
    + apply valid_fields; try assumption;
        Z.div_mod_to_equations; lia.
    + unfold total_seconds at 1, toordinal.
      cbn [year month day hour minute second]. rewrite Hsum.
      Z.div_mod_to_equations. lia.
  - split; [reflexivity|].
    apply andb_false_iff in C. rewrite Z.ltb_ge, Z.leb_gt in C.
    unfold MAXORDINAL in *. Z.div_mod_to_equations. lia.
Qed.

(** X12: the prefixes that are listed are the hour of the query alone,
    unless the product is a fixed-format product and
    [check_adjacent_hours] is set: then they are that hour, the hour of
    the instant 3600 seconds earlier and the hour of the instant 3600
    seconds later, across days and years; and the call raises
    [OverflowError] in the first hour and the last hour of the calendar,
    where one of these instants does not exist. *)
Theorem adjacent_hours_are_one_hour_away (rq : request)
    (check_adjacent_hours : bool) :
  valid (dt_input rq) ->
  match prefixes rq check_adjacent_hours with
  | Ok ps =>
      if is_fixed_format rq && check_adjacent_hours
      then exists dt_prev dt_next,
             ps = [hour_prefix (product rq) (dt_input rq);
                   hour_prefix (product rq) dt_prev;
                   hour_prefix (product rq) dt_next]
             /\ valid dt_prev /\ valid dt_next
             /\ total_seconds dt_prev = total_seconds (dt_input rq) - 3600
             /\ total_seconds dt_next = total_seconds (dt_input rq) + 3600
      else ps = [hour_prefix (product rq) (dt_input rq)]
  | Raise e =>
      e = OverflowError
      /\ is_fixed_format rq && check_adjacent_hours = true
      /\ ((toordinal (dt_input rq) = 1 /\ hour (dt_input rq) = 0)
          \/ (toordinal (dt_input rq) = MAXORDINAL
              /\ hour (dt_input rq) = 23))
  end.
Proof.
  intros Hv. unfold prefixes.
  pose proof Hv as Hq. unfold valid in Hq. apply datetime_new_fields in Hq.
  destruct Hq as (_ & Qy & Qm & Qd & Qh & Qi & Qs).
  destruct (is_fixed_format rq && check_adjacent_hours) eqn:C;
    [|reflexivity].
  pose proof (add_seconds_spec (dt_input rq) (-3600) Hv) as Hp.
  pose proof (add_seconds_spec (dt_input rq) 3600 Hv) as Hn.
  unfold MAXORDINAL in *.
  assert (Hord : 1 <= toordinal (dt_input rq) <= 3652059).
  { unfold toordinal.
    pose proof (yday_bounds _ _ _ Qm Qd).
    pose proof (yday_in_year _ _ _ Qm Qd) as Hin.
    unfold days_in_year in Hin.
    assert (Hy : year (dt_input rq) <= 9998 \/ year (dt_input rq) = 9999)
      by lia.
    destruct Hy as [Hy | Hy].
    - unfold days_before_year; cbn zeta. Z.div_mod_to_equations. lia.
    - rewrite Hy in *. change (is_leap 9999) with false in Hin.
      cbn iota in Hin.
      change (days_before_year 9999) with 3651694. lia. }
  destruct (add_seconds (dt_input rq) (-3600)) as [dt_prev|e].
  - destruct (add_seconds (dt_input rq) 3600) as [dt_next|e].
    + exists dt_prev, dt_next. destruct Hp as [Hp1 Hp2], Hn as [Hn1 Hn2].
      repeat split; auto; lia.
    + destruct Hn as [-> Hn]. split; [reflexivity|]. split; [reflexivity|].
      right. unfold total_seconds in Hn. lia.
  - destruct Hp as [-> Hp]. split; [reflexivity|]. split; [reflexivity|].
    left. unfold total_seconds in Hp. lia.
Qed.

End GoesPrefixes.

(** ** The downloads of [download_GOES] *)

Section GoesDownloads.
Import GoesRequest.

Variable path_dest : string.
Variable force_download : bool.
Variable retrievable : string -> bool.

Local Notation "'path'" := (file_path path_dest).
Local Notation "'step'" :=
  (download_one path_dest force_download retrievable).

Lemma path_exists_In (paths : list string) (p : string) :
  path_exists paths p = true <-> In p paths.
Proof.
  unfold path_exists. rewrite existsb_exists. split.
  - intros (x & Hin & E). apply String.eqb_eq in E. now subst.
  - intros H. exists p. split; [exact H | apply String.eqb_refl].
Qed.

(** One round: the three lists only grow, and what is added. *)
Lemma download_one_cases (tr : transfer) (k : string) :
  (path_exists (local_paths tr) (path k) = true
   /\ force_download = false
   /\ step tr k
      = mktr (local_paths tr) (downloaded_files tr ++ [path k])
             (requested tr))
  \/ ((force_download = true \/ ~ In (path k) (local_paths tr))
      /\ retrievable k = true
      /\ step tr k
         = mktr (path k :: local_paths tr) (downloaded_files tr ++ [path k])
                (requested tr ++ [k]))
  \/ ((force_download = true \/ ~ In (path k) (local_paths tr))
      /\ retrievable k = false
      /\ step tr k
         = mktr (local_paths tr) (downloaded_files tr) (requested tr ++ [k])).
Proof.
  unfold download_one.
  destruct (path_exists (local_paths tr) (path k)) eqn:He;
    destruct force_download; cbn [andb negb].
  - right. destruct (retrievable k); [left | right]; auto.
  - left. auto.
  - right. destruct (retrievable k); [left | right]; auto.
  - assert (~ In (path k) (local_paths tr)).
    { intros H. apply path_exists_In in H. congruence. }
    right. destruct (retrievable k); [left | right]; auto.
Qed.

Lemma local_paths_grow (files : list string) :
  forall tr p,
    In p (local_paths tr) -> In p (local_paths (fold_left step files tr)).
Proof.
  induction files as [|f rest IH]; intros tr p Hp; cbn [fold_left];
    [exact Hp|].
  apply IH.
  destruct (download_one_cases tr f)
    as [(_ & _ & ->) | [(_ & _ & ->) | (_ & _ & ->)]];
    cbn [local_paths]; auto. now right.
Qed.

Lemma local_paths_origin (files : list string) :
  forall tr p,
    In p (local_paths (fold_left step files tr)) ->
    In p (local_paths tr)
    \/ exists k, In k files /\ retrievable k = true /\ p = path k.
Proof.
  induction files as [|f rest IH]; intros tr p Hp; cbn [fold_left] in Hp;
    [now left|].
  apply IH in Hp. destruct Hp as [Hp | (k & Hk & Hr & ->)].
  - destruct (download_one_cases tr f)
      as [(_ & _ & E) | [(_ & Hr & E) | (_ & _ & E)]];
      rewrite E in Hp; cbn [local_paths] in Hp; auto.
    destruct Hp as [<- | Hp]; [|now left].
    right. exists f. split; [now left | auto].
  - right. exists k. split; [now right | auto].
Qed.

Lemma downloaded_files_grow (files : list string) :
  forall tr p,
    In p (downloaded_files tr) ->
    In p (downloaded_files (fold_left step files tr)).
Proof.
  induction files as [|f rest IH]; intros tr p Hp; cbn [fold_left];
    [exact Hp|].
  apply IH.
  destruct (download_one_cases tr f)
    as [(_ & _ & ->) | [(_ & _ & ->) | (_ & _ & ->)]];
    cbn [downloaded_files]; auto; apply in_or_app; now left.
Qed.

Lemma downloaded_files_origin (files : list string) :
  forall tr p,
    In p (downloaded_files (fold_left step files tr)) ->
    In p (downloaded_files tr)
    \/ (In p (local_paths (fold_left step files tr))
        /\ exists k, In k files /\ p = path k).
Proof.
  induction files as [|f rest IH]; intros tr p Hp; cbn [fold_left] in *;
    [now left|].
  apply IH in Hp. destruct Hp as [Hp | (Hl & k & Hk & ->)].
  - destruct (download_one_cases tr f)
      as [(He & _ & E) | [(_ & _ & E) | (_ & _ & E)]];
      rewrite E in Hp |- *; cbn [downloaded_files] in Hp; auto;
      (apply in_app_or in Hp; destruct Hp as [Hp | [<- | []]];
       [now left|]); right.
    + split; [|exists f; split; [now left | reflexivity]].
      apply local_paths_grow. cbn [local_paths].
      now apply path_exists_In.
    + split; [|exists f; split; [now left | reflexivity]].
      apply local_paths_grow. cbn [local_paths]. now left.
  - right. split; [exact Hl|]. exists k. split; [now right | reflexivity].
Qed.

Lemma retrievable_downloaded (files : list string) (k : string) :
  In k files -> retrievable k = true ->
  forall tr, In (path k) (downloaded_files (fold_left step files tr)).
Proof.
  induction files as [|f rest IH]; intros Hk Hr tr; [contradiction|].
  cbn [fold_left]. destruct Hk as [-> | Hk]; [|now apply IH].
  apply downloaded_files_grow.
  destruct (download_one_cases tr k)
    as [(_ & _ & ->) | [(_ & _ & ->) | (_ & Hr' & _)]];
    cbn [downloaded_files]; try congruence;
    apply in_or_app; right; now left.
Qed.

Lemma present_downloaded (files : list string) (k : string) :
  force_download = false -> In k files ->
  forall tr,
    In (path k) (local_paths tr) ->
    In (path k) (downloaded_files (fold_left step files tr)).
Proof.
  intros Hf.
  induction files as [|f rest IH]; intros Hk tr Hp; [contradiction|].
  cbn [fold_left]. destruct Hk as [-> | Hk].
  - apply downloaded_files_grow.
    destruct (download_one_cases tr k)
      as [(_ & _ & ->) | [(_ & _ & ->) | ([Hc | Hc] & _ & _)]];
      cbn [downloaded_files]; try congruence; try contradiction;
      apply in_or_app; right; now left.
  - apply IH; [exact Hk|].
    destruct (download_one_cases tr f)
      as [(_ & _ & ->) | [(_ & _ & ->) | (_ & _ & ->)]];
      cbn [local_paths]; auto. now right.
Qed.

Lemma all_fail (files : list string) :
  forall tr,
    (forall k, In k files ->
               retrievable k = false
               /\ (force_download = true
                   \/ ~ In (path k) (local_paths tr))) ->
    local_paths (fold_left step files tr) = local_paths tr
    /\ downloaded_files (fold_left step files tr) = downloaded_files tr.
Proof.
  induction files as [|f rest IH]; intros tr H; cbn [fold_left]; [auto|].
  destruct (H f (or_introl eq_refl)) as [Hr Hc].
  destruct (download_one_cases tr f)
    as [(He & Hf & _) | [(_ & Hr' & _) | (_ & _ & E)]].
  - apply path_exists_In in He. destruct Hc as [Hc | Hc];
      [congruence | contradiction].
  - congruence.
  - rewrite E.
    destruct (IH (mktr (local_paths tr) (downloaded_files tr)
                       (requested tr ++ [f]))) as [E1 E2].
    + intros k Hk. cbn [local_paths]. apply H. now right.
    + cbn [local_paths downloaded_files] in E1, E2. auto.
Qed.

Lemma requested_origin (files : list string) :
  forall tr k,
    In k (requested (fold_left step files tr)) ->
    In k (requested tr)
    \/ (In k files
        /\ (force_download = true \/ ~ In (path k) (local_paths tr))).
Proof.
  induction files as [|f rest IH]; intros tr k Hk; cbn [fold_left] in Hk;
    [now left|].
  apply IH in Hk. destruct Hk as [Hk | (Hk & Hc)].
  - destruct (download_one_cases tr f)
      as [(_ & _ & E) | [(Hc & _ & E) | (Hc & _ & E)]];
      rewrite E in Hk; cbn [requested] in Hk; auto;
      (apply in_app_or in Hk; destruct Hk as [Hk | [<- | []]];
       [now left|]); right; (split; [now left | exact Hc]).
  - right. split; [now right|].
    destruct Hc as [Hc | Hc]; [now left | right].
    intros Hp. apply Hc.
    destruct (download_one_cases tr f)
      as [(_ & _ & ->) | [(_ & _ & ->) | (_ & _ & ->)]];
      cbn [local_paths]; auto. now right.
Qed.

Lemma forced_requests (files : list string) :
  force_download = true ->
  forall tr,
    requested (fold_left step files tr) = (requested tr ++ files)%list.
Proof.
  intros Hf. induction files as [|f rest IH]; intros tr; cbn [fold_left].
  - now rewrite app_nil_r.
  - rewrite IH.
    destruct (download_one_cases tr f)
      as [(_ & Hf' & _) | [(_ & _ & ->) | (_ & _ & ->)]];
      [congruence | |]; cbn [requested]; now rewrite <- app_assoc.
Qed.


(** Without [force_download], and when no two files share a local path,
    the loop is read off the local paths at its start. *)
Lemma download_fold_distinct (files : list string) :
  force_download = false ->
  NoDup (map path files) ->
  forall tr,
    let tr' := fold_left step files tr in
    downloaded_files tr'
    = (downloaded_files tr
       ++ map path
            (filter (fun k => path_exists (local_paths tr) (path k)
                              || retrievable k) files))%list
    /\ requested tr'
       = (requested tr
          ++ filter (fun k => negb (path_exists (local_paths tr) (path k)))
               files)%list
    /\ (forall k, In k files ->
                  path_exists (local_paths tr') (path k)
                  = path_exists (local_paths tr) (path k) || retrievable k).
Proof.
  intros Hf. induction files as [|f rest IH]; intros Hnd tr; cbn zeta.
  - cbn. rewrite !app_nil_r. repeat split. intros k [].
  - cbn [map] in Hnd. apply NoDup_cons_iff in Hnd. destruct Hnd as [Hnf Hnd].
    specialize (IH Hnd (step tr f)). cbn zeta in IH.
    destruct IH as (Ed & Er & Hl).
    cbn [fold_left]. rewrite Ed, Er.
    assert (Hother : forall k,
               In k rest ->
               path_exists (local_paths (step tr f)) (path k)
               = path_exists (local_paths tr) (path k)).
    { intros k Hk.
      assert (Hne : path f <> path k).
      { intros E. apply Hnf. rewrite E. now apply in_map. }
      destruct (download_one_cases tr f)
        as [(_ & _ & ->) | [(_ & _ & ->) | (_ & _ & ->)]];
        cbn [local_paths]; try reflexivity.
      unfold path_exists. cbn [existsb].
      apply String.eqb_neq in Hne. rewrite String.eqb_sym in Hne.
      now rewrite Hne. }
    assert (Hfilter1 :
              filter (fun k => path_exists (local_paths (step tr f)) (path k)
                               || retrievable k) rest
              = filter (fun k => path_exists (local_paths tr) (path k)
                                 || retrievable k) rest).
    { apply filter_ext_in. intros k Hk. now rewrite Hother. }
    assert (Hfilter2 :
              filter (fun k => negb (path_exists (local_paths (step tr f))
                                                 (path k))) rest
              = filter (fun k => negb (path_exists (local_paths tr) (path k)))
                       rest).
    { apply filter_ext_in. intros k Hk. now rewrite Hother. }
    rewrite Hfilter1, Hfilter2. cbn [filter].
    assert (Hself : path_exists (local_paths (fold_left step rest (step tr f)))
                                (path f)
                    = path_exists (local_paths (step tr f)) (path f)).
    { destruct (path_exists (local_paths (step tr f)) (path f)) eqn:E.
      - apply path_exists_In. apply local_paths_grow.
        now apply path_exists_In.
      - destruct (path_exists (local_paths (fold_left step rest (step tr f)))
                              (path f)) eqn:E'; [|reflexivity].
        apply path_exists_In in E'. apply local_paths_origin in E'.
        destruct E' as [E' | (k & Hk & _ & Ek)].
        + apply path_exists_In in E'. congruence.
        + exfalso. apply Hnf. rewrite Ek. now apply in_map. }
    destruct (download_one_cases tr f)
      as [(He & _ & E) | [([Hc | Hc] & Hr & E) | ([Hc | Hc] & Hr & E)]];
      try congruence; rewrite ?E in Hl, Hother, Hself |- *;
      cbn [downloaded_files requested local_paths] in *.
    + rewrite He. cbn [orb negb map]. rewrite <- !app_assoc.
      repeat split; try reflexivity.
      intros k [<- | Hk].
      * rewrite Hself. rewrite He. reflexivity.
      * rewrite Hl by exact Hk. try rewrite Hother by exact Hk.
        reflexivity.
    + assert (He : path_exists (local_paths tr) (path f) = false).
      { destruct (path_exists (local_paths tr) (path f)) eqn:E0;
          [|reflexivity]. apply path_exists_In in E0. contradiction. }
      rewrite He, Hr. cbn [orb negb map]. rewrite <- !app_assoc.
      repeat split; try reflexivity.
      intros k [<- | Hk].
      * rewrite Hself, He, Hr. unfold path_exists. cbn [existsb].
        now rewrite String.eqb_refl.
      * rewrite Hl by exact Hk. try rewrite Hother by exact Hk.
        reflexivity.
    + assert (He : path_exists (local_paths tr) (path f) = false).
      { destruct (path_exists (local_paths tr) (path f)) eqn:E0;
          [|reflexivity]. apply path_exists_In in E0. contradiction. }
      rewrite He, Hr. cbn [orb negb map]. rewrite <- !app_assoc.
      repeat split; try reflexivity.
      intros k [<- | Hk].
      * rewrite Hself, He, Hr. reflexivity.
      * rewrite Hl by exact Hk. try rewrite Hother by exact Hk.
        reflexivity.
Qed.

Variable local : list string.
Variable files : list string.

(** X13: after a selection, [download_GOES] returns [None] exactly when
    every selected file had to be downloaded (it was not present, or
    [force_download] was set) and every download failed. *)
Theorem nothing_returned_iff_every_download_fails :
  return_value
    (downloaded_files
       (download_loop path_dest force_download retrievable local files))
  = ReturnNone
  <-> forall k,
        In k files ->
        retrievable k = false
        /\ (force_download = true \/ ~ In (path k) local).
Proof.
  unfold download_loop. split.
  - intros Hn.
    assert (Hd : downloaded_files
                   (fold_left step files (mktr local [] [])) = []).
    { destruct (downloaded_files _) as [|p [|q l]]; [reflexivity | |];
        discriminate Hn. }
    intros k Hk. split.
    + destruct (retrievable k) eqn:Hr; [|reflexivity].
      pose proof (retrievable_downloaded files k Hk Hr (mktr local [] []))
        as H.
      rewrite Hd in H. contradiction.
    + destruct (Bool.bool_dec force_download true) as [Hf | Hf];
        [now left | right].
      apply not_true_is_false in Hf. intros Hp.
      pose proof (present_downloaded files k Hf Hk (mktr local [] [])
                    Hp) as H.
      rewrite Hd in H. contradiction.
  - intros H.
    destruct (all_fail files (mktr local [] []) H) as [_ E].
    rewrite E. reflexivity.
Qed.

(** X14: every path that the downloads append is the destination
    directory joined with the file name of a selected key, and exists
    once the loop is over; the path of every key whose download
    succeeds is appended; local files are only added, each the path of
    a key whose download succeeded; and the value returned is [None]
    for no path, the path for one, the list for two or more. *)
Theorem returned_paths_exist_and_name_selected_files :
  let tr := download_loop path_dest force_download retrievable local files in
  (forall p,
      In p (downloaded_files tr) ->
      In p (local_paths tr) /\ exists k, In k files /\ p = path k)
  /\ (forall k,
         In k files -> retrievable k = true ->
         In (path k) (downloaded_files tr))
  /\ (forall p, In p local -> In p (local_paths tr))
  /\ (forall p,
         In p (local_paths tr) ->
         In p local
         \/ exists k, In k files /\ retrievable k = true /\ p = path k)
  /\ match return_value (downloaded_files tr) with
     | ReturnNone => downloaded_files tr = []
     | ReturnPath p => downloaded_files tr = [p]
     | ReturnList l =>
         l = downloaded_files tr /\ (2 <= List.length l)%nat
     end.
Proof.
  cbn zeta. unfold download_loop.
  split; [|split; [|split; [|split]]].
  - intros p Hp. apply downloaded_files_origin in Hp.
    destruct Hp as [[] | Hp]. exact Hp.
  - intros k Hk Hr. now apply retrievable_downloaded.
  - intros p Hp. now apply local_paths_grow.
  - intros p Hp. now apply local_paths_origin in Hp.
  - destruct (downloaded_files _) as [|p [|q l]]; cbn; auto.
    split; [reflexivity | lia].
Qed.

(** X15: with [force_download] every selected key is downloaded, in
    order. Without it only keys whose file was not present are
    downloaded, a file that is present is returned as it is, and when
    all are present nothing is downloaded, every path is returned and
    the local files are untouched. *)
Theorem present_files_are_not_downloaded_again :
  let tr := download_loop path_dest force_download retrievable local files in
  (force_download = true -> requested tr = files)
  /\ (force_download = false ->
      (forall k, In k (requested tr) ->
                 In k files /\ ~ In (path k) local)
      /\ (forall k, In k files -> In (path k) local ->
                    In (path k) (downloaded_files tr))
      /\ ((forall k, In k files -> In (path k) local) ->
          requested tr = [] /\ downloaded_files tr = map path files
          /\ local_paths tr = local)).
Proof.
  cbn zeta. unfold download_loop. split.
  - intros Hf. now rewrite forced_requests.
  - intros Hf. split; [|split].
    + intros k Hk. apply requested_origin in Hk.
      destruct Hk as [[] | (Hk & [Hc | Hc])]; [congruence | auto].
    + intros k Hk Hp. now apply present_downloaded.
    + intros Hall.
      assert (G : forall l tr,
                 (forall k, In k l -> In (path k) (local_paths tr)) ->
                 fold_left step l tr
                 = mktr (local_paths tr)
                        (downloaded_files tr ++ map path l)
                        (requested tr)).
      { induction l as [|f rest IH]; intros tr H; cbn [fold_left map].
        - rewrite app_nil_r. now destruct tr.
        - destruct (download_one_cases tr f)
            as [(_ & _ & E) | [([Hc | Hc] & _ & _) | ([Hc | Hc] & _ & _)]];
            try congruence;
            try (exfalso; apply Hc; apply H; now left).
          rewrite E. rewrite IH.
          + cbn [local_paths downloaded_files requested].
            now rewrite <- app_assoc.
          + intros k Hk. cbn [local_paths]. apply H. now right. }
      rewrite G by (cbn [local_paths]; exact Hall).
      cbn. auto.
Qed.

(** X16: without [force_download], and no two selected keys sharing a
    file name, the loop run a second time over the same selection
    returns the same paths, downloads only the keys that were absent
    and failed the first time, and leaves the local files as the first
    run left them. *)
Theorem second_call_downloads_only_what_failed :
  force_download = false ->
  NoDup (map path files) ->
  let first :=
    download_loop path_dest force_download retrievable local files in
  let second :=
    download_loop path_dest force_download retrievable (local_paths first)
                  files in
  downloaded_files second = downloaded_files first
  /\ requested second
     = filter (fun k => negb (path_exists local (path k))
                        && negb (retrievable k)) files
  /\ (forall k, In k (requested second) -> In k (requested first))
  /\ (forall p, In p (local_paths second) <-> In p (local_paths first)).
Proof.
  intros Hf Hnd. cbn zeta. unfold download_loop.
  destruct (download_fold_distinct files Hf Hnd (mktr local [] []))
    as (Ed1 & Er1 & Hl1).
  destruct (download_fold_distinct files Hf Hnd
              (mktr (local_paths (fold_left step files (mktr local [] [])))
                    [] []))
    as (Ed2 & Er2 & Hl2).
  cbn [local_paths downloaded_files requested app] in *.
  assert (Hp : forall k,
             In k files ->
             path_exists (local_paths (fold_left step files
                                         (mktr local [] []))) (path k)
             = path_exists local (path k) || retrievable k)
    by exact Hl1.
  split; [|split; [|split]].
  - rewrite Ed2, Ed1. f_equal. apply filter_ext_in. intros k Hk.
    rewrite Hp by exact Hk. now destruct (path_exists local (path k)),
                                  (retrievable k).
  - rewrite Er2. apply filter_ext_in. intros k Hk.
    rewrite Hp by exact Hk. apply negb_orb.
  - intros k. rewrite Er2, Er1. rewrite !filter_In.
    intros [Hk E]. split; [exact Hk|].
    rewrite Hp in E by exact Hk. rewrite negb_orb in E.
    now apply andb_prop in E.
  - intros p. split.
    + intros H. apply local_paths_origin in H.
      destruct H as [H | (k & Hk & Hr & ->)]; [exact H|].
      cbn [local_paths]. apply path_exists_In. rewrite Hp by exact Hk.
      rewrite Hr. apply orb_true_r.
    + intros H. apply local_paths_grow. exact H.
Qed.

End GoesDownloads.

(** ** Listing and the whole call of [download_GOES] *)

Section GoesCall.
Import GoesRequest.

Lemma fetch_without_error (events : list page_event) :
  Forall (fun e => e <> PageError) events ->
  fetch_s3_objects events
  = flat_map (fun e => match e with
                       | Page (Some contents) => contents
                       | _ => []
                       end) events.
Proof.
  induction 1 as [|e rest He _ IH]; [reflexivity|].
  destruct e as [[contents|]|]; cbn [fetch_s3_objects flat_map].
  - now rewrite IH.
  - exact IH.
  - congruence.
Qed.

Lemma all_objects_nil (w : world) (bucket : string) (ps : list string) :
  (forall prefix, fetch_s3_objects (pages w bucket prefix) = []) ->
  all_objects w bucket ps = [].
Proof.
  intros H. unfold all_objects.
  induction ps as [|p rest IH]; cbn [flat_map]; [reflexivity|].
  now rewrite H, IH.
Qed.

(** X17: [fetch_s3_objects] returns the contents of the pages read
    before the first exception of the paginator, in order, and does not
    raise; a page without [Contents] adds nothing. When the listing of
    every prefix fails at once the call returns [None], as for an empty
    bucket, and leaves the local files as they are. *)
Theorem listing_keeps_the_pages_before_an_error
    (before after : list page_event) :
  Forall (fun e => e <> PageError) before ->
  fetch_s3_objects (before ++ PageError :: after)
  = flat_map (fun e => match e with
                       | Page (Some contents) => contents
                       | _ => []
                       end) before
  /\ fetch_s3_objects before = fetch_s3_objects (before ++ PageError :: after)
  /\ forall timestamp satellite product band path_dest scan_params
            force_download check_adjacent_hours w,
       (forall prefix,
           exists rest,
             pages w (bucket_name satellite) prefix = PageError :: rest) ->
       match download_GOES_call timestamp satellite product band path_dest
               scan_params force_download check_adjacent_hours w with
       | Ok (r, paths) => r = ReturnNone /\ paths = local w
       | Raise _ => True
       end.
Proof.
  intros Hb.
  assert (E : fetch_s3_objects (before ++ PageError :: after)
              = fetch_s3_objects before).
  { clear Hb. induction before as [|e rest IH]; [reflexivity|].
    destruct e as [[contents|]|]; cbn [app fetch_s3_objects].
    - now rewrite IH.
    - exact IH.
    - reflexivity. }
  split; [rewrite E; now apply fetch_without_error|].
  split; [now rewrite E|].
  intros timestamp satellite product band path_dest scan_params
    force_download check_adjacent_hours w Hp.
  unfold download_GOES_call.
  destruct (negb (existsb _ _)) eqn:Hs; [auto|].
  destruct (negb (makedirs w path_dest)); [exact I|].
  destruct (parse_timestamp timestamp) as [[dt hs]|]; [|auto].
  destruct (prefixes _ _) as [ps|]; [|exact I].
  rewrite all_objects_nil.
  - unfold download_GOES. cbn [Goes.satellite]. rewrite Hs.
    cbn [is_empty]. auto.
  - intros prefix. destruct (Hp prefix) as (rest & ->). reflexivity.
Qed.

(** X18: when [download_GOES] returns, the local files it found are
    still there, and every path it returns exists, the satellite is one
    of the four, the timestamp was accepted, and the path is the
    destination directory joined with the file name of an object that
    the listing of one of the prefixes gave. *)
Theorem returned_paths_name_listed_objects
    (timestamp satellite product : string) (band : option Z)
    (path_dest : string) (scan_params : option scan_params_t)
    (force_download check_adjacent_hours : bool) (w : world)
    (r : returned) (paths : list string) :
  download_GOES_call timestamp satellite product band path_dest scan_params
                     force_download check_adjacent_hours w
  = Ok (r, paths) ->
  (forall p, In p (local w) -> In p paths)
  /\ forall p,
       In p (returned_paths r) ->
       In p paths
       /\ In satellite valid_satellites
       /\ exists dt_input has_seconds ps prefix k,
            parse_timestamp timestamp = Some (dt_input, has_seconds)
            /\ prefixes (mkreq dt_input has_seconds satellite product band
                               scan_params) check_adjacent_hours = Ok ps
            /\ In prefix ps
            /\ In k (fetch_s3_objects
                       (pages w (bucket_name satellite) prefix))
            /\ p = file_path path_dest k.
Proof.
  unfold download_GOES_call.
  destruct (negb (existsb _ _)) eqn:Hs.
  { intros [= <- <-]. split; [auto|]. intros p []. }
  destruct (negb (makedirs w path_dest)); [discriminate|].
  destruct (parse_timestamp timestamp) as [[dt hs]|] eqn:Ep.
  2:{ intros [= <- <-]. split; [auto|]. intros p []. }
  destruct (prefixes _ _) as [ps|] eqn:Eps; [|discriminate].
  set (rq := mkreq dt hs satellite product band scan_params) in *.
  set (objs := all_objects w (bucket_name satellite) ps).
  destruct (download_GOES rq objs) as [| |att|files m s] eqn:Ed;
    try (intros [= <- <-]; split; [auto|]; intros p []).
  intros [= <- <-].
  unfold download_loop.
  split; [intros p Hp; now apply local_paths_grow|].
  intros p Hp.
  assert (Hp' : In p (downloaded_files
                        (fold_left
                           (download_one path_dest force_download
                              (retrievable w (bucket_name satellite)))
                           files (mktr (local w) [] [])))).
  { destruct (downloaded_files _) as [|q [|q' l]];
      cbn [return_value returned_paths] in Hp; exact Hp. }
  apply downloaded_files_origin in Hp'.
  destruct Hp' as [[] | (Hloc & k & Hk & ->)].
  split; [exact Hloc|]. split.
  { apply negb_false_iff in Hs. apply existsb_exists in Hs.
    destruct Hs as (x & Hx & E). apply String.eqb_eq in E. now subst. }
  assert (Hsel : In k (selected (download_GOES rq objs)))
    by (rewrite Ed; exact Hk).
  destruct (selected_recorded rq objs k Hsel) as (c & _ & Hrec).
  unfold scan in Hrec. apply scan_objects_recorded in Hrec.
  destruct Hrec as [[[] | Hrec] | [Hin _]]; [discriminate Hrec|].
  unfold objs, all_objects in Hin. apply in_flat_map in Hin.
  destruct Hin as (prefix & Hpre & Hin).
  exists dt, hs, ps, prefix, k. auto.
Qed.

End GoesCall.

(** ** The output of [download_jpss_sdr] *)

Section JpssOutput.
Import Jpss.

Lemma block_In (geo : list dated) (r : dated) (x : string) :
  In x (block geo r)
  <-> matched_geo geo (snd r) <> []
      /\ (x = fst r \/ In x (matched_geo geo (snd r))).
Proof.
  unfold block. destruct (matched_geo geo (snd r)) as [|g gs].
  - split; [intros [] | intros [H _]; now contradiction H].
  - split.
    + intros [<- | H]; (split; [discriminate | auto]).
    + intros [_ [-> | H]]; [now left | now right].
Qed.

(** The geolocation rows come from the listings of the geolocation
    streams and lie in the range. *)
Lemma geo_rows_listed (ic : bool) (storage : string -> list string)
    (dp : string) (lo hi : PyDatetime.datetime) (types : list string) :
  forall geo,
    geo_rows ic storage dp lo hi types = Ok geo ->
    forall f d,
      In (f, d) geo ->
      geb d lo = true /\ ltb d hi = true
      /\ exists ty,
           In ty types /\ In f (list_blobs ic (storage (ty ++ "/" ++ dp))).
Proof.
  induction types as [|ty rest IH]; intros geo; cbn [geo_rows].
  - intros [= <-] f d [].
  - unfold bind.
    destruct (apply_returns parse_dates_geo
                (list_blobs ic (storage (ty ++ "/" ++ dp)))
                parse_dates_geo_returns) as (rows & Er & Hm & _).
    rewrite Er.
    destruct (geo_rows ic storage dp lo hi rest) as [more|];
      [|discriminate].
    intros [= <-] f d Hin. apply in_app_or in Hin.
    destruct Hin as [Hin | Hin].
    + apply in_range_In in Hin. destruct Hin as (Hin & Hlo & Hhi).
      split; [exact Hlo|]. split; [exact Hhi|].
      exists ty. split; [now left|].
      apply dropna_In in Hin. rewrite <- Hm.
      now apply (in_map fst) in Hin.
    + destruct (IH more eq_refl f d Hin) as (Hlo & Hhi & ty' & Hty & Hl).
      split; [exact Hlo|]. split; [exact Hhi|].
      exists ty'. split; [now right | exact Hl].
Qed.

Lemma list_blobs_In (ic : bool) (names : list string) (x : string) :
  In x (list_blobs ic names)
  <-> In x names /\ (ic = true \/ endswith x ".sha384" = false).
Proof.
  unfold list_blobs. rewrite filter_In.
  destruct ic; cbn [orb].
  - split; [intros [H _]; auto | intros [H _]; auto].
  - rewrite negb_true_iff. split.
    + intros [H E]. auto.
    + intros [H [E | E]]; [discriminate | auto].
Qed.

Variables band start end_ : string.
Variable include_checksums : bool.
Variable storage : string -> list string.

(** X19: a key is in the output of [download_jpss_sdr] exactly when it
    is an SDR file of the range with a geolocation file of the range at
    the same second, or a geolocation file of the range with such an
    SDR file; without geolocation files in the range, or without SDR
    files in the range, the output is empty. *)
Theorem output_pairs_files_of_the_same_second
    (out : list string) (sdr geo : list dated) :
  download_jpss_sdr band start end_ include_checksums storage = Ok out ->
  lets_get band start end_ include_checksums storage = Ok sdr ->
  geo_files band start end_ include_checksums storage = Ok geo ->
  (forall x,
      In x out
      <-> (exists t g, In (x, t) sdr /\ In (g, t) geo)
          \/ (exists t f, In (x, t) geo /\ In (f, t) sdr))
  /\ (geo = [] -> out = [])
  /\ (sdr = [] -> out = []).
Proof.
  unfold download_jpss_sdr, bind. intros E Es Eg. rewrite Es, Eg in E.
  injection E as <-.
  assert (Hin : forall x,
             In x (dedup (match_files sdr geo))
             <-> (exists t g, In (x, t) sdr /\ In (g, t) geo)
                 \/ (exists t f, In (x, t) geo /\ In (f, t) sdr)).
  { intros x. unfold dedup. rewrite fromkeys_In.
    rewrite match_files_blocks, in_flat_map. split.
    - intros [([f t] & Hr & Hb) _]. apply block_In in Hb.
      cbn [fst snd] in Hb. destruct Hb as [Hne [-> | Hg]].
      + left. exists t.
        destruct (matched_geo geo t) as [|g gs] eqn:Em;
          [now contradiction Hne|].
        exists g. split; [exact Hr|].
        apply matched_geo_In. rewrite Em. now left.
      + right. exists t, f. split; [|exact Hr].
        now apply matched_geo_In.
    - intros [(t & g & Hs & Hg) | (t & f & Hg & Hs)];
        (split; [|intros []]).
      + exists (x, t). split; [exact Hs|]. apply block_In. cbn [fst snd].
        apply matched_geo_In in Hg. split; [|now left].
        intros Hnil. rewrite Hnil in Hg. exact Hg.
      + exists (f, t). split; [exact Hs|]. apply block_In. cbn [fst snd].
        apply matched_geo_In in Hg. split; [|now right].
        intros Hnil. rewrite Hnil in Hg. exact Hg. }
  split; [exact Hin|]. split.
  - intros ->.
    destruct (dedup (match_files sdr [])) as [|x l] eqn:Ed; [reflexivity|].
    exfalso.
    destruct (proj1 (Hin x) (or_introl eq_refl))
      as [(t & g & _ & []) | (t & f & [] & _)].
  - intros ->. reflexivity.
Qed.

(** X20: every key of the output was listed under the SDR prefix of the
    band or under the prefix of its geolocation stream, for the date of
    [start]; its parsed time [t] satisfies [start <= t < end]; and
    without [include_checksums] it is no [.sha384] file. *)
Theorem output_keys_are_listed_and_in_range (out : list string) :
  download_jpss_sdr band start end_ include_checksums storage = Ok out ->
  exists lo hi,
    start_limiter start = Ok lo /\ end_limiter start end_ = Ok hi
    /\ forall x,
         In x out ->
         (include_checksums = false -> endswith x ".sha384" = false)
         /\ exists t,
              geb t lo = true /\ ltb t hi = true
              /\ ((In x (storage (target_data band ++ "/"
                                  ++ date_path start))
                   /\ parse_dates_sdr band x = Ok (Some t))
                  \/ (exists geo_type,
                         In geo_type (target_data_geo band)
                         /\ In x (storage (geo_type ++ "/"
                                           ++ date_path start))
                         /\ parse_dates_geo x = Ok (Some t))).
Proof.
  unfold download_jpss_sdr, bind.
  destruct (lets_get band start end_ include_checksums storage)
    as [sdr|] eqn:Es; [|discriminate].
  destruct (geo_files band start end_ include_checksums storage)
    as [geo|] eqn:Eg; [|discriminate].
  intros [= <-].
  destruct (lets_get_rows _ _ _ _ _ _ Es) as (lo & hi & El & Eh & Hs).
  exists lo, hi. split; [exact El|]. split; [exact Eh|].
  unfold geo_files, bind in Eg. rewrite El, Eh in Eg.
  intros x Hx. unfold dedup in Hx. apply fromkeys_In in Hx.
  destruct Hx as [Hx _]. rewrite match_files_blocks in Hx.
  apply in_flat_map in Hx. destruct Hx as ([f t] & Hr & Hb).
  apply block_In in Hb. cbn [fst snd] in Hb.
  destruct Hb as [_ [-> | Hg]].
  - destruct (Hs f t Hr) as (Hl & Hp & Hlo & Hhi).
    apply list_blobs_In in Hl. destruct Hl as [Hl Hc]. split.
    + intros Hic. destruct Hc as [Hc | Hc]; [congruence | exact Hc].
    + exists t. split; [exact Hlo|]. split; [exact Hhi|]. left. auto.
  - apply matched_geo_In in Hg.
    destruct (geo_rows_listed _ _ _ _ _ _ _ Eg x t Hg)
      as (Hlo & Hhi & ty & Hty & Hl).
    pose proof (geo_rows_rows _ _ _ _ _ _ _ Eg x t Hg) as Hp.
    apply list_blobs_In in Hl. destruct Hl as [Hl Hc]. split.
    + intros Hic. destruct Hc as [Hc | Hc]; [congruence | exact Hc].
    + exists t. split; [exact Hlo|]. split; [exact Hhi|]. right.
      exists ty. auto.
Qed.

(** X21: the selection of [download_jpss_sdr] returns whenever the two
    bounds can be built from [start] and [end]; when it raises, the
    exception is the [ValueError] of a bound: no listed name makes it
    raise. *)
Theorem only_the_range_arguments_raise :
  (forall lo hi,
      start_limiter start = Ok lo -> end_limiter start end_ = Ok hi ->
      exists out,
        download_jpss_sdr band start end_ include_checksums storage
        = Ok out)
  /\ (forall e,
         download_jpss_sdr band start end_ include_checksums storage
         = Raise e ->
         e = ValueError
         /\ (start_limiter start = Raise ValueError
             \/ end_limiter start end_ = Raise ValueError)).
Proof.
  assert (Hv : forall e,
             start_limiter start = Raise e -> e = ValueError).
  { unfold start_limiter, bind, int, datetime. intros e.
    repeat (destruct (py_int _); [|now intros [= <-]]).
    destruct (datetime_new _ _ _ _ _ _); [discriminate | now intros [= <-]]. }
  assert (Hv' : forall e,
             end_limiter start end_ = Raise e -> e = ValueError).
  { unfold end_limiter, bind, int, datetime. intros e.
    repeat (destruct (py_int _); [|now intros [= <-]]).
    destruct (datetime_new _ _ _ _ _ _); [discriminate | now intros [= <-]]. }
  split.
  - intros lo hi El Eh. unfold download_jpss_sdr, bind.
    destruct (lets_get_returns band start end_ include_checksums storage
                lo hi El Eh) as (rows & ->).
    destruct (geo_files_returns band start end_ include_checksums storage
                lo hi El Eh) as (geo & ->).
    eauto.
  - intros e E.
    destruct (start_limiter start) as [lo|e1] eqn:El.
    + destruct (end_limiter start end_) as [hi|e2] eqn:Eh.
      * exfalso.
        unfold download_jpss_sdr, bind in E.
        destruct (lets_get_returns band start end_ include_checksums storage
                    lo hi El Eh) as (rows & Er).
        destruct (geo_files_returns band start end_ include_checksums
                    storage lo hi El Eh) as (geo & Eg).
        rewrite Er, Eg in E. discriminate.
      * pose proof (Hv' e2 eq_refl) as ->.
        unfold download_jpss_sdr, lets_get, bind in E.
        rewrite El, Eh in E. injection E as <-. auto.
    + pose proof (Hv e1 eq_refl) as ->.
      unfold download_jpss_sdr, lets_get, bind in E.
      rewrite El in E. injection E as <-. auto.
Qed.

End JpssOutput.

(** ** The downloads of [download_jpss_sdr] *)

Section JpssDownloads.
Import Jpss JpssDownload.

Variable download_dir : string.

Local Notation "'lp'" := (local_path download_dir).

Lemma fromkeys_ext (l : list string) :
  forall seen seen',
    (forall x, In x seen <-> In x seen') ->
    fromkeys seen l = fromkeys seen' l.
Proof.
  induction l as [|x r IH]; intros seen seen' H; cbn [fromkeys];
    [reflexivity|].
  assert (E : existsb (String.eqb x) seen = existsb (String.eqb x) seen').
  { destruct (existsb (String.eqb x) seen) eqn:E1;
      destruct (existsb (String.eqb x) seen') eqn:E2; try reflexivity.
    - apply existsb_eqb_In in E1. apply H in E1.
      apply existsb_eqb_In in E1. congruence.
    - apply existsb_eqb_In in E2. apply H in E2.
      apply existsb_eqb_In in E2. congruence. }
  rewrite E. destruct (existsb (String.eqb x) seen').
  - now apply IH.
  - f_equal. apply IH. intros y. cbn [In]. now rewrite H.
Qed.

(** The list [local_files] holds the local path of each file once, in
    the order of the first occurrences, whatever is present. *)
Lemma plan_local_files (present : list string) (l : list string) :
  forall pl,
    local_files (fold_left (plan_one download_dir present) l pl)
    = (local_files pl ++ fromkeys (local_files pl) (map lp l))%list.
Proof.
  induction l as [|f r IH]; intros pl; cbn [fold_left map fromkeys].
  - now rewrite app_nil_r.
  - rewrite IH. unfold plan_one.
    destruct (existsb (String.eqb (lp f)) (local_files pl)) eqn:E;
      cbn [negb]; [reflexivity|].
    assert (Hext : fromkeys (local_files pl ++ [lp f]) (map lp r)
                   = fromkeys (lp f :: local_files pl) (map lp r)).
    { apply fromkeys_ext. intros x. rewrite in_app_iff. cbn [In]. tauto. }
    destruct (existsb (String.eqb (lp f)) present);
      cbn [local_files]; rewrite <- app_assoc; cbn [app];
      now rewrite Hext.
Qed.

(** The tasks: one for each path of [local_files] that is not
    present. *)
Lemma plan_tasks (present : list string) (l : list string) :
  forall pl,
    let pl' := fold_left (plan_one download_dir present) l pl in
    exists added,
      download_tasks pl' = (download_tasks pl ++ added)%list
      /\ map snd added
         = filter (fun p => negb (existsb (String.eqb p) present))
                  (fromkeys (local_files pl) (map lp l))
      /\ forall f p, In (f, p) added -> In f l /\ p = lp f.
Proof.
  induction l as [|f r IH]; intros pl; cbn zeta;
    cbn [fold_left map fromkeys].
  - exists []. rewrite app_nil_r.
    split; [reflexivity|]. split; [reflexivity|]. intros f0 p0 [].
  - specialize (IH (plan_one download_dir present pl f)). cbn zeta in IH.
    destruct IH as (added & Et & Em & Hin).
    unfold plan_one in Et, Em |- *.
    destruct (existsb (String.eqb (lp f)) (local_files pl)) eqn:E;
      cbn [negb] in *.
    + exists added. split; [exact Et|]. split; [exact Em|].
      intros f' p H. destruct (Hin f' p H). split; [now right | auto].
    + assert (Hext : fromkeys (local_files pl ++ [lp f]) (map lp r)
                     = fromkeys (lp f :: local_files pl) (map lp r)).
      { apply fromkeys_ext. intros x. rewrite in_app_iff. cbn [In]. tauto. }
      destruct (existsb (String.eqb (lp f)) present) eqn:Ep;
        cbn [local_files download_tasks] in *; rewrite Hext in Em.
      * exists added. split; [exact Et|]. split.
        -- cbn [filter]. rewrite Ep. cbn [negb]. exact Em.
        -- intros f' p H. destruct (Hin f' p H). split; [now right | auto].
      * exists ((f, lp f) :: added). split.
        -- rewrite Et. now rewrite <- app_assoc.
        -- split.
           ++ cbn [filter map snd]. rewrite Ep. cbn [negb]. now rewrite Em.
           ++ intros f' p [[= <- <-] | H]; [split; [now left | reflexivity]|].
              destruct (Hin f' p H). split; [now right | auto].
Qed.

Variable retrievable : string -> bool.
Variable matched_files : list string.

(** X22: [local_files] holds the local path of each matched file once,
    in the order of the first occurrences; the download tasks are those
    of the paths that are not present, so that no two tasks write the
    same file and no present file is downloaded again; when every path
    is present there is no task. *)
Theorem download_tasks_are_distinct_absent_files (present : list string) :
  let pl := plan_downloads download_dir present matched_files in
  local_files pl = dedup (map lp matched_files)
  /\ map snd (download_tasks pl)
     = filter (fun p => negb (existsb (String.eqb p) present))
              (local_files pl)
  /\ NoDup (map snd (download_tasks pl))
  /\ (forall f p,
         In (f, p) (download_tasks pl) ->
         In f matched_files /\ p = lp f /\ ~ In p present)
  /\ ((forall f, In f matched_files -> In (lp f) present) ->
      download_tasks pl = []).
Proof.
  cbn zeta. unfold plan_downloads.
  pose proof (plan_local_files present matched_files (mkplan [] [])) as El.
  destruct (plan_tasks present matched_files (mkplan [] []))
    as (added & Et & Em & Hin).
  cbn [local_files download_tasks app] in El, Et, Em.
  fold (dedup (map lp matched_files)) in El, Em.
  rewrite El, Et.
  split; [reflexivity|]. split; [exact Em|]. split; [|split].
  - rewrite Em. apply NoDup_filter. apply fromkeys_NoDup.
  - intros f p H. destruct (Hin f p H) as [Hf ->].
    split; [exact Hf|]. split; [reflexivity|].
    assert (Hp : In (lp f) (map snd added))
      by (change (lp f) with (snd (f, lp f)); now apply in_map).
    rewrite Em in Hp. apply filter_In in Hp. destruct Hp as [_ Hp].
    intros Hpre. apply existsb_eqb_In in Hpre. rewrite Hpre in Hp.
    discriminate.
  - intros Hall.
    destruct added as [|[f p] rest]; [reflexivity|]. exfalso.
    assert (Hp : In p (map snd ((f, p) :: rest))) by now left.
    rewrite Em in Hp. apply filter_In in Hp. destruct Hp as [_ Hp].
    destruct (Hin f p (or_introl eq_refl)) as [Hf ->].
    specialize (Hall f Hf). apply existsb_eqb_In in Hall.
    rewrite Hall in Hp. discriminate.
Qed.

Lemma run_tasks_In (present : list string) (tasks : list (string * string))
    (p : string) :
  In p (run_tasks retrievable present tasks)
  <-> In p present
      \/ exists f, In (f, p) tasks /\ retrievable f = true.
Proof.
  unfold run_tasks. rewrite in_app_iff, in_map_iff. split.
  - intros [H | ([f q] & <- & H)]; [now left|].
    apply filter_In in H. right. exists f. exact H.
  - intros [H | (f & H & Hr)]; [now left|].
    right. exists (f, p). split; [reflexivity|]. apply filter_In. auto.
Qed.

(** X23: the list that [download_jpss_sdr] returns has no duplicates
    and holds exactly the local paths of matched files that exist after
    the downloads and do not end in [.sha384], also when
    [include_checksums] is set; the local files after the call are
    those before it and the destinations of the tasks that
    succeeded. *)
Theorem returned_files_exist_and_hold_no_checksum (present : list string) :
  let '(out, present') :=
    download_files download_dir retrievable present matched_files in
  NoDup out
  /\ (forall p,
         In p out
         <-> In p present'
             /\ endswith p ".sha384" = false
             /\ exists f, In f matched_files /\ p = lp f)
  /\ (forall p, In p present -> In p present')
  /\ (forall p,
         In p present' ->
         In p present
         \/ exists f, In f matched_files /\ retrievable f = true
                      /\ p = lp f).
Proof.
  unfold download_files. cbn zeta.
  destruct (plan_tasks present matched_files (mkplan [] []))
    as (added & Et & _ & Hin).
  pose proof (plan_local_files present matched_files (mkplan [] [])) as El.
  cbn [local_files download_tasks app] in El, Et.
  unfold plan_downloads. rewrite El, Et.
  split; [apply NoDup_filter, fromkeys_NoDup|]. split; [|split].
  - intros p. rewrite filter_In, andb_true_iff, negb_true_iff.
    rewrite existsb_eqb_In. rewrite fromkeys_In, in_map_iff.
    split.
    + intros [[(f & <- & Hf) _] [Hp Hs]]. eauto.
    + intros (Hp & Hs & f & Hf & ->).
      split; [|auto]. split; [eauto | intros []].
  - intros p Hp. apply run_tasks_In. now left.
  - intros p Hp. apply run_tasks_In in Hp.
    destruct Hp as [Hp | (f & Hf & Hr)]; [now left|].
    right. destruct (Hin f p Hf) as [Hm ->]. eauto.
Qed.


(** With more files present there are fewer tasks. *)
Lemma plan_tasks_fewer (present present' : list string) (l : list string) :
  (forall p, In p present -> In p present') ->
  forall pl pl',
    local_files pl = local_files pl' ->
    (forall t, In t (download_tasks pl') -> In t (download_tasks pl)) ->
    forall t,
      In t (download_tasks (fold_left (plan_one download_dir present') l pl'))
      -> In t (download_tasks (fold_left (plan_one download_dir present) l
                                 pl)).
Proof.
  intros Hsub. induction l as [|f r IH]; intros pl pl' El Ht;
    cbn [fold_left]; [exact Ht|].
  apply IH.
  - unfold plan_one. rewrite El.
    destruct (negb _); [|exact El].
    destruct (existsb (String.eqb (lp f)) present),
      (existsb (String.eqb (lp f)) present'); reflexivity.
  - unfold plan_one. rewrite El.
    destruct (negb _); [|exact Ht].
    destruct (existsb (String.eqb (lp f)) present) eqn:E1;
      destruct (existsb (String.eqb (lp f)) present') eqn:E2;
      cbn [download_tasks]; intros t H.
    + now apply Ht.
    + apply existsb_eqb_In in E1. apply Hsub in E1.
      apply existsb_eqb_In in E1. congruence.
    + apply in_or_app. left. now apply Ht.
    + apply in_app_or in H. apply in_or_app.
      destruct H as [H | H]; [left; now apply Ht | now right].
Qed.

(** X24: the downloads run a second time over the same matched files
    return the same list and leave the local files as they are; the
    only tasks are tasks of the first run, for blobs that cannot be
    retrieved. *)
Theorem second_call_returns_the_same_files (present : list string) :
  let '(out1, present1) :=
    download_files download_dir retrievable present matched_files in
  let '(out2, present2) :=
    download_files download_dir retrievable present1 matched_files in
  out2 = out1
  /\ (forall p, In p present2 <-> In p present1)
  /\ forall f p,
       In (f, p) (download_tasks
                    (plan_downloads download_dir present1 matched_files)) ->
       retrievable f = false
       /\ In (f, p) (download_tasks
                       (plan_downloads download_dir present matched_files)).
Proof.
  unfold download_files. cbn zeta.
  set (pl1 := plan_downloads download_dir present matched_files).
  set (present1 := run_tasks retrievable present (download_tasks pl1)).
  set (pl2 := plan_downloads download_dir present1 matched_files).
  assert (Hsub : forall p, In p present -> In p present1)
    by (intros p Hp; apply run_tasks_In; now left).
  assert (Hfewer : forall t, In t (download_tasks pl2) ->
                             In t (download_tasks pl1)).
  { subst pl1 pl2. unfold plan_downloads.
    apply (plan_tasks_fewer present present1 matched_files Hsub);
      [reflexivity | auto]. }
  assert (Hfail : forall f p, In (f, p) (download_tasks pl2) ->
                              retrievable f = false).
  { intros f p H.
    destruct (retrievable f) eqn:Hr; [|reflexivity]. exfalso.
    assert (Hp : In p present1)
      by (apply run_tasks_In; right; exists f; auto).
    destruct (plan_tasks present1 matched_files (mkplan [] []))
      as (added & Et & Em & _).
    cbn [local_files download_tasks app] in Et, Em.
    unfold pl2, plan_downloads in H. rewrite Et in H.
    assert (Hq : In p (map snd added))
      by (change p with (snd (f, p)); now apply in_map).
    rewrite Em in Hq. apply filter_In in Hq. destruct Hq as [_ Hq].
    apply existsb_eqb_In in Hp. rewrite Hp in Hq. discriminate. }
  assert (Hsame : forall p,
             In p (run_tasks retrievable present1 (download_tasks pl2))
             <-> In p present1).
  { intros p. rewrite run_tasks_In. split; [|now left].
    intros [H | (f & H & Hr)]; [exact H|].
    rewrite (Hfail f p H) in Hr. discriminate. }
  assert (El : local_files pl2 = local_files pl1).
  { subst pl1 pl2. unfold plan_downloads.
    now rewrite !plan_local_files. }
  split; [|split].
  - rewrite El. apply filter_ext. intros p. f_equal.
    destruct (existsb (String.eqb p) present1) eqn:E1;
      destruct (existsb (String.eqb p)
                  (run_tasks retrievable present1 (download_tasks pl2)))
        eqn:E2; try reflexivity.
    + apply existsb_eqb_In in E1. apply Hsame in E1.
      apply existsb_eqb_In in E1. congruence.
    + apply existsb_eqb_In in E2. apply Hsame in E2.
      apply existsb_eqb_In in E2. congruence.
  - exact Hsame.
  - intros f p H. split; [now apply (Hfail f p) | now apply Hfewer].
Qed.

End JpssDownloads.

(** ** The properties on concrete requests *)

Section GoesWitnesses.
Import GoesRequest Cases MoreCases.

(** The CONUS listing: the selected object is listed and passes the
    test. *)
Lemma selected_objects_witness :
  In conus_m6_0130 (selected (download_GOES conus_rq conus_objs))
  /\ In conus_m6_0130 conus_objs
  /\ exists c,
       In c (combos conus_rq)
       /\ matches conus_rq (pattern_of conus_rq conus_objs c) conus_m6_0130
          = true.
Proof.
  assert (H : In conus_m6_0130 (selected (download_GOES conus_rq conus_objs)))
    by (vm_compute; auto).
  split; [exact H|].
  exact (selected_objects_are_listed_and_pass conus_rq conus_objs
           conus_m6_0130 H).
Defined.

(** The CONUS listing: something is selected. *)
Lemma nothing_selected_witness :
  existsb (String.eqb (satellite conus_rq)) valid_satellites = true
  /\ conus_objs <> []
  /\ exists files m s,
       download_GOES conus_rq conus_objs = Matched files m s /\ files <> [].
Proof.
  assert (Hs : existsb (String.eqb (satellite conus_rq)) valid_satellites
               = true) by reflexivity.
  assert (Hn : conus_objs <> []) by discriminate.
  split; [exact Hs|]. split; [exact Hn|].
  pose proof (nothing_selected_iff_nothing_passes conus_rq conus_objs Hs Hn)
    as H.
  destruct (download_GOES conus_rq conus_objs) as [| |att|files m s];
    try contradiction.
  - exfalso. destruct H as [_ H].
    assert (Hm : matches conus_rq
                   (pattern_of conus_rq conus_objs ("6", "")) conus_m6_0130
                 = true) by (vm_compute; reflexivity).
    rewrite (H ("6", "") conus_m6_0130) in Hm;
      [discriminate | vm_compute; auto | vm_compute; auto].
  - exists files, m, s. split; [reflexivity | exact (proj1 H)].
Defined.

(** Lightning at 12:00:20: the object of that second, the second of
    three. *)
Lemma lightning_with_seconds_witness :
  rule_of glm_second_rq = GlmSecond
  /\ download_GOES glm_second_rq [glm_000500; glm_002000; glm_001500]
     = Matched [glm_002000] "" ""
  /\ exists l1 l2,
       [glm_000500; glm_002000; glm_001500] = (l1 ++ glm_002000 :: l2)%list
       /\ forall k',
            In k' l1 ->
            matches glm_second_rq (target_pattern glm_second_rq "" "" "") k'
            = false.
Proof.
  assert (Hr : rule_of glm_second_rq = GlmSecond) by reflexivity.
  assert (E : download_GOES glm_second_rq
                [glm_000500; glm_002000; glm_001500]
              = Matched [glm_002000] "" "") by (vm_compute; reflexivity).
  split; [exact Hr|]. split; [exact E|].
  pose proof (lightning_with_seconds_selects_first_exact_text glm_second_rq
                [glm_000500; glm_002000; glm_001500] Hr) as H.
  rewrite E in H.
  destruct H as (_ & _ & l1 & k & l2 & El & [= <-] & _ & _ & Hpre).
  exists l1, l2. split; [exact El | exact Hpre].
Defined.

(** Lightning without seconds on the two objects at 5 and 15
    seconds. *)
Lemma lightning_without_seconds_witness :
  rule_of glm_rq = GlmMinute
  /\ existsb (String.eqb (satellite glm_rq)) valid_satellites = true
  /\ selected (download_GOES glm_rq [glm_000500; glm_001500])
     = [glm_001500].
Proof.
  assert (Hr : rule_of glm_rq = GlmMinute) by reflexivity.
  assert (Hs : existsb (String.eqb (satellite glm_rq)) valid_satellites
               = true) by reflexivity.
  split; [exact Hr|]. split; [exact Hs|].
  rewrite (lightning_without_seconds_selection glm_rq
             [glm_000500; glm_001500] Hr Hs).
  vm_compute. reflexivity.
Defined.

(** Full-disk imagery: the reported mode is the requested one and the
    sector is empty. *)
Lemma exact_minute_witness :
  rule_of fd_rq = ExactMinute
  /\ download_GOES fd_rq [fd_00XX] = Matched [fd_00XX] "6" ""
  /\ exists c,
       In c (combos fd_rq)
       /\ [fd_00XX]
          = filter (exact_minute fd_rq (pattern_of fd_rq [fd_00XX] c))
                   [fd_00XX].
Proof.
  assert (Hr : rule_of fd_rq = ExactMinute) by reflexivity.
  assert (E : download_GOES fd_rq [fd_00XX] = Matched [fd_00XX] "6" "")
    by (vm_compute; reflexivity).
  split; [exact Hr|]. split; [exact E|].
  pose proof (exact_minute_selects_all_of_first_pattern fd_rq [fd_00XX] Hr)
    as H.
  rewrite E in H. destruct H as (_ & _ & pre & c & post & Hc & Hf & _).
  exists c. split; [|exact Hf].
  rewrite Hc. apply in_or_app. right. now left.
Defined.

(** A band given with a solar product changes nothing. *)
Lemma band_ignored_witness :
  is_fixed_format suvi_rq = true
  /\ download_GOES (with_band suvi_rq (Some 13)) [suvi_001000; suvi_010000]
     = download_GOES suvi_rq [suvi_001000; suvi_010000].
Proof.
  assert (H : is_fixed_format suvi_rq = true) by reflexivity.
  split; [exact H|].
  exact (proj2 (band_is_read_only_with_band_tokens suvi_rq
                  [suvi_001000; suvi_010000] (Some 13)
                  (or_intror (or_intror H)))).
Defined.

(** A CONUS object of 12:00:00 for the query 12:00. *)
Lemma query_instant_witness :
  valid (dt_input conus_rq)
  /\ 1000 <= year (dt_input conus_rq)
  /\ candidate "OR_ABI-L2-CMIPC-M6C13_G16_s" conus_m6_0000
     = Some (strftime_YjHMS (dt_input conus_rq))
  /\ time_diff conus_rq "OR_ABI-L2-CMIPC-M6C13_G16_s" conus_m6_0000 = Some 0
  /\ matches conus_rq "OR_ABI-L2-CMIPC-M6C13_G16_s" conus_m6_0000 = true.
Proof.
  assert (Hv : valid (dt_input conus_rq)) by reflexivity.
  assert (Hy : 1000 <= year (dt_input conus_rq)) by (simpl; lia).
  assert (Hc : candidate "OR_ABI-L2-CMIPC-M6C13_G16_s" conus_m6_0000
               = Some (strftime_YjHMS (dt_input conus_rq)))
    by (vm_compute; reflexivity).
  split; [exact Hv|]. split; [exact Hy|]. split; [exact Hc|].
  exact (proj2 (object_at_the_query_instant_passes_every_rule conus_rq
                  "OR_ABI-L2-CMIPC-M6C13_G16_s" conus_m6_0000 Hv Hy Hc)).
Defined.

(** Lightning at 12:00:20 and the object of that second. *)
Lemma query_second_witness :
  rule_of glm_second_rq = GlmSecond
  /\ candidate "OR_GLM-L2-LCFA_G16_s" glm_002000 = Some "2025281120020"
  /\ strptime_Yj (slice "2025281120020" 0 13) = Some (mkdt 2025 10 8 12 0 20)
  /\ matches glm_second_rq "OR_GLM-L2-LCFA_G16_s" glm_002000 = true.
Proof.
  assert (Hr : rule_of glm_second_rq = GlmSecond) by reflexivity.
  assert (Hc : candidate "OR_GLM-L2-LCFA_G16_s" glm_002000
               = Some "2025281120020") by (vm_compute; reflexivity).
  assert (Hp : strptime_Yj (slice "2025281120020" 0 13)
               = Some (mkdt 2025 10 8 12 0 20)) by (vm_compute; reflexivity).
  split; [exact Hr|]. split; [exact Hc|]. split; [exact Hp|].
  apply (lightning_with_seconds_matches_the_query_second glm_second_rq
           "OR_GLM-L2-LCFA_G16_s" glm_002000 "2025281120020"
           (mkdt 2025 10 8 12 0 20) Hr).
  - reflexivity.
  - simpl. lia.
  - exact Hc.
  - exact Hp.
  - vm_compute. reflexivity.
  - reflexivity.
Defined.

(** The two texts of 8 October 2025, 12:00. *)
Lemma documented_timestamps_witness :
  valid noon
  /\ text_second noon = "2025-10-08 12:00:00"
  /\ text_minute noon = "2025-10-08 12:00"
  /\ parse_timestamp (text_second noon) = Some (noon, true)
  /\ parse_timestamp (text_minute noon) = Some (noon, false).
Proof.
  assert (Hv : valid noon) by reflexivity.
  split; [exact Hv|]. split; [reflexivity|]. split; [reflexivity|].
  destruct (documented_timestamps_are_read noon Hv) as [H1 H2].
  split; [exact H1 | apply H2; reflexivity].
Defined.

(** The text [2025-10-08 12:00]. *)
Lemma whole_minute_witness :
  parse_timestamp "2025-10-08 12:00" = Some (noon, false)
  /\ valid noon /\ second noon = 0.
Proof.
  assert (E : parse_timestamp "2025-10-08 12:00" = Some (noon, false))
    by (vm_compute; reflexivity).
  split; [exact E|].
  destruct (timestamp_without_seconds_is_a_whole_minute _ _ _ E)
    as (Hv & _ & H0).
  split; [exact Hv | now apply H0].
Defined.

(** Two pages, an error, and a page that is never read. *)
Lemma listing_error_witness :
  Forall (fun e => e <> PageError) [Page (Some [suvi_001000]); Page None]
  /\ fetch_s3_objects [Page (Some [suvi_001000]); Page None; PageError;
                       Page (Some [suvi_010000])]
     = [suvi_001000].
Proof.
  assert (H : Forall (fun e => e <> PageError)
                     [Page (Some [suvi_001000]); Page None])
    by (repeat constructor; discriminate).
  split; [exact H|].
  exact (proj1 (listing_keeps_the_pages_before_an_error
                  [Page (Some [suvi_001000]); Page None]
                  [Page (Some [suvi_010000])] H)).
Defined.

(** The hours around 1 January 2025, 00:30. *)
Lemma adjacent_hours_witness :
  valid (mkdt 2025 1 1 0 30 0)
  /\ prefixes (mkreq (mkdt 2025 1 1 0 30 0) false "G16" "MAG-L1b-GEOF"
                     None None) true
     = Ok ["MAG-L1b-GEOF/2025/001/00/"; "MAG-L1b-GEOF/2024/366/23/";
           "MAG-L1b-GEOF/2025/001/01/"]
  /\ exists dt_prev dt_next,
       hour_prefix "MAG-L1b-GEOF" dt_prev = "MAG-L1b-GEOF/2024/366/23/"
       /\ hour_prefix "MAG-L1b-GEOF" dt_next = "MAG-L1b-GEOF/2025/001/01/"
       /\ total_seconds dt_prev
          = total_seconds (mkdt 2025 1 1 0 30 0) - 3600
       /\ total_seconds dt_next
          = total_seconds (mkdt 2025 1 1 0 30 0) + 3600.
Proof.
  assert (Hv : valid (mkdt 2025 1 1 0 30 0)) by reflexivity.
  assert (E : prefixes (mkreq (mkdt 2025 1 1 0 30 0) false "G16"
                              "MAG-L1b-GEOF" None None) true
              = Ok ["MAG-L1b-GEOF/2025/001/00/"; "MAG-L1b-GEOF/2024/366/23/";
                    "MAG-L1b-GEOF/2025/001/01/"])
    by (vm_compute; reflexivity).
  split; [exact Hv|]. split; [exact E|].
  pose proof (adjacent_hours_are_one_hour_away
                (mkreq (mkdt 2025 1 1 0 30 0) false "G16" "MAG-L1b-GEOF"
                       None None) true Hv) as H.
  rewrite E in H.
  change (is_fixed_format
            (mkreq (mkdt 2025 1 1 0 30 0) false "G16" "MAG-L1b-GEOF"
                   None None) && true) with true in H.
  destruct H as (dt_prev & dt_next & El & _ & _ & Hp & Hn).
  exists dt_prev, dt_next.
  pose proof (f_equal (fun l => nth 1 l "") El) as E1.
  pose proof (f_equal (fun l => nth 2 l "") El) as E2.
  cbn [nth] in E1, E2.
  repeat split; auto.
Defined.

(** Two solar images, none of them present. *)
Lemma second_call_witness :
  NoDup (map (file_path "./samples") [suvi_001000; suvi_0099])
  /\ requested
       (download_loop "./samples" false (fun _ => true)
          (local_paths
             (download_loop "./samples" false (fun _ => true) []
                            [suvi_001000; suvi_0099]))
          [suvi_001000; suvi_0099])
     = [].
Proof.
  assert (Hnd : NoDup (map (file_path "./samples")
                           [suvi_001000; suvi_0099])).
  { repeat constructor.
    - intros [H | []]. vm_compute in H. discriminate H.
    - intros []. }
  split; [exact Hnd|].
  destruct (second_call_downloads_only_what_failed "./samples" false
              (fun _ => true) [] [suvi_001000; suvi_0099] eq_refl Hnd)
    as (_ & E & _).
  cbn zeta in E. rewrite E. reflexivity.
Defined.

(** The call for the solar images of 12:00. *)
Lemma returned_paths_witness :
  download_GOES_call "2025-10-08 12:00" "G16" "SUVI-L1b-Fe093" None
                     "./samples" None false false suvi_world
  = Ok (ReturnPath (file_path "./samples" suvi_001000),
        [file_path "./samples" suvi_001000])
  /\ exists prefix k,
       In k (fetch_s3_objects (pages suvi_world (bucket_name "G16") prefix))
       /\ file_path "./samples" suvi_001000 = file_path "./samples" k.
Proof.
  assert (E : download_GOES_call "2025-10-08 12:00" "G16" "SUVI-L1b-Fe093"
                None "./samples" None false false suvi_world
              = Ok (ReturnPath (file_path "./samples" suvi_001000),
                    [file_path "./samples" suvi_001000]))
    by (vm_compute; reflexivity).
  split; [exact E|].
  destruct (returned_paths_name_listed_objects _ _ _ _ _ _ _ _ _ _ _ E)
    as [_ H].
  destruct (H (file_path "./samples" suvi_001000) (or_introl eq_refl))
    as (_ & _ & dt & hs & ps & prefix & k & _ & _ & _ & Hk & Ep).
  exists prefix, k. split; [exact Hk | exact Ep].
Defined.

End GoesWitnesses.

Section JpssWitnesses.
Import Jpss JpssDownload Cases.

(** The listing of 1 January 2025: the three keys of the output. *)
Lemma same_second_witness :
  download_jpss_sdr "I1" "2025-01-01 00:00" "2025-01-01 00:10" false bucket
  = Ok [sdr_0000_a; geo_0000; sdr_0000_b]
  /\ (exists t g,
         In (sdr_0000_b, t) [(sdr_0000_a, t_000022); (sdr_0000_b, t_000022);
                             (sdr_0001, mkdt 2025 1 1 0 1 48)]
         /\ In (g, t) [(geo_0000, t_000022)])
  /\ ~ In sdr_0001 [sdr_0000_a; geo_0000; sdr_0000_b].
Proof.
  assert (E : download_jpss_sdr "I1" "2025-01-01 00:00" "2025-01-01 00:10"
                false bucket = Ok [sdr_0000_a; geo_0000; sdr_0000_b])
    by (vm_compute; reflexivity).
  assert (Es : lets_get "I1" "2025-01-01 00:00" "2025-01-01 00:10" false
                 bucket
               = Ok [(sdr_0000_a, t_000022); (sdr_0000_b, t_000022);
                     (sdr_0001, mkdt 2025 1 1 0 1 48)])
    by (vm_compute; reflexivity).
  assert (Eg : geo_files "I1" "2025-01-01 00:00" "2025-01-01 00:10" false
                 bucket = Ok [(geo_0000, t_000022)])
    by (vm_compute; reflexivity).
  split; [exact E|].
  destruct (output_pairs_files_of_the_same_second _ _ _ _ _ _ _ _ E Es Eg)
    as (H & _ & _).
  split.
  - exists t_000022, geo_0000. split; [right; now left | now left].
  - intros Hin. apply H in Hin.
    destruct Hin as [(t & g & Hs & Hg) | (t & f & Hg & _)].
    + destruct Hg as [Hg | []]. injection Hg as _ <-.
      destruct Hs as [Hs | [Hs | [Hs | []]]]; vm_compute in Hs;
        discriminate Hs.
    + destruct Hg as [Hg | []]. vm_compute in Hg. discriminate Hg.
Defined.

(** The listing of 1 January 2025: the bounds and the keys. *)
Lemma listed_and_in_range_witness :
  download_jpss_sdr "I1" "2025-01-01 00:00" "2025-01-01 00:10" false bucket
  = Ok [sdr_0000_a; geo_0000; sdr_0000_b]
  /\ start_limiter "2025-01-01 00:00" = Ok (mkdt 2025 1 1 0 0 0)
  /\ endswith geo_0000 ".sha384" = false.
Proof.
  assert (E : download_jpss_sdr "I1" "2025-01-01 00:00" "2025-01-01 00:10"
                false bucket = Ok [sdr_0000_a; geo_0000; sdr_0000_b])
    by (vm_compute; reflexivity).
  split; [exact E|]. split; [reflexivity|].
  destruct (output_keys_are_listed_and_in_range _ _ _ _ _ _ E)
    as (lo & hi & _ & _ & H).
  destruct (H geo_0000 (or_intror (or_introl eq_refl))) as [Hc _].
  now apply Hc.
Defined.

End JpssWitnesses.

Section GoesWitnesses2.
Import GoesRequest Cases MoreCases.

(** Sector [M2] on the mesoscale request, and a mode and a sector on
    the solar request. *)
Lemma scan_params_witness :
  download_GOES (with_scan_params meso_rq (Some (mksp None (Some "M2"))))
                [meso_050000]
  = NoMatch ["OR_ABI-L2-CMIPM2-M6C13_G16_s"; "OR_ABI-L2-CMIPM2-M3C13_G16_s";
             "OR_ABI-L2-CMIPM2-M4C13_G16_s"; "OR_ABI-L2-CMIPM2-M6C13_G16_s"]
  /\ download_GOES
       (with_scan_params suvi_rq (Some (mksp (Some "3") (Some "M1"))))
       [suvi_001000]
     = download_GOES (with_scan_params suvi_rq None) [suvi_001000].
Proof.
  destruct (scan_params_are_read_for_mode_and_mesoscale_sector meso_rq
              [meso_050000] None "M2") as (_ & _ & _ & H4).
  destruct (scan_params_are_read_for_mode_and_mesoscale_sector suvi_rq
              [suvi_001000] None "M1") as (H1 & _).
  split.
  - destruct (download_GOES
                (with_scan_params meso_rq (Some (mksp None (Some "M2"))))
                [meso_050000]) as [| |att|files m s] eqn:E;
      try (vm_compute in E; discriminate E).
    rewrite (H4 eq_refl eq_refl eq_refl (or_intror eq_refl) att eq_refl).
    vm_compute. reflexivity.
  - apply H1. right. reflexivity.
Defined.

(** One solar image that is absent and cannot be retrieved. *)
Lemma nothing_returned_witness :
  return_value
    (downloaded_files
       (download_loop "./samples" false (fun _ => false) [] [suvi_001000]))
  = ReturnNone.
Proof.
  apply (proj2 (nothing_returned_iff_every_download_fails "./samples" false
                  (fun _ => false) [] [suvi_001000])).
  intros k _. split; [reflexivity|]. right. intros [].
Defined.

(** Two solar images, the second of which cannot be retrieved. *)
Lemma returned_paths_exist_witness :
  return_value
    (downloaded_files
       (download_loop "./samples" false
          (fun k => String.eqb k suvi_001000) [] [suvi_001000; suvi_0099]))
  = ReturnPath (file_path "./samples" suvi_001000)
  /\ In (file_path "./samples" suvi_001000)
        (local_paths
           (download_loop "./samples" false
              (fun k => String.eqb k suvi_001000) []
              [suvi_001000; suvi_0099])).
Proof.
  split; [vm_compute; reflexivity|].
  destruct (returned_paths_exist_and_name_selected_files "./samples" false
              (fun k => String.eqb k suvi_001000) []
              [suvi_001000; suvi_0099]) as (H & _).
  apply (H (file_path "./samples" suvi_001000)).
  vm_compute. auto.
Defined.

(** A solar image that is present. *)
Lemma present_files_witness :
  requested
    (download_loop "./samples" false (fun _ => true)
       [file_path "./samples" suvi_001000] [suvi_001000])
  = []
  /\ requested
       (download_loop "./samples" true (fun _ => true)
          [file_path "./samples" suvi_001000] [suvi_001000])
     = [suvi_001000].
Proof.
  destruct (present_files_are_not_downloaded_again "./samples" false
              (fun _ => true) [file_path "./samples" suvi_001000]
              [suvi_001000]) as (_ & H).
  destruct (present_files_are_not_downloaded_again "./samples" true
              (fun _ => true) [file_path "./samples" suvi_001000]
              [suvi_001000]) as (Hf & _).
  split.
  - destruct (H eq_refl) as (_ & _ & Hall).
    apply Hall. intros k [<- | []]. now left.
  - exact (Hf eq_refl).
Defined.

End GoesWitnesses2.

Section JpssWitnesses2.
Import Jpss JpssDownload Cases.

(** A start that names month 13, and an ordinary one. *)
Lemma range_arguments_witness :
  download_jpss_sdr "I1" "2025-13-01 00:00" "2025-13-01 00:10" false bucket
  = Raise ValueError
  /\ start_limiter "2025-13-01 00:00" = Raise ValueError
  /\ exists out,
       download_jpss_sdr "I1" "2025-01-01 00:00" "2025-01-01 00:10" false
                         bucket = Ok out.
Proof.
  destruct (only_the_range_arguments_raise "I1" "2025-01-01 00:00"
              "2025-01-01 00:10" false bucket) as [Hok _].
  split; [vm_compute; reflexivity|]. split; [vm_compute; reflexivity|].
  apply (Hok (mkdt 2025 1 1 0 0 0) (mkdt 2025 1 1 0 10 0));
    vm_compute; reflexivity.
Defined.

(** The three matched files of 1 January 2025, the first one present. *)
Lemma download_tasks_witness :
  map fst
    (download_tasks
       (plan_downloads "/content/jpss_samples"
          [local_path "/content/jpss_samples" sdr_0000_a]
          [sdr_0000_a; geo_0000; sdr_0000_b]))
  = [geo_0000; sdr_0000_b]
  /\ NoDup
       (map snd
          (download_tasks
             (plan_downloads "/content/jpss_samples"
                [local_path "/content/jpss_samples" sdr_0000_a]
                [sdr_0000_a; geo_0000; sdr_0000_b]))).
Proof.
  split; [vm_compute; reflexivity|].
  destruct (download_tasks_are_distinct_absent_files "/content/jpss_samples"
              [sdr_0000_a; geo_0000; sdr_0000_b]
              [local_path "/content/jpss_samples" sdr_0000_a])
    as (_ & _ & H & _).
  exact H.
Defined.

(** An SDR file and its checksum file, both retrieved. *)
Lemma no_checksum_witness :
  fst (download_files "/content/jpss_samples" (fun _ => true) []
         [sdr_0000_a; sdr_0000_a ++ ".sha384"])
  = [local_path "/content/jpss_samples" sdr_0000_a]
  /\ In (local_path "/content/jpss_samples" (sdr_0000_a ++ ".sha384"))
        (snd (download_files "/content/jpss_samples" (fun _ => true) []
                [sdr_0000_a; sdr_0000_a ++ ".sha384"]))
  /\ NoDup (fst (download_files "/content/jpss_samples" (fun _ => true) []
                   [sdr_0000_a; sdr_0000_a ++ ".sha384"])).
Proof.
  split; [vm_compute; reflexivity|]. split; [vm_compute; auto|].
  pose proof (returned_files_exist_and_hold_no_checksum
                "/content/jpss_samples" (fun _ => true)
                [sdr_0000_a; sdr_0000_a ++ ".sha384"] []) as H.
  destruct (download_files "/content/jpss_samples" (fun _ => true) []
              [sdr_0000_a; sdr_0000_a ++ ".sha384"]) as [out present'].
  exact (proj1 H).
Defined.

(** The three matched files, the geolocation file out of reach. *)
Lemma second_jpss_call_witness :
  fst (download_files "/content/jpss_samples"
         (fun f => negb (String.eqb f geo_0000))
         (snd (download_files "/content/jpss_samples"
                 (fun f => negb (String.eqb f geo_0000)) []
                 [sdr_0000_a; geo_0000; sdr_0000_b]))
         [sdr_0000_a; geo_0000; sdr_0000_b])
  = fst (download_files "/content/jpss_samples"
           (fun f => negb (String.eqb f geo_0000)) []
           [sdr_0000_a; geo_0000; sdr_0000_b])
  /\ map fst
       (download_tasks
          (plan_downloads "/content/jpss_samples"
             (snd (download_files "/content/jpss_samples"
                     (fun f => negb (String.eqb f geo_0000)) []
                     [sdr_0000_a; geo_0000; sdr_0000_b]))
             [sdr_0000_a; geo_0000; sdr_0000_b]))
     = [geo_0000].
Proof.
  split; [|vm_compute; reflexivity].
  pose proof (second_call_returns_the_same_files "/content/jpss_samples"
                (fun f => negb (String.eqb f geo_0000))
                [sdr_0000_a; geo_0000; sdr_0000_b] []) as H.
  destruct (download_files "/content/jpss_samples"
              (fun f => negb (String.eqb f geo_0000)) []
              [sdr_0000_a; geo_0000; sdr_0000_b]) as [out1 present1].
  cbn [fst snd].
  destruct (download_files "/content/jpss_samples"
              (fun f => negb (String.eqb f geo_0000)) present1
              [sdr_0000_a; geo_0000; sdr_0000_b]) as [out2 present2].
  exact (proj1 H).
Defined.

End JpssWitnesses2.
